(** * Book store assistant: intent resolver, entity resolver, flow engine

    A shallow embedding of the core of [backend_library/app]:
    - [app/ai/semantic.py]   (rule tier, embedding tier, generative fallback),
    - [app/ai/llm.py]        ([classify_intent], the transactional templates),
    - [app/flow/graph.py]    (the six-state flow engine and its actions),
    - [app/flow/orchestrator.py] ([handle_query], entity resolution, audit log).

    Conventions of the embedding.
    - Python [str] is a UTF-8 byte string; [len], [lower], [strip], [split]
      and [in] are written out on bytes in [Py] so that they agree with
      Python on ASCII and on the Latin-1 letters of Spanish text.
    - Python [float] (scores, prices, totals, the random draw) is [Q]; only
      comparisons and sums of such numbers are used.
    - An [AsyncSession] is a pair of databases, the committed one and the
      working copy of the open transaction; every awaited storage call may
      raise, as decided by a fault plan indexed by the call count.  A call
      that raised does not by itself make the later calls of the session
      fail, as the database does until a rollback: the runs of the code
      after a failed round trip are those of the plans that fail the later
      calls too, so what holds for every plan holds for them.
    - An exception is its message [str(e)]: every handler of the code is
      [except Exception], and the message is all that the code keeps.
    - The regular-expression engine, the embedding model, the generative
      provider, the random source and the fault plan are parameters.

    The file has four parts: the embedding of the core, the properties of
    the embedding, the read-only executors of the orchestrator with their
    properties, and the code at concrete inputs (an environment, a
    catalogue, and runs of the flow engine, the resolvers, the executors
    and the orchestrator). *)

From Stdlib Require Import ZArith QArith Qminmax Qround List Sorted String Ascii Bool Lia.
From Stdlib Require Import DecimalString.
Import ListNotations.
Local Open Scope string_scope.
Local Open Scope Z_scope.

(** ** Python runtime helpers *)
Module Py.

(** The double quote and the newline, which a string literal cannot hold. *)
Definition dq : string := String (ascii_of_nat 34) EmptyString.
Definition nl : string := String (ascii_of_nat 10) EmptyString.

(** [str(n)] for an [int]. *)
Definition str_of_int (n : Z) : string := NilEmpty.string_of_int (Z.to_int n).

(** Truthiness of an [int | None] and of a [str | None]. *)
Definition truthy_int (v : option Z) : bool :=
  match v with
  | Some n => negb (n =? 0)
  | None => false
  end.

Definition truthy_str (v : option string) : bool :=
  match v with
  | Some EmptyString => false
  | Some _ => true
  | None => false
  end.

(** [d.get(k, default)]. *)
Definition get_default {A : Type} (v : option A) (default : A) : A :=
  match v with
  | Some a => a
  | None => default
  end.

(** [x in xs] for a list or set of strings. *)
Fixpoint str_in (x : string) (xs : list string) : bool :=
  match xs with
  | [] => false
  | y :: ys => String.eqb x y || str_in x ys
  end.

(** [sub in s] for strings. *)
Fixpoint contains (sub s : string) : bool :=
  String.prefix sub s ||
  match s with
  | EmptyString => false
  | String _ rest => contains sub rest
  end.

(** [len(s)]: the code points of a UTF-8 string are its bytes that are
    not continuation bytes (0x80..0xBF). *)
Definition is_continuation (c : ascii) : bool :=
  let n := nat_of_ascii c in (128 <=? n)%nat && (n <=? 191)%nat.

Fixpoint len (s : string) : nat :=
  match s with
  | EmptyString => O
  | String c rest => if is_continuation c then len rest else S (len rest)
  end.

(** [s.lower()] on ASCII and on the Latin-1 capitals (U+00C0..U+00DE
    except the multiplication sign), which UTF-8 writes 0xC3 0x80..0x9E. *)
Definition lower_ascii (c : ascii) : ascii :=
  let n := nat_of_ascii c in
  if (65 <=? n)%nat && (n <=? 90)%nat then ascii_of_nat (n + 32) else c.

Definition lower_latin1 (c : ascii) : ascii :=
  let n := nat_of_ascii c in
  if (128 <=? n)%nat && (n <=? 158)%nat && negb (n =? 151)%nat
  then ascii_of_nat (n + 32) else c.

Fixpoint lower_from (after_c3 : bool) (s : string) : string :=
  match s with
  | EmptyString => EmptyString
  | String c rest =>
      if after_c3 then String (lower_latin1 c) (lower_from false rest)
      else String (lower_ascii c) (lower_from (nat_of_ascii c =? 195)%nat rest)
  end.

Definition lower (s : string) : string := lower_from false s.

(** ASCII white space, as [str.strip()] and [str.split()] use it. *)
Definition is_space (c : ascii) : bool :=
  let n := nat_of_ascii c in
  (n =? 32)%nat || ((9 <=? n)%nat && (n <=? 13)%nat).

Fixpoint lstrip (s : string) : string :=
  match s with
  | EmptyString => EmptyString
  | String c rest => if is_space c then lstrip rest else s
  end.

Fixpoint rstrip (s : string) : string :=
  match s with
  | EmptyString => EmptyString
  | String c rest =>
      match rstrip rest with
      | EmptyString => if is_space c then EmptyString else String c EmptyString
      | r => String c r
      end
  end.

Definition strip (s : string) : string := rstrip (lstrip s).

(** [len(s.split())]: the number of maximal runs of non-space bytes. *)
Fixpoint count_words_from (in_word : bool) (s : string) : nat :=
  match s with
  | EmptyString => O
  | String c rest =>
      if is_space c then count_words_from false rest
      else if in_word then count_words_from true rest
      else S (count_words_from true rest)
  end.

Definition count_words (s : string) : nat := count_words_from false s.

(** [s.split()]. *)
Fixpoint split_from (cur : string) (s : string) : list string :=
  match s with
  | EmptyString => match cur with EmptyString => [] | _ => [cur] end
  | String c rest =>
      if is_space c
      then match cur with
           | EmptyString => split_from EmptyString rest
           | _ => cur :: split_from EmptyString rest
           end
      else split_from (cur ++ String c EmptyString) rest
  end.

Definition split (s : string) : list string := split_from EmptyString s.

(** [sep.join(xs)]. *)
Definition join (sep : string) (xs : list string) : string := String.concat sep xs.

(** [int(s)] for a string of decimal digits, as [\d+] captures them. *)
Fixpoint int_of_digits_from (acc : Z) (s : string) : Z :=
  match s with
  | EmptyString => acc
  | String c rest => int_of_digits_from (10 * acc + (Z.of_nat (nat_of_ascii c) - 48)) rest
  end.

Definition int_of_digits (s : string) : Z := int_of_digits_from 0 s.

(** [sorted(xs, key=key, reverse=True)] and [xs.sort(key=key, reverse=True)]:
    a stable sort, so elements with equal keys keep their order. *)
Section StableSort.
Context {A K : Type} (key : A -> K) (lt : K -> K -> bool).

Fixpoint insert_desc (x : A) (l : list A) : list A :=
  match l with
  | [] => [x]
  | y :: ys => if lt (key x) (key y) then y :: insert_desc x ys else x :: y :: ys
  end.

Fixpoint sort_desc (l : list A) : list A :=
  match l with
  | [] => []
  | x :: xs => insert_desc x (sort_desc xs)
  end.

(** [max(xs, key=key)]: the first element whose key is maximal. *)
Fixpoint max_by (best : A) (l : list A) : A :=
  match l with
  | [] => best
  | y :: ys => if lt (key best) (key y) then max_by y ys else max_by best ys
  end.
End StableSort.

End Py.

(** ** The persisted rows ([app/persistence/models.py]) *)
Module Models.

Record Book := {
  book_id : Z;
  book_title : string;
  book_author : string;
  book_genre : option string;
  book_price : Q;
  book_stock : Z;
  book_description : option string;
  book_image_base64 : option string }.

(** [cart_status]: active, checked_out. *)
Record Cart := {
  cart_id : Z;
  cart_user_id : Z;
  cart_status : string }.

Record CartItem := {
  item_id : Z;
  item_cart_id : Z;
  item_book_id : Z;
  item_quantity : Z }.

(** [order_status]: created, paid, cancelled. *)
Record Order := {
  order_id : Z;
  order_user_id : Z;
  order_status : string;
  order_total : Q;
  order_created_at : Z }.

Record OrderItem := {
  oi_id : Z;
  oi_order_id : Z;
  oi_book_id : Z;
  oi_quantity : Z;
  oi_unit_price : Q }.

(** [payment_status]: approved, rejected. *)
Record Payment := {
  payment_id : Z;
  payment_order_id : Z;
  payment_amount : Q;
  payment_status : string }.

Record SemanticFunction := {
  fn_id : Z;
  fn_name : string;
  fn_description : string;
  fn_embedding : option (list Q) }.

(** [emb_type]: example, description. *)
Record SemanticFunctionEmbedding := {
  emb_id : Z;
  emb_function_id : Z;
  emb_type : string;
  emb_vector : list Q }.

Record ExecutionLog := {
  log_id : Z;
  log_user_id : Z;
  log_session_id : option Z;
  log_query : string;
  log_matched_function : string;
  log_similarity_score : Q;
  log_method : string;
  log_top_candidates : option (list (string * Q));
  log_state_trace : option (list string);
  log_result : string }.

(** The tables, each in insertion order. *)
Record DB := {
  books : list Book;
  carts : list Cart;
  cart_items : list CartItem;
  orders : list Order;
  order_items : list OrderItem;
  payments : list Payment;
  semantic_functions : list SemanticFunction;
  semantic_function_embeddings : list SemanticFunctionEmbedding;
  execution_logs : list ExecutionLog }.

Definition with_carts (l : list Cart) (d : DB) : DB :=
  {| books := books d; carts := l; cart_items := cart_items d; orders := orders d;
     order_items := order_items d; payments := payments d;
     semantic_functions := semantic_functions d;
     semantic_function_embeddings := semantic_function_embeddings d;
     execution_logs := execution_logs d |}.

Definition with_cart_items (l : list CartItem) (d : DB) : DB :=
  {| books := books d; carts := carts d; cart_items := l; orders := orders d;
     order_items := order_items d; payments := payments d;
     semantic_functions := semantic_functions d;
     semantic_function_embeddings := semantic_function_embeddings d;
     execution_logs := execution_logs d |}.

Definition with_orders (l : list Order) (d : DB) : DB :=
  {| books := books d; carts := carts d; cart_items := cart_items d; orders := l;
     order_items := order_items d; payments := payments d;
     semantic_functions := semantic_functions d;
     semantic_function_embeddings := semantic_function_embeddings d;
     execution_logs := execution_logs d |}.

Definition with_order_items (l : list OrderItem) (d : DB) : DB :=
  {| books := books d; carts := carts d; cart_items := cart_items d; orders := orders d;
     order_items := l; payments := payments d;
     semantic_functions := semantic_functions d;
     semantic_function_embeddings := semantic_function_embeddings d;
     execution_logs := execution_logs d |}.

Definition with_payments (l : list Payment) (d : DB) : DB :=
  {| books := books d; carts := carts d; cart_items := cart_items d; orders := orders d;
     order_items := order_items d; payments := l;
     semantic_functions := semantic_functions d;
     semantic_function_embeddings := semantic_function_embeddings d;
     execution_logs := execution_logs d |}.

Definition with_execution_logs (l : list ExecutionLog) (d : DB) : DB :=
  {| books := books d; carts := carts d; cart_items := cart_items d; orders := orders d;
     order_items := order_items d; payments := payments d;
     semantic_functions := semantic_functions d;
     semantic_function_embeddings := semantic_function_embeddings d;
     execution_logs := l |}.

(** The next value of an autoincrement primary key. *)
Definition next_id (ids : list Z) : Z := 1 + fold_right Z.max 0 ids.

End Models.

(** ** The storage session and the effects of the code *)
Module Storage.
Import Models.

(** An [AsyncSession] and the environment of one request: the committed
    database, the working copy of the open transaction, the server clock,
    the fault plan of the awaited storage calls (the message of the
    exception that call number [n] raises, if any), the draws of
    [random.random()], and the number of storage calls, draws and provider
    calls made so far. *)
Record Session := {
  committed : DB;
  working : DB;
  now : Z;
  fault_plan : nat -> option string;
  rng : nat -> Q;
  io_count : nat;
  rand_count : nat;
  llm_calls : nat }.

Definition with_working (d : DB) (s : Session) : Session :=
  {| committed := committed s; working := d; now := now s;
     fault_plan := fault_plan s; rng := rng s; io_count := io_count s;
     rand_count := rand_count s; llm_calls := llm_calls s |}.

Definition with_committed (d : DB) (s : Session) : Session :=
  {| committed := d; working := working s; now := now s;
     fault_plan := fault_plan s; rng := rng s; io_count := io_count s;
     rand_count := rand_count s; llm_calls := llm_calls s |}.

Definition tick_io (s : Session) : Session :=
  {| committed := committed s; working := working s; now := now s;
     fault_plan := fault_plan s; rng := rng s; io_count := S (io_count s);
     rand_count := rand_count s; llm_calls := llm_calls s |}.

Definition tick_rand (s : Session) : Session :=
  {| committed := committed s; working := working s; now := now s;
     fault_plan := fault_plan s; rng := rng s; io_count := io_count s;
     rand_count := S (rand_count s); llm_calls := llm_calls s |}.

Definition tick_llm (s : Session) : Session :=
  {| committed := committed s; working := working s; now := now s;
     fault_plan := fault_plan s; rng := rng s; io_count := io_count s;
     rand_count := rand_count s; llm_calls := S (llm_calls s) |}.

(** A computation returns a value or raises an exception (its message). *)
Inductive outcome (A : Type) : Type :=
| Ok (a : A)
| Raise (msg : string).
Arguments Ok {A} a.
Arguments Raise {A} msg.

Definition M (A : Type) : Type := Session -> outcome A * Session.

Definition ret {A : Type} (a : A) : M A := fun s => (Ok a, s).

Definition bind {A B : Type} (m : M A) (k : A -> M B) : M B :=
  fun s =>
    match m s with
    | (Ok a, s') => k a s'
    | (Raise msg, s') => (Raise msg, s')
    end.

Definition raise {A : Type} (msg : string) : M A := fun s => (Raise msg, s).

(** [try: m except Exception as e: handler(str(e))]. *)
Definition try_except {A : Type} (m : M A) (handler : string -> M A) : M A :=
  fun s =>
    match m s with
    | (Ok a, s') => (Ok a, s')
    | (Raise msg, s') => handler msg s'
    end.

Definition modify_working (f : DB -> DB) : M unit :=
  fun s => (Ok tt, with_working (f (working s)) s).

Declare Scope session_scope.
Delimit Scope session_scope with session.
Notation "x <- m ;; k" := (bind m (fun x => k))
  (at level 100, m at next level, right associativity) : session_scope.
Notation "m ;;; k" := (bind m (fun _ => k))
  (at level 100, right associativity) : session_scope.
Local Open Scope session_scope.

(** One awaited round trip to storage: it raises when the plan says so. *)
Definition io : M unit :=
  fun s =>
    match fault_plan s (io_count s) with
    | Some msg => (Raise msg, tick_io s)
    | None => (Ok tt, tick_io s)
    end.

(** [await session.execute(select(T).where(p))] followed by [.scalars().all()]. *)
Definition execute_select {R : Type} (table : DB -> list R) (where_ : R -> bool) : M (list R) :=
  io ;;; (fun s => (Ok (filter where_ (table (working s))), s)).

(** [result.scalar_one_or_none()] and [result.scalar_one()]. *)
Definition scalar_one_or_none {R : Type} (rows : list R) : M (option R) :=
  match rows with
  | [] => ret None
  | [r] => ret (Some r)
  | _ => raise "Multiple rows were found when one or none was required"
  end.

Definition scalar_one {R : Type} (rows : list R) : M R :=
  match rows with
  | [] => raise "No row was found when one was required"
  | [r] => ret r
  | _ => raise "Multiple rows were found when exactly one was required"
  end.

(** [await session.flush()], [await session.commit()], [await session.rollback()]. *)
Definition flush : M unit := io.

Definition commit : M unit :=
  io ;;; (fun s => (Ok tt, with_committed (working s) s)).

Definition rollback : M unit :=
  io ;;; (fun s => (Ok tt, with_working (committed s) s)).

(** [random.random()]. *)
Definition random_random : M Q :=
  fun s => (Ok (rng s (rand_count s)), tick_rand s).

(** [session.add(Cart(user_id=..., status=...))]; the value is the new id. *)
Definition add_cart (user_id : Z) (status : string) : M Z :=
  fun s =>
    let d := working s in
    let i := next_id (map cart_id (carts d)) in
    (Ok i, with_working (with_carts (carts d ++ [{| cart_id := i; cart_user_id := user_id; cart_status := status |}]) d) s).

Definition add_cart_item (cart : Z) (book : Z) (quantity : Z) : M unit :=
  modify_working (fun d =>
    with_cart_items (cart_items d ++ [{| item_id := next_id (map item_id (cart_items d));
                                         item_cart_id := cart; item_book_id := book;
                                         item_quantity := quantity |}]) d).

Definition add_order (user_id : Z) (status : string) (total : Q) : M Z :=
  fun s =>
    let d := working s in
    let i := next_id (map order_id (orders d)) in
    (Ok i, with_working (with_orders (orders d ++ [{| order_id := i; order_user_id := user_id;
                                                      order_status := status; order_total := total;
                                                      order_created_at := now s |}]) d) s).

Definition add_order_item (order : Z) (book : Z) (quantity : Z) (unit_price : Q) : M unit :=
  modify_working (fun d =>
    with_order_items (order_items d ++ [{| oi_id := next_id (map oi_id (order_items d));
                                           oi_order_id := order; oi_book_id := book;
                                           oi_quantity := quantity; oi_unit_price := unit_price |}]) d).

Definition add_payment (order : Z) (amount : Q) (status : string) : M unit :=
  modify_working (fun d =>
    with_payments (payments d ++ [{| payment_id := next_id (map payment_id (payments d));
                                     payment_order_id := order; payment_amount := amount;
                                     payment_status := status |}]) d).

Definition add_execution_log (user_id : Z) (session_id : option Z) (query fn_name : string)
  (similarity : Q) (method : string) (top_candidates : option (list (string * Q)))
  (state_trace : option (list string)) (result : string) : M unit :=
  modify_working (fun d =>
    with_execution_logs (execution_logs d ++ [{| log_id := next_id (map log_id (execution_logs d));
        log_user_id := user_id; log_session_id := session_id; log_query := query;
        log_matched_function := fn_name; log_similarity_score := similarity;
        log_method := method; log_top_candidates := top_candidates;
        log_state_trace := state_trace; log_result := result |}]) d).

(** Assignments to the attributes of loaded rows. *)
Definition set_item_quantity (i : Z) (quantity : Z) (d : DB) : DB :=
  with_cart_items (map (fun it => if item_id it =? i
                                  then {| item_id := item_id it; item_cart_id := item_cart_id it;
                                          item_book_id := item_book_id it; item_quantity := quantity |}
                                  else it) (cart_items d)) d.

Definition set_cart_status (i : Z) (status : string) (d : DB) : DB :=
  with_carts (map (fun c => if cart_id c =? i
                            then {| cart_id := cart_id c; cart_user_id := cart_user_id c;
                                    cart_status := status |}
                            else c) (carts d)) d.

Definition set_order_status (i : Z) (status : string) (d : DB) : DB :=
  with_orders (map (fun o => if order_id o =? i
                             then {| order_id := order_id o; order_user_id := order_user_id o;
                                     order_status := status; order_total := order_total o;
                                     order_created_at := order_created_at o |}
                             else o) (orders d)) d.

(** [await session.delete(item)]. *)
Definition delete_cart_item (i : Z) : M unit :=
  io ;;; modify_working (fun d =>
    with_cart_items (filter (fun it => negb (item_id it =? i)) (cart_items d)) d).

End Storage.

(** ** The flow engine's data ([app/flow/graph.py], [FlowState]) *)
Module Flow.

(** [params]: the extracted parameters; an absent key is [None]. *)
Record Params := {
  p_book_id : option Z;
  p_quantity : option Z;
  p_order_id : option Z }.

(** The entries of [context] that [load_context] builds. *)
Record BookCtx := {
  bctx_id : Z;
  bctx_title : string;
  bctx_price : Q;
  bctx_stock : Z }.

Record CartItemCtx := {
  ci_book_id : Z;
  ci_quantity : Z;
  ci_title : string;
  ci_price : Q }.

Record OrderCtx := {
  octx_id : Z;
  octx_status : string;
  octx_total : Q }.

Record Context := {
  ctx_book : option BookCtx;
  ctx_cart_id : option Z;
  ctx_cart_items : option (list CartItemCtx);
  ctx_order : option OrderCtx }.

Definition empty_context : Context :=
  {| ctx_book := None; ctx_cart_id := None; ctx_cart_items := None; ctx_order := None |}.

(** [action_result]: the keys the actions of the flow engine write. *)
Record Result := {
  success : option bool;
  message : option string;
  r_book : option string;
  r_quantity : option Z;
  r_cart_id : option Z;
  r_order_id : option Z;
  r_total : option Q;
  r_items_count : option Z;
  needs_confirmation : option bool;
  r_amount : option Q;
  r_payment_status : option string;
  r_order : option OrderCtx }.

Definition empty_result : Result :=
  {| success := None; message := None; r_book := None; r_quantity := None;
     r_cart_id := None; r_order_id := None; r_total := None; r_items_count := None;
     needs_confirmation := None; r_amount := None; r_payment_status := None;
     r_order := None |}.

(** [{"success": False, "message": msg}]. *)
Definition failure (msg : string) : Result :=
  {| success := Some false; message := Some msg; r_book := None; r_quantity := None;
     r_cart_id := None; r_order_id := None; r_total := None; r_items_count := None;
     needs_confirmation := None; r_amount := None; r_payment_status := None;
     r_order := None |}.

Record FlowState := {
  user_id : Z;
  function_name : string;
  query : string;
  params : Params;
  context : Context;
  action_result : Result;
  response : string;
  state_trace : list string;
  needs_input : bool;
  missing_fields : list string;
  error : option string }.

End Flow.

(** ** Settings ([app/config.py]) *)
Module Config.

Record Settings := {
  llm_provider : string;
  similarity_threshold : Q;
  combined_similarity_threshold : Q;
  confidence_gap_threshold : Q;
  high_confidence_threshold : Q }.

(** The defaults of [class Settings]. *)
Definition default_settings : Settings :=
  {| llm_provider := "ollama";
     similarity_threshold := 45 # 100;
     combined_similarity_threshold := 30 # 100;
     confidence_gap_threshold := 5 # 100;
     high_confidence_threshold := 65 # 100 |}.

End Config.

Import Models Storage Flow Config.
Local Open Scope session_scope.
Notation "a =s b" := (String.eqb a b) (at level 70).

Section Bookstore.

(** A theorem depends on the collaborators that its statement names, and on
    no other. *)
#[local] Set Default Proof Using "Type".

(** The collaborators of the core: the settings, the two chat back ends
    (the answer to call number [n] with these messages, temperature and
    token limit), [json.dumps] of a result, and the [:.2f] format. *)
Variable settings : Settings.
Variable openai_chat : nat -> list (string * string) -> Q -> Z -> outcome string.
Variable ollama_chat : nat -> list (string * string) -> Q -> Z -> outcome string.
Variable json_dumps : Result -> string.
Variable fmt2f : Q -> string.

(** *** [app/ai/llm.py] *)

Definition DOMAIN_GUARDRAIL : string :=
  "No puedo ayudar con eso. Puedo ayudarte con compras, " ++
  "recomendaciones y pedidos de libros.".

Definition FALLBACK_RESPONSE : string :=
  "Lo siento, hubo un problema al procesar tu solicitud. " ++
  "¿Podrías intentar de nuevo?".

(** [_chat_completion]: routes to the configured back end. *)
Definition _chat_completion (messages : list (string * string)) (temperature : Q)
  (max_tokens : Z) : M string :=
  fun s =>
    let s' := tick_llm s in
    if llm_provider settings =s "openai"
    then (openai_chat (llm_calls s) messages temperature max_tokens, s')
    else if llm_provider settings =s "ollama"
    then (ollama_chat (llm_calls s) messages temperature max_tokens, s')
    else (Raise ("LLM provider no soportado: " ++ llm_provider settings), s').

(** [{fn.name: fn.description for fn in functions}]: a dict keeps the first
    position of a key and its last value. *)
Fixpoint dict_set (k v : string) (d : list (string * string)) : list (string * string) :=
  match d with
  | [] => [(k, v)]
  | (k', v') :: rest => if k' =s k then (k, v) :: rest else (k', v') :: dict_set k v rest
  end.

Definition dict_of_pairs (l : list (string * string)) : list (string * string) :=
  fold_left (fun d kv => dict_set (fst kv) (snd kv) d) l [].

Definition classify_prompt (query : string) (functions : list (string * string)) : string :=
  let fn_list := Py.join Py.nl (map (fun nd => "- " ++ fst nd ++ ": " ++ snd nd) functions) in
  "You are a classifier for a bookstore chatbot." ++ Py.nl ++
  "Given the user query, classify it into ONE of these functions." ++ Py.nl ++
  "If the query is NOT related to a bookstore (buying books, carts, orders, recommendations), respond with " ++
  Py.dq ++ "NONE" ++ Py.dq ++ "." ++ Py.nl ++ Py.nl ++
  "Available functions:" ++ Py.nl ++ fn_list ++ Py.nl ++ Py.nl ++
  "User query: " ++ Py.dq ++ query ++ Py.dq ++ Py.nl ++ Py.nl ++
  "Respond with ONLY the function name or " ++ Py.dq ++ "NONE" ++ Py.dq ++ ". No explanation.".

Definition classify_intent (query : string) (functions : list (string * string))
  : M (option string) :=
  try_except
    (result <- _chat_completion [("user", classify_prompt query functions)] 0%Q 50 ;;
     if (result =s "NONE") || negb (Py.str_in result (map fst functions))
     then ret None
     else ret (Some result))
    (fun _ => ret None).

Definition truthy_flag (v : option bool) : bool := Py.get_default v false.

Definition str_of_opt_int (v : option Z) : string :=
  match v with
  | Some n => Py.str_of_int n
  | None => "None"
  end.

(** [_build_fallback_response] on the results of the flow engine, which
    hold none of the keys books, recommendations, error, title, stock,
    status. *)
Definition _build_fallback_response (action : string) (result : Result) : string :=
  if action =s "search_books_for_sale" then "No encontre libros con esos criterios."
  else if action =s "recommend_books_for_purchase" then "No tengo recomendaciones por ahora."
  else if action =s "get_book_product_details" then
    "?" ++ Py.nl ++ "Autor: ?" ++ Py.nl ++ "Genero: ?" ++ Py.nl ++
    "Precio: $" ++ fmt2f 0%Q ++ Py.nl ++ "Stock: 0 unidades" ++ Py.nl
  else if action =s "check_book_stock" then "El libro esta agotado."
  else if action =s "add_book_to_cart" then
    if negb (truthy_flag (success result))
    then Py.get_default (message result) "No se pudo agregar al carrito."
    else Py.get_default (r_book result) "Libro" ++ " (x" ++
         Py.str_of_int (Py.get_default (r_quantity result) 1) ++ ") agregado al carrito."
  else if action =s "remove_book_from_cart" then
    if negb (truthy_flag (success result))
    then Py.get_default (message result) "No se pudo eliminar del carrito."
    else "Libro eliminado del carrito."
  else if action =s "checkout_order" then
    if negb (truthy_flag (success result))
    then Py.get_default (message result) "No se pudo crear la orden."
    else "Orden #" ++ str_of_opt_int (r_order_id result) ++ " creada. Total: $" ++
         fmt2f (Py.get_default (r_total result) 0%Q) ++ ". " ++
         Py.str_of_int (Py.get_default (r_items_count result) 0) ++ " item(s)."
  else if action =s "process_payment" then
    if negb (truthy_flag (success result))
    then Py.get_default (message result) "El pago fue rechazado. Intenta de nuevo."
    else "Pago aprobado para la orden #" ++ str_of_opt_int (r_order_id result) ++
         ". Monto: $" ++ fmt2f (Py.get_default (r_amount result) 0%Q) ++ "."
  else if action =s "cancel_order" then
    if negb (truthy_flag (success result))
    then Py.get_default (message result) "No se pudo cancelar la orden."
    else "Orden #" ++ str_of_opt_int (r_order_id result) ++ " cancelada."
  else if action =s "get_order_status" then
    "Orden #" ++ str_of_opt_int (r_order_id result) ++ ": estado ?, total $" ++
    fmt2f (Py.get_default (r_total result) 0%Q) ++ "."
  else FALLBACK_RESPONSE.

Definition natural_prompt (action result_json query : string) : string :=
  "Eres un asistente amigable de una libreria online. Responde en espanol de forma natural y util." ++ Py.nl ++ Py.nl ++
  "REGLAS IMPORTANTES:" ++ Py.nl ++
  "- SIEMPRE incluye los datos concretos del resultado (titulos, autores, precios, cantidades, estados, etc.)" ++ Py.nl ++
  "- Si hay una lista de libros, menciona cada uno con su titulo, autor y precio" ++ Py.nl ++
  "- Si es un detalle de libro, incluye titulo, autor, genero, precio, stock y descripcion" ++ Py.nl ++
  "- Si es stock, di cuantas unidades hay disponibles" ++ Py.nl ++
  "- Si es una orden, incluye el numero de orden, estado y total" ++ Py.nl ++
  "- Si hay un error en el resultado, explicalo amablemente" ++ Py.nl ++
  "- Se conciso pero COMPLETO con la informacion" ++ Py.nl ++
  "- NO digas solo " ++ Py.dq ++ "aqui estan los detalles" ++ Py.dq ++ " sin mostrarlos" ++ Py.nl ++ Py.nl ++
  "Accion realizada: " ++ action ++ Py.nl ++
  "Datos del resultado: " ++ result_json ++ Py.nl ++
  "Consulta original del usuario: " ++ query ++ Py.nl ++ Py.nl ++
  "Responde de forma natural incluyendo TODOS los datos relevantes:".

(** [build_natural_response], given [json.dumps] of the result and the text
    of [_build_fallback_response] for it. *)
Definition natural_response (action result_json query fallback : string) : M string :=
  try_except
    (_chat_completion [("user", natural_prompt action result_json query)] (5 # 10) 250)
    (fun _ => ret fallback).

Definition build_natural_response (action : string) (result : Result) (query : string)
  : M string :=
  natural_response action (json_dumps result) query (_build_fallback_response action result).

Definition TRANSACTIONAL_ACTIONS : list string :=
  ["add_book_to_cart"; "remove_book_from_cart"; "checkout_order"; "process_payment";
   "confirm_payment"; "cancel_order"; "view_cart"].

Definition payment_approved_text (result : Result) : string :=
  "Pago **aprobado** para la orden **#" ++ str_of_opt_int (r_order_id result) ++ "**." ++ Py.nl ++
  "Monto: **$" ++ fmt2f (Py.get_default (r_amount result) 0%Q) ++ "**." ++ Py.nl ++ Py.nl ++
  "¡Gracias por tu compra!".

(** [build_transactional_response]: templates only, no provider call. *)
Definition build_transactional_response (action : string) (result : Result) : string :=
  if action =s "add_book_to_cart" then
    if negb (truthy_flag (success result))
    then Py.get_default (message result) "No se pudo agregar al carrito."
    else "**" ++ Py.get_default (r_book result) "Libro" ++ "** (x" ++
         Py.str_of_int (Py.get_default (r_quantity result) 1) ++ ") agregado al carrito." ++ Py.nl ++ Py.nl ++
         "¿Qué deseas hacer ahora?" ++ Py.nl ++
         "- Escribe **" ++ Py.dq ++ "ver mi carrito" ++ Py.dq ++ "** para ver el contenido" ++ Py.nl ++
         "- Escribe **" ++ Py.dq ++ "hacer checkout" ++ Py.dq ++ "** para crear tu orden"
  else if action =s "remove_book_from_cart" then
    if negb (truthy_flag (success result))
    then Py.get_default (message result) "No se pudo eliminar del carrito."
    else "Libro eliminado del carrito. Escribe **" ++ Py.dq ++ "ver mi carrito" ++ Py.dq ++
         "** para ver el contenido actualizado."
  else if action =s "checkout_order" then
    if negb (truthy_flag (success result))
    then Py.get_default (message result) "No se pudo crear la orden."
    else "Orden **#" ++ str_of_opt_int (r_order_id result) ++ "** creada con " ++
         Py.str_of_int (Py.get_default (r_items_count result) 0) ++ " item(s)." ++ Py.nl ++
         "**Total: $" ++ fmt2f (Py.get_default (r_total result) 0%Q) ++ "**" ++ Py.nl ++ Py.nl ++
         "Para pagar, escribe **" ++ Py.dq ++ "pagar orden #" ++ str_of_opt_int (r_order_id result) ++
         Py.dq ++ "**."
  else if action =s "process_payment" then
    if truthy_flag (needs_confirmation result)
    then "Estás a punto de pagar **$" ++ fmt2f (Py.get_default (r_amount result) 0%Q) ++
         "** para la orden **#" ++ str_of_opt_int (r_order_id result) ++ "**." ++ Py.nl ++ Py.nl ++
         "Responde **" ++ Py.dq ++ "sí, confirmo el pago" ++ Py.dq ++ "** para procesar el pago."
    else if negb (truthy_flag (success result))
    then Py.get_default (message result) "El pago fue rechazado. Intenta de nuevo."
    else payment_approved_text result
  else if action =s "confirm_payment" then
    if negb (truthy_flag (success result))
    then Py.get_default (message result) "El pago fue rechazado. Intenta de nuevo."
    else payment_approved_text result
  else if action =s "cancel_order" then
    if negb (truthy_flag (success result))
    then Py.get_default (message result) "No se pudo cancelar la orden."
    else "Orden **#" ++ str_of_opt_int (r_order_id result) ++ "** cancelada exitosamente."
  else if action =s "view_cart" then
    "Tu carrito está vacío. Escribe **" ++ Py.dq ++ "buscar libros" ++ Py.dq ++
    "** para explorar el catálogo."
  else _build_fallback_response action result.

(** *** [app/ai/semantic.py] *)

(** [re.search(pattern, text)] as a truth value, the embedding model
    ([model.encode] with normalisation), [cosine_similarity] of two vectors
    and [round(x, 4)]. *)
Variable re_search : string -> string -> bool.
Variable encode : string -> list Q.
Variable cosine_similarity : list Q -> list Q -> Q.
Variable round4 : Q -> Q.

Record SemanticMatch := {
  sm_function_name : string;
  sm_similarity : Q;
  sm_method : string;
  sm_top_candidates : list (string * Q) }.

Definition INTENT_RULES : list (string * list string) :=
  [ ("add_book_to_cart",
     [ "agrega[r]?.*(?:carrito|compra|karr?ito)";
       "añad[ei]r?.*(?:carrito|compra)";
       "pon(?:er|me|lo)?.*carrito";
       "(?:quiero|deseo)\s+comprar";
       "me\s+llevo";
       "sumar.*(?:carrito|compra)";
       "guardar.*carrito";
       "(?:meter|poner).*carrito";
       "comprar\s+(?:el\s+)?(?:libro\s+)?(?:de\s+)?\w+";
       "al\s+carrito";
       "(?:mi\s+)?carrit[oa].*agrega";
       "(?:a\s+mi\s+)?(?:carrito|karr?ito)";
       "(?:libro|este).*(?:carrito|karr?ito)";
       "compra\s+\d+\s+";
       "(?:dame|ponme|tráeme|traeme)\s+\w+";
       "me\s+das\s+\w+";
       "buy\s+\w+";
       "add\s+.*(?:to\s+)?cart";
       "i\s+want\s+\w+" ]);
    ("remove_book_from_cart",
     [ "(?:quita|elimina|borra|saca|remueve)[r]?.*(?:carrito|compra)";
       "(?:no\s+quiero|ya\s+no).*(?:libro|carrito|comprar)";
       "(?:cancelar|quitar).*(?:carrito|producto)";
       "remove\s+.*(?:from\s+)?cart";
       "delete\s+.*(?:from\s+)?cart";
       "take\s+.*out\s+(?:of\s+)?cart" ]);
    ("search_books_for_sale",
     [ "(?:busca|busco|buscar)\s+libros?";
       "(?:muestra|mostrar|ver|dame).*libros?";
       "(?:qué|que)\s+libros?\s+(?:tienen|hay)";
       "libros?\s+(?:de|sobre|disponibles)";
       "(?:catálogo|catalogo|opciones)\s+(?:de\s+)?libros?";
       "(?:qué|que)\s+(?:opciones|libros?)\s+hay";
       "tienen.*(?:libros?|novelas?)";
       "(?:busca|busco|buscar)\s+\w+";
       "search\s+(?:for\s+)?books?";
       "find\s+(?:me\s+)?books?";
       "show\s+(?:me\s+)?books?" ]);
    ("recommend_books_for_purchase",
     [ "(?:recomiend[ae]|sugi[eé]r[ae]|sugiere)";
       "(?:qué|que)\s+(?:libro|me)\s+(?:recomiendas|sugieres)";
       "(?:no\s+sé|no\s+se)\s+qu[eé]\s+leer";
       "(?:dame|dime)\s+(?:una?\s+)?(?:recomendaci[oó]n|sugerencia)";
       "(?:algo|libro)\s+(?:bueno|interesante|entretenido)";
       "(?:qué|que)\s+(?:puedo|debería)\s+leer";
       "sorpr[eé]ndeme" ]);
    ("get_book_product_details",
     [ "(?:cuéntame|cuentame|dime|info|información|informacion)\s+(?:sobre|de|del)";
       "(?:de\s+)?qu[eé]\s+trata";
       "(?:detalles?|detalle)\s+(?:de|del|sobre)";
       "(?:acerca|respecto)\s+(?:de|del)";
       "(?:quién|quien)\s+(?:es\s+)?(?:el\s+)?autor";
       "(?:cuál|cual)\s+es\s+(?:el\s+)?precio";
       "(?:vale\s+la\s+pena|es\s+bueno)";
       "(?:qué|que)\s+(?:género|genero)\s+es" ]);
    ("check_book_stock",
     [ "(?:está|esta)\s+disponible";
       "(?:hay|tienen|queda).*(?:stock|disponible|ejemplar|copia)";
       "(?:cuántos?|cuantos?)\s+(?:libros?|ejemplares?|copias?)";
       "(?:stock|disponibilidad)";
       "(?:está|esta)\s+agotado";
       "(?:puedo\s+comprar).*(?:ahora|ya)" ]);
    ("checkout_order",
     [ "(?:hacer|realizar)\s+(?:el\s+)?check\s*out";
       "check\s*out";
       "(?:finalizar|terminar|completar|cerrar)\s+(?:la\s+)?compra";
       "(?:proceder|pasar)\s+al\s+pago";
       "(?:confirmar|realizar)\s+(?:mi\s+)?(?:pedido|orden)";
       "(?:quiero|deseo)\s+(?:pagar|comprar\s+todo)";
       "hacer\s+(?:el\s+)?pedido" ]);
    ("process_payment",
     [ "(?:pagar|pago)\s+(?:mi\s+)?(?:pedido|orden|compra)";
       "(?:realizar|procesar|confirmar|autorizar|completar)\s+(?:el\s+)?pago";
       "(?:ya\s+)?quiero\s+pagar";
       "pagar\s+ahora" ]);
    ("cancel_order",
     [ "(?:cancelar|anular)\s+(?:mi\s+)?(?:pedido|orden|compra)";
       "(?:no\s+quiero)\s+(?:esta\s+)?(?:orden|pedido|compra)";
       "(?:detener|parar)\s+(?:la\s+)?compra";
       "(?:eliminar|borrar)\s+(?:mi\s+)?(?:pedido|orden)" ]);
    ("get_order_status",
     [ "(?:estado|status)\s+(?:de\s+)?(?:mi\s+)?(?:pedido|orden|compra)";
       "(?:cómo|como)\s+va\s+(?:mi\s+)?(?:pedido|orden)";
       "(?:revisar|consultar|ver)\s+(?:mi\s+)?(?:pedido|orden)";
       "(?:qué|que)\s+pas[oó]\s+con\s+(?:mi\s+)?(?:pedido|orden)";
       "(?:mi\s+)?(?:pedido|orden|compra)\s+(?:está|esta|sigue|fue)" ]) ].

(** [_rule_based_match]: the first pattern of the first action that matches. *)
Fixpoint first_rule (q : string) (rules : list (string * list string)) : option string :=
  match rules with
  | [] => None
  | (fn_name, patterns) :: rest =>
      if existsb (fun pattern => re_search pattern q) patterns
      then Some fn_name
      else first_rule q rest
  end.

Definition _rule_based_match (query : string) : option string :=
  first_rule (Py.strip (Py.lower query)) INTENT_RULES.

Definition Qlt_bool (a b : Q) : bool := negb (Qle_bool b a).

(** [float(cosine_similarity(query_vec, vecs).max())] for a non-empty [vecs]. *)
Definition max_similarity (query_vec : list Q) (vecs : list (list Q)) : Q :=
  match map (cosine_similarity query_vec) vecs with
  | [] => 0%Q
  | x :: xs => fold_left Qmax xs x
  end.

(** The score of one function (the body of the loop over [functions]). *)
Definition function_score (query_vec : list Q)
  (all_individual : list SemanticFunctionEmbedding) (fn : SemanticFunction) : Q :=
  match filter (fun e => emb_function_id e =? fn_id fn) all_individual with
  | (_ :: _) as indiv =>
      let desc_embs := filter (fun e => emb_type e =s "description") indiv in
      let example_embs := filter (fun e => emb_type e =s "example") indiv in
      let desc_sim :=
        match desc_embs with
        | [] => 0%Q
        | _ => max_similarity query_vec (map emb_vector desc_embs)
        end in
      let max_example_sim :=
        match example_embs with
        | [] => 0%Q
        | _ => max_similarity query_vec (map emb_vector example_embs)
        end in
      ((6 # 10) * max_example_sim + (4 # 10) * desc_sim)%Q
  | [] =>
      match fn_embedding fn with
      | Some ((_ :: _) as v) => cosine_similarity query_vec v
      | _ => 0%Q
      end
  end.

(** [scores], after [scores.sort(key=lambda x: x[1], reverse=True)]. *)
Definition ranked_scores (query : string) (functions : list SemanticFunction)
  (all_individual : list SemanticFunctionEmbedding) : list (SemanticFunction * Q) :=
  Py.sort_desc snd Qlt_bool
    (map (fun fn => (fn, function_score (encode query) all_individual fn)) functions).

Definition top_candidates_of (scores : list (SemanticFunction * Q)) : list (string * Q) :=
  map (fun fs => (fn_name (fst fs), round4 (snd fs))) (firstn 3 scores).

(** The base threshold: it depends on whether per-example embeddings exist. *)
Definition base_threshold (all_individual : list SemanticFunctionEmbedding) : Q :=
  match all_individual with
  | _ :: _ => similarity_threshold settings
  | [] => combined_similarity_threshold settings
  end.

Definition semantic_match (best_fn : SemanticFunction) (best_score : Q)
  (top_candidates : list (string * Q)) : SemanticMatch :=
  {| sm_function_name := fn_name best_fn; sm_similarity := best_score;
     sm_method := "semantic"; sm_top_candidates := top_candidates |}.

(** Steps 2 to 4 of [select_function], once the functions (not empty) and
    the individual embeddings are loaded. *)
Definition embedding_tier (query : string) (functions : list SemanticFunction)
  (all_individual : list SemanticFunctionEmbedding) : M SemanticMatch :=
  let scores := ranked_scores query functions all_individual in
  let top_candidates := top_candidates_of scores in
  match scores with
  | [] => raise "list index out of range"
  | (best_fn, best_score) :: others =>
      let second_score := match others with (_, s2) :: _ => s2 | [] => 0%Q end in
      let threshold := base_threshold all_individual in
      if Qle_bool (high_confidence_threshold settings) best_score
      then ret (semantic_match best_fn best_score top_candidates)
      else if Qle_bool threshold best_score
      then
        let gap := (best_score - second_score)%Q in
        if Qle_bool (confidence_gap_threshold settings) gap
        then ret (semantic_match best_fn best_score top_candidates)
        else ret (semantic_match best_fn best_score top_candidates)
      else
        let clarification :=
          {| sm_function_name := ""; sm_similarity := best_score;
             sm_method := "clarification"; sm_top_candidates := top_candidates |} in
        if Qle_bool (25 # 100) best_score
        then
          try_except
            (llm_result <- classify_intent query
                             (dict_of_pairs (map (fun fn => (fn_name fn, fn_description fn)) functions)) ;;
             if Py.truthy_str llm_result
             then ret {| sm_function_name := Py.get_default llm_result "";
                         sm_similarity := best_score; sm_method := "llm_fallback";
                         sm_top_candidates := top_candidates |}
             else ret clarification)
            (fun _ => ret clarification)
        else ret clarification
  end.

Definition select_function (query : string) : M SemanticMatch :=
  match _rule_based_match query with
  | Some rule_match =>
      ret {| sm_function_name := rule_match; sm_similarity := 1%Q; sm_method := "rule";
             sm_top_candidates := [(rule_match, 1%Q)] |}
  | None =>
      functions <- execute_select semantic_functions (fun _ => true) ;;
      match functions with
      | [] => ret {| sm_function_name := ""; sm_similarity := 0%Q;
                     sm_method := "clarification"; sm_top_candidates := [] |}
      | _ =>
          all_individual <- try_except
                              (execute_select semantic_function_embeddings (fun _ => true))
                              (fun _ => ret []) ;;
          embedding_tier query functions all_individual
      end
  end.

(** *** [app/flow/graph.py] *)

Definition validate_input (state : FlowState) : FlowState :=
  let trace := (state_trace state ++ ["VALIDATE_INPUT"])%list in
  let fn := function_name state in
  let params := params state in
  let '(missing, params) :=
    if fn =s "add_book_to_cart" then
      (if negb (Py.truthy_int (p_book_id params)) then ["book_id"] else [],
       if negb (Py.truthy_int (p_quantity params))
       then {| p_book_id := p_book_id params; p_quantity := Some 1;
               p_order_id := p_order_id params |}
       else params)
    else if fn =s "remove_book_from_cart" then
      (if negb (Py.truthy_int (p_book_id params)) then ["book_id"] else [], params)
    else if fn =s "process_payment" then ([], params)
    else if fn =s "confirm_payment" then ([], params)
    else if fn =s "cancel_order" then
      (if negb (Py.truthy_int (p_order_id params)) then ["order_id"] else [], params)
    else ([], params) in
  match missing with
  | _ :: _ =>
      {| user_id := user_id state; function_name := function_name state;
         query := query state; params := params; context := context state;
         action_result := action_result state; response := response state;
         state_trace := trace; needs_input := true; missing_fields := missing;
         error := error state |}
  | [] =>
      {| user_id := user_id state; function_name := function_name state;
         query := query state; params := params; context := context state;
         action_result := action_result state; response := response state;
         state_trace := trace; needs_input := false; missing_fields := [];
         error := error state |}
  end.

Definition book_ctx (book : Book) : BookCtx :=
  {| bctx_id := book_id book; bctx_title := book_title book;
     bctx_price := book_price book; bctx_stock := book_stock book |}.

Definition order_ctx (order : Order) : OrderCtx :=
  {| octx_id := order_id order; octx_status := order_status order;
     octx_total := order_total order |}.

(** The loop of [load_context] over the items of the cart. *)
Fixpoint load_cart_items (items : list CartItem) : M (list CartItemCtx) :=
  match items with
  | [] => ret []
  | item :: rest =>
      rows <- execute_select books (fun b => book_id b =? item_book_id item) ;;
      book <- scalar_one_or_none rows ;;
      others <- load_cart_items rest ;;
      ret ({| ci_book_id := item_book_id item;
              ci_quantity := item_quantity item;
              ci_title := match book with Some b => book_title b | None => "Unknown" end;
              ci_price := match book with Some b => book_price b | None => 0%Q end |}
           :: others)
  end.

Definition load_context_ctx (fn : string) (params : Params) (user : Z) : M Context :=
  if (fn =s "add_book_to_cart") || (fn =s "remove_book_from_cart") then
    book <- (if Py.truthy_int (p_book_id params)
             then rows <- execute_select books
                            (fun b => book_id b =? Py.get_default (p_book_id params) 0) ;;
                  scalar_one_or_none rows
             else ret None) ;;
    rows <- execute_select carts
              (fun c => (cart_user_id c =? user) && (cart_status c =s "active")) ;;
    cart <- scalar_one_or_none rows ;;
    ret {| ctx_book := option_map book_ctx book;
           ctx_cart_id := option_map cart_id cart;
           ctx_cart_items := None; ctx_order := None |}
  else if fn =s "checkout_order" then
    rows <- execute_select carts
              (fun c => (cart_user_id c =? user) && (cart_status c =s "active")) ;;
    cart <- scalar_one_or_none rows ;;
    match cart with
    | Some cart =>
        items <- execute_select cart_items (fun it => item_cart_id it =? cart_id cart) ;;
        loaded <- load_cart_items items ;;
        ret {| ctx_book := None; ctx_cart_id := Some (cart_id cart);
               ctx_cart_items := Some loaded; ctx_order := None |}
    | None => ret empty_context
    end
  else if (fn =s "process_payment") || (fn =s "confirm_payment") ||
          (fn =s "cancel_order") || (fn =s "get_order_status") then
    order <- (if Py.truthy_int (p_order_id params)
              then rows <- execute_select orders
                             (fun o => (order_id o =? Py.get_default (p_order_id params) 0) &&
                                       (order_user_id o =? user)) ;;
                   scalar_one_or_none rows
              else rows <- execute_select orders
                             (fun o => (order_user_id o =? user) &&
                                       (order_status o =s "created")) ;;
                   scalar_one_or_none (firstn 1 (Py.sort_desc order_created_at Z.ltb rows))) ;;
    ret {| ctx_book := None; ctx_cart_id := None; ctx_cart_items := None;
           ctx_order := option_map order_ctx order |}
  else ret empty_context.

Definition load_context (state : FlowState) : M FlowState :=
  let trace := (state_trace state ++ ["LOAD_CONTEXT"])%list in
  ctx <- load_context_ctx (function_name state) (params state) (user_id state) ;;
  ret {| user_id := user_id state; function_name := function_name state;
         query := query state; params := params state; context := ctx;
         action_result := action_result state; response := response state;
         state_trace := trace; needs_input := needs_input state;
         missing_fields := missing_fields state; error := error state |}.

(** [params["book_id"]]. *)
Definition params_book_id (params : Params) : M Z :=
  match p_book_id params with
  | Some b => ret b
  | None => raise "'book_id'"
  end.

Definition _action_add_to_cart (user : Z) (params : Params) (ctx : Context) : M Result :=
  match ctx_book ctx with
  | None => ret (failure "Libro no encontrado")
  | Some book =>
      if bctx_stock book <? Py.get_default (p_quantity params) 1
      then ret (failure "Stock insuficiente")
      else
        cart <- (if negb (Py.truthy_int (ctx_cart_id ctx))
                 then new_cart <- add_cart user "active" ;;
                      flush ;;;
                      ret new_cart
                 else ret (Py.get_default (ctx_cart_id ctx) 0)) ;;
        wanted <- params_book_id params ;;
        rows <- execute_select cart_items
                  (fun it => (item_cart_id it =? cart) && (item_book_id it =? wanted)) ;;
        existing <- scalar_one_or_none rows ;;
        match existing with
        | Some existing =>
            modify_working (set_item_quantity (item_id existing)
                              (item_quantity existing + Py.get_default (p_quantity params) 1))
        | None =>
            book_key <- params_book_id params ;;
            add_cart_item cart book_key (Py.get_default (p_quantity params) 1)
        end ;;;
        ret {| success := Some true; message := None; r_book := Some (bctx_title book);
               r_quantity := Some (Py.get_default (p_quantity params) 1);
               r_cart_id := Some cart; r_order_id := None; r_total := None;
               r_items_count := None; needs_confirmation := None; r_amount := None;
               r_payment_status := None; r_order := None |}
  end.

Definition _action_remove_from_cart (params : Params) (ctx : Context) : M Result :=
  if negb (Py.truthy_int (ctx_cart_id ctx))
  then ret (failure "No tienes un carrito activo")
  else
    let cart := Py.get_default (ctx_cart_id ctx) 0 in
    wanted <- params_book_id params ;;
    rows <- execute_select cart_items
              (fun it => (item_cart_id it =? cart) && (item_book_id it =? wanted)) ;;
    item <- scalar_one_or_none rows ;;
    match item with
    | None => ret (failure "El libro no está en tu carrito")
    | Some item =>
        delete_cart_item (item_id item) ;;;
        ret {| success := Some true; message := Some "Libro eliminado del carrito";
               r_book := None; r_quantity := None; r_cart_id := None; r_order_id := None;
               r_total := None; r_items_count := None; needs_confirmation := None;
               r_amount := None; r_payment_status := None; r_order := None |}
    end.

Fixpoint add_order_items (order : Z) (items : list CartItemCtx) : M unit :=
  match items with
  | [] => ret tt
  | item :: rest =>
      add_order_item order (ci_book_id item) (ci_quantity item) (ci_price item) ;;;
      add_order_items order rest
  end.

Definition _action_checkout (user : Z) (ctx : Context) : M Result :=
  let cart_items := Py.get_default (ctx_cart_items ctx) [] in
  if negb (Py.truthy_int (ctx_cart_id ctx)) || match cart_items with [] => true | _ => false end
  then ret (failure "Tu carrito está vacío")
  else
    let cart := Py.get_default (ctx_cart_id ctx) 0 in
    let total := fold_left Qplus
                   (map (fun item => (ci_price item * inject_Z (ci_quantity item))%Q) cart_items)
                   0%Q in
    order <- add_order user "created" total ;;
    flush ;;;
    add_order_items order cart_items ;;;
    rows <- execute_select carts (fun c => cart_id c =? cart) ;;
    found <- scalar_one rows ;;
    modify_working (set_cart_status (cart_id found) "checked_out") ;;;
    ret {| success := Some true; message := None; r_book := None; r_quantity := None;
           r_cart_id := None; r_order_id := Some order; r_total := Some total;
           r_items_count := Some (Z.of_nat (List.length cart_items));
           needs_confirmation := None; r_amount := None; r_payment_status := None;
           r_order := None |}.

Definition order_tag (order : OrderCtx) : string :=
  "La orden **#" ++ Py.str_of_int (octx_id order) ++ "**".

(** The refusals shared by the confirmation prompt and the payment. *)
Definition payment_refusal (order : OrderCtx) : option Result :=
  if octx_status order =s "paid"
  then Some (failure (order_tag order ++ " ya fue pagada anteriormente."))
  else if octx_status order =s "cancelled"
  then Some (failure (order_tag order ++ " fue cancelada y no se puede pagar."))
  else if negb (octx_status order =s "created")
  then Some (failure (order_tag order ++ " está en estado '" ++ octx_status order ++
                      "' y no se puede pagar."))
  else None.

Definition no_pending_order : Result :=
  failure "No se encontró una orden pendiente de pago. Primero haz checkout de tu carrito.".

Definition _build_payment_confirmation (ctx : Context) : Result :=
  match ctx_order ctx with
  | None => no_pending_order
  | Some order =>
      match payment_refusal order with
      | Some refusal => refusal
      | None =>
          {| success := None; message := None; r_book := None; r_quantity := None;
             r_cart_id := None; r_order_id := Some (octx_id order); r_total := None;
             r_items_count := None; needs_confirmation := Some true;
             r_amount := Some (octx_total order); r_payment_status := None;
             r_order := None |}
      end
  end.

Definition _action_process_payment (ctx : Context) : M Result :=
  match ctx_order ctx with
  | None => ret no_pending_order
  | Some order =>
      match payment_refusal order with
      | Some refusal => ret refusal
      | None =>
          draw <- random_random ;;
          let approved := Qlt_bool draw (85 # 100) in
          let status := if approved then "approved" else "rejected" in
          add_payment (octx_id order) (octx_total order) status ;;;
          rows <- execute_select orders (fun o => order_id o =? octx_id order) ;;
          db_order <- scalar_one rows ;;
          modify_working (set_order_status (order_id db_order)
                            (if approved then "paid" else "created")) ;;;
          ret {| success := Some approved;
                 message := if approved then None
                            else Some ("El pago para la orden **#" ++ Py.str_of_int (octx_id order) ++
                                       "** fue rechazado. Intenta de nuevo.");
                 r_book := None; r_quantity := None; r_cart_id := None;
                 r_order_id := Some (octx_id order); r_total := None; r_items_count := None;
                 needs_confirmation := None; r_amount := Some (octx_total order);
                 r_payment_status := Some status; r_order := None |}
      end
  end.

Definition _action_cancel_order (ctx : Context) : M Result :=
  match ctx_order ctx with
  | None => ret (failure "Orden no encontrada")
  | Some order =>
      if octx_status order =s "paid"
      then ret (failure ("No se puede cancelar la orden **#" ++ Py.str_of_int (octx_id order) ++
                         "** porque ya fue pagada."))
      else if octx_status order =s "cancelled"
      then ret (failure (order_tag order ++ " ya está cancelada."))
      else
        rows <- execute_select orders (fun o => order_id o =? octx_id order) ;;
        db_order <- scalar_one rows ;;
        modify_working (set_order_status (order_id db_order) "cancelled") ;;;
        ret {| success := Some true; message := None; r_book := None; r_quantity := None;
               r_cart_id := None; r_order_id := Some (octx_id order); r_total := None;
               r_items_count := None; needs_confirmation := None; r_amount := None;
               r_payment_status := None; r_order := None |}
  end.

(** The body of the [try] of [apply_action]. *)
Definition dispatch_action (fn : string) (user : Z) (params : Params) (ctx : Context)
  : M Result :=
  if fn =s "add_book_to_cart" then _action_add_to_cart user params ctx
  else if fn =s "remove_book_from_cart" then _action_remove_from_cart params ctx
  else if fn =s "checkout_order" then _action_checkout user ctx
  else if fn =s "process_payment" then ret (_build_payment_confirmation ctx)
  else if fn =s "confirm_payment" then _action_process_payment ctx
  else if fn =s "cancel_order" then _action_cancel_order ctx
  else if fn =s "get_order_status" then
    ret {| success := None; message := None; r_book := None; r_quantity := None;
           r_cart_id := None; r_order_id := None; r_total := None; r_items_count := None;
           needs_confirmation := None; r_amount := None; r_payment_status := None;
           r_order := ctx_order ctx |}
  else ret empty_result.

Definition with_result (state : FlowState) (trace : list string) (result : Result)
  (err : option string) : FlowState :=
  {| user_id := user_id state; function_name := function_name state;
     query := query state; params := params state; context := context state;
     action_result := result; response := response state; state_trace := trace;
     needs_input := needs_input state; missing_fields := missing_fields state;
     error := err |}.

Definition apply_action (state : FlowState) : M FlowState :=
  let trace := (state_trace state ++ ["APPLY_ACTION"])%list in
  try_except
    (result <- dispatch_action (function_name state) (user_id state) (params state)
                 (context state) ;;
     ret (with_result state trace result None))
    (fun e => ret (with_result state trace empty_result (Some e))).

Definition with_trace (state : FlowState) (trace : list string) : FlowState :=
  {| user_id := user_id state; function_name := function_name state;
     query := query state; params := params state; context := context state;
     action_result := action_result state; response := response state;
     state_trace := trace; needs_input := needs_input state;
     missing_fields := missing_fields state; error := error state |}.

Definition persist_state (state : FlowState) : M FlowState :=
  let trace := (state_trace state ++ ["PERSIST"])%list in
  try_except commit (fun _ => rollback) ;;;
  ret (with_trace state trace).

Definition with_response (state : FlowState) (trace : list string) (text : string)
  : FlowState :=
  {| user_id := user_id state; function_name := function_name state;
     query := query state; params := params state; context := context state;
     action_result := action_result state; response := text; state_trace := trace;
     needs_input := needs_input state; missing_fields := missing_fields state;
     error := error state |}.

Definition build_response (state : FlowState) : M FlowState :=
  let trace := (state_trace state ++ ["BUILD_RESPONSE"])%list in
  let fn := function_name state in
  text <- (if Py.truthy_str (error state)
           then ret ("Hubo un error al procesar tu solicitud: " ++ Py.get_default (error state) "")
           else if Py.str_in fn TRANSACTIONAL_ACTIONS
           then ret (build_transactional_response fn (action_result state))
           else try_except
                  (build_natural_response fn (action_result state) (query state))
                  (fun _ => ret (_build_fallback_response fn (action_result state)))) ;;
  ret (with_response state trace text).

(** [field_names.get(f, f)]. *)
Definition field_name (f : string) : string :=
  if f =s "book_id" then "el ID del libro"
  else if f =s "order_id" then "el número de orden"
  else if f =s "quantity" then "la cantidad"
  else f.

Definition initial_state (fn : string) (user : Z) (q : string) (p : Params) : FlowState :=
  {| user_id := user; function_name := fn; query := q; params := p;
     context := empty_context; action_result := empty_result; response := "";
     state_trace := []; needs_input := false; missing_fields := []; error := None |}.

Definition run_flow (fn : string) (user : Z) (q : string) (p : Params) : M FlowState :=
  let state := validate_input (initial_state fn user q p) in
  if needs_input state
  then
    let missing_str := Py.join ", " (map field_name (missing_fields state)) in
    ret (with_response state (state_trace state ++ ["ASK_INPUT"])%list
           ("Para continuar, necesito que me indiques " ++ missing_str ++ "."))
  else
    state <- load_context state ;;
    state <- apply_action state ;;
    state <- (if negb (Py.truthy_str (error state))
              then persist_state state
              else ret state) ;;
    build_response state.

(** *** [app/flow/orchestrator.py] *)

(** [re.findall(pattern, text)] for a pattern with at most one group, and
    group 1 of [re.search(pattern, text)], with [re.IGNORECASE] or without. *)
Variable re_findall : string -> string -> list string.
Variable re_search_group1 : bool -> string -> string -> option string.

(** The read-only executors ([_execute_direct] and the five functions it
    dispatches to issue select statements only), their result, and what the
    code derives from such a result: the books to display, the copy
    without images, its JSON text and its fallback template. *)
Variable DirectResult : Type.
Variable _execute_direct : string -> string -> Z -> M DirectResult.

Record BookCard := {
  card_id : Z;
  card_title : string;
  card_author : string;
  card_price : Q;
  card_image_base64 : option string }.

Variable _extract_books_from_result : DirectResult -> option (list BookCard).
Variable _strip_images_for_llm : DirectResult -> DirectResult.
Variable json_dumps_direct : DirectResult -> string.
Variable _build_fallback_response_direct : string -> DirectResult -> string.

Definition LANGGRAPH_FUNCTIONS : list string :=
  ["add_book_to_cart"; "remove_book_from_cart"; "checkout_order"; "process_payment";
   "cancel_order"].

Definition DIRECT_FUNCTIONS : list string :=
  ["search_books_for_sale"; "recommend_books_for_purchase"; "get_book_product_details";
   "check_book_stock"; "get_order_status"].

Record OrchestratorResult := {
  or_response : string;
  or_function_name : string;
  or_method : string;
  or_similarity : Q;
  or_state_trace : option (list string);
  or_books : option (list BookCard);
  or_top_candidates : option (list (string * Q)) }.

Definition _ACTION_WORDS : list string :=
  [ "busca"; "busco"; "buscar"; "compra"; "comprar"; "agrega";
    "agregar"; "dame"; "ponme"; "muestra"; "mostrar"; "quiero";
    "deseo"; "ver"; "añadir"; "eliminar"; "quitar"; "sacar";
    "pagar"; "cancelar"; "recomienda"; "sugiere"; "hola"; "buenas";
    "gracias"; "buy"; "add"; "remove"; "search"; "find";
    "show"; "get"; "want" ].

Definition stop_words : list string :=
  [ "is"; "are"; "was"; "were"; "be"; "been";
    "do"; "does"; "did"; "have"; "has"; "had";
    "will"; "would"; "could"; "should"; "may"; "might";
    "can"; "shall"; "i"; "me"; "my"; "you";
    "your"; "we"; "our"; "they"; "them"; "this";
    "that"; "these"; "those"; "it"; "its"; "for";
    "to"; "from"; "with"; "about"; "in"; "on";
    "at"; "by"; "and"; "or"; "but"; "not";
    "no"; "if"; "so"; "as"; "what"; "which";
    "who"; "whom"; "how"; "when"; "where"; "why";
    "want"; "need"; "like"; "get"; "find"; "show";
    "give"; "tell"; "search"; "look"; "looking"; "please";
    "help"; "book"; "books"; "buy"; "purchase"; "recommend";
    "recommendation"; "available"; "stock"; "cart"; "add"; "remove";
    "order"; "pay"; "cancel"; "check"; "status"; "details";
    "detail"; "information"; "info"; "quiero"; "buscar"; "ver";
    "dame"; "muestra"; "mostrar"; "tiene"; "tienen"; "hay";
    "del"; "de"; "el"; "la"; "los"; "las";
    "un"; "una"; "unos"; "unas"; "mi"; "mis";
    "tu"; "tus"; "por"; "para"; "con"; "sin";
    "que"; "como"; "donde"; "cuando"; "porque"; "pero";
    "este"; "esta"; "estos"; "estas"; "ese"; "esa";
    "libro"; "libros"; "comprar"; "agregar"; "añadir"; "carrito";
    "pagar"; "cancelar"; "recomendar"; "recomendación"; "disponible"; "estado";
    "pedido"; "orden"; "quitar"; "eliminar"; "sacar"; "también";
    "algo"; "algún"; "alguna"; "más"; "menos"; "puedo";
    "puedes"; "puede"; "podría"; "necesito"; "necesitas"; "favor";
    "gracias"; "hola"; "buenas"; "cuánto"; "cuántos"; "cuál";
    "cuáles"; "sobre"; "quisiera"; "deseo"; "gustaría"; "prefiero";
    "tienda"; "venta"; "catálogo"; "precio"; "cuesta"; "cuanto";
    "cuantos"; "cual"; "cuales"; "esos"; "esas"; "aquel";
    "aquella"; "mío"; "tuyo"; "suyo"; "nuestro"; "vuestro";
    "ser"; "estar"; "tener"; "hacer"; "poder"; "decir";
    "saber"; "dar"; "llegar"; "llevar"; "ponme"; "tráeme";
    "traeme"; "compra"; "agrega" ].

Definition quoted_pattern : string := Py.dq ++ "([^" ++ Py.dq ++ "]+)" ++ Py.dq.

Definition title_pattern : string :=
  "\b([A-ZÁÉÍÓÚÑ][a-záéíóúñA-ZÁÉÍÓÚÑ]*(?:\s+(?:the|of|a|an|and|in|to|for|del|de|la|el|los|las|y)\s+[A-ZÁÉÍÓÚÑ][a-záéíóúñA-ZÁÉÍÓÚÑ]*|(?:\s+[A-ZÁÉÍÓÚÑ][a-záéíóúñA-ZÁÉÍÓÚÑ]*))*)\b".

Definition is_title_phrase (phrase : string) : bool :=
  match Py.split phrase with
  | _ :: _ :: _ => true
  | [w] => negb (Py.str_in (Py.lower w) _ACTION_WORDS)
  | [] => false
  end.

Definition _extract_keywords (query : string) : list string :=
  match re_findall quoted_pattern query with
  | (_ :: _) as quoted => firstn 3 quoted
  | [] =>
      let title_phrases := filter is_title_phrase (re_findall title_pattern query) in
      match title_phrases with
      | _ :: _ =>
          let title_words_lower :=
            flat_map (fun phrase => map Py.lower (Py.split phrase)) title_phrases in
          let remaining := re_findall "\b[a-zA-ZáéíóúñÁÉÍÓÚÑ]{3,}\b" (Py.lower query) in
          let extras :=
            filter (fun w => negb (Py.str_in w stop_words) &&
                             negb (Py.str_in w title_words_lower)) remaining in
          firstn 5 (title_phrases ++ extras)
      | [] =>
          let words := re_findall "\b[a-zA-ZáéíóúñÁÉÍÓÚÑ0-9]{2,}\b" (Py.lower query) in
          firstn 5 (filter (fun w => negb (Py.str_in w stop_words)) words)
      end
  end.

(** A captured number, kept when it lies in 1..99. *)
Definition bounded_number (captured : option string) : option Z :=
  match option_map Py.int_of_digits captured with
  | Some n => if (1 <=? n) && (n <=? 99) then Some n else None
  | None => None
  end.

Definition or_else {A : Type} (first second : option A) : option A :=
  match first with
  | Some a => Some a
  | None => second
  end.

Definition _extract_number (query : string) (context : string) : option Z :=
  if context =s "quantity" then
    or_else
      (bounded_number
         (re_search_group1 true "(\d+)\s*(?:copias?|unidades?|ejemplares?)" query))
      (or_else
         (bounded_number
            (re_search_group1 true
               "(?:compra|dame|ponme|tráeme|traeme|agrega|añade|buy|add|get)\s+(\d+)\s+" query))
         (bounded_number (re_search_group1 false "\b(\d{1,2})\b" query)))
  else if context =s "order_id" then
    option_map Py.int_of_digits
      (re_search_group1 true "(?:orden|pedido|order)\s*#?\s*(\d+)" query)
  else
    option_map Py.int_of_digits (re_search_group1 false "\b(\d+)\b" query).

(** The outcome of [_resolve_book_smart]: its status with the book found or
    the candidate books. *)
Inductive Resolution : Type :=
| found (book : Book)
| ambiguous (books : list BookCard)
| not_found.

Definition book_card (b : Book) : BookCard :=
  {| card_id := book_id b; card_title := book_title b; card_author := book_author b;
     card_price := book_price b; card_image_base64 := book_image_base64 b |}.

Definition title_len (b : Book) : nat := Py.len (book_title b).

(** [sum(1 for kw in keywords if kw.lower() in title_lower)]. *)
Definition keyword_matches (keywords : list string) (book : Book) : nat :=
  List.length (filter (fun kw => Py.contains (Py.lower kw) (Py.lower (book_title book))) keywords).

(** Tiers 2 and 3 of [_resolve_book_smart]: the keywords. *)
Definition keyword_tiers (query : string) (all_books : list Book) : Resolution :=
  match _extract_keywords query with
  | [] => not_found
  | keywords =>
      let scored :=
        filter (fun bm => (0 <? snd bm)%nat)
               (map (fun book => (book, keyword_matches keywords book)) all_books) in
      let sorted := Py.sort_desc snd Nat.ltb scored in
      match sorted with
      | [] => not_found
      | (best_book, best_count) :: others =>
          if (best_count =? List.length keywords)%nat then found best_book
          else
            match others with
            | [] => found best_book
            | (_, second_count) :: _ =>
                if (second_count <? best_count)%nat then found best_book
                else ambiguous
                       (map (fun bm => book_card (fst bm))
                            (filter (fun bm => (snd bm =? best_count)%nat)
                                    (firstn 5 sorted)))
            end
      end
  end.

(** A title that occurs in the query, whatever the case of the letters. *)
Definition exact_hit (query : string) (book : Book) : bool :=
  Py.contains (Py.lower (book_title book)) (Py.lower query).

(** [_resolve_book_smart] once the books are loaded. *)
Definition resolve_among (query : string) (all_books : list Book) : Resolution :=
  match all_books with
  | [] => not_found
  | _ =>
      match filter (exact_hit query) (Py.sort_desc title_len Nat.ltb all_books) with
      | [only] => found only
      | first :: rest => found (Py.max_by title_len Nat.ltb first rest)
      | [] => keyword_tiers query all_books
      end
  end.

Definition _resolve_book_smart (query : string) : M Resolution :=
  all_books <- execute_select books (fun _ => true) ;;
  ret (resolve_among query all_books).

(** [if n: params[key] = n]: a number is stored when it is truthy. *)
Definition keep_truthy (v : option Z) : option Z :=
  if Py.truthy_int v then v else None.

Definition _extract_params (query fn_name : string) : M Params :=
  book <- (if Py.str_in fn_name ["add_book_to_cart"; "remove_book_from_cart";
                                 "get_book_product_details"; "check_book_stock"]
           then resolution <- _resolve_book_smart query ;;
                match resolution with
                | found b => ret (Some (book_id b))
                | _ => ret None
                end
           else ret None) ;;
  let quantity :=
    if fn_name =s "add_book_to_cart"
    then keep_truthy (_extract_number query "quantity")
    else None in
  let order :=
    if Py.str_in fn_name ["process_payment"; "cancel_order"; "get_order_status"]
    then keep_truthy (_extract_number query "order_id")
    else None in
  ret {| p_book_id := book; p_quantity := quantity; p_order_id := order |}.


Definition _HELP_PATTERNS : list string :=
  [ "(?:qu[eé]|que)\s+(?:puedes?|puede)\s+hacer";
    "(?:qu[eé]|que)\s+(?:sabes?|sabe)\s+hacer";
    "(?:ayuda|help)\b";
    "(?:c[oó]mo|como)\s+(?:funciona|te\s+uso)";
    "(?:qu[eé]|que)\s+(?:opciones|funciones|servicios)";
    "(?:para\s+)?(?:qu[eé]|que)\s+(?:sirves?|eres)" ].

Definition _GREETING_PATTERNS : list string :=
  [ "^(?:hola|hey|buenas?|buenos?\s+d[ií]as?|buenas?\s+tardes?|buenas?\s+noches?)[\s!.?]*$";
    "^(?:hi|hello|saludos?)[\s!.?]*$" ].

Definition _HELP_RESPONSE : string :=
  "Puedo ayudarte con todo lo relacionado a nuestra librería:" ++ Py.nl ++ Py.nl ++
  "- Buscar libros por género, autor o tema" ++ Py.nl ++
  "- Darte recomendaciones personalizadas" ++ Py.nl ++
  "- Mostrarte detalles de un libro específico" ++ Py.nl ++
  "- Verificar stock y disponibilidad" ++ Py.nl ++
  "- Agregar libros a tu carrito" ++ Py.nl ++
  "- Hacer checkout y procesar pagos" ++ Py.nl ++
  "- Consultar el estado de tus pedidos" ++ Py.nl ++ Py.nl ++
  "Prueba escribiendo algo como: " ++ Py.dq ++ "Buscar libros de fantasía" ++ Py.dq ++
  " o " ++ Py.dq ++ "Agregar Dune al carrito" ++ Py.dq.

Definition GREETING_RESPONSE : string :=
  "Hola! Soy tu asistente de la librería. " ++
  "Puedo buscar libros, darte recomendaciones, agregar al carrito y más. " ++
  "¿Qué te gustaría hacer?".

Definition _check_help_query (query : string) : option string :=
  let q := Py.strip (Py.lower query) in
  if existsb (fun pattern => re_search pattern q) _GREETING_PATTERNS
  then Some GREETING_RESPONSE
  else if existsb (fun pattern => re_search pattern q) _HELP_PATTERNS
  then Some _HELP_RESPONSE
  else None.

Definition _DOMAIN_KEYWORDS : list string :=
  [ "libro"; "libros"; "leer"; "lectura"; "autor"; "autora";
    "novela"; "novelas"; "comprar"; "compra"; "carrito"; "pedido";
    "orden"; "pago"; "pagar"; "checkout"; "stock"; "disponible";
    "recomend"; "buscar"; "busca"; "busco"; "catálogo"; "catalogo";
    "precio"; "tienda"; "librería"; "libreria"; "genero"; "género";
    "ficción"; "ficcion"; "fantasia"; "fantasía"; "ciencia"; "clásico";
    "clasico"; "romance"; "terror"; "horror"; "book"; "cart";
    "order"; "pay"; "search"; "recommend"; "agregar"; "añadir";
    "eliminar"; "quitar"; "cancelar"; "detalle"; "detalles"; "información";
    "informacion"; "hola"; "ayuda"; "ayudar"; "help"; "qué puedes";
    "que puedes" ].

Definition _is_domain_relevant (query : string) : bool :=
  let q := Py.lower query in
  existsb (fun kw => Py.contains kw q) _DOMAIN_KEYWORDS ||
  (Py.count_words query <=? 3)%nat.

(** [_build_response_safe]: the provider's text when it is not empty,
    the template otherwise. *)
Definition _build_response_safe (fn_name : string) (result_data : DirectResult)
  (query : string) : M string :=
  let fallback := _build_fallback_response_direct fn_name result_data in
  try_except
    (text <- natural_response fn_name (json_dumps_direct result_data) query fallback ;;
     match text with
     | EmptyString => ret fallback
     | _ => ret text
     end)
    (fun _ => ret fallback).

(** [_log_execution]: one row, committed; any failure is swallowed after
    one attempt to roll back. *)
Definition _log_execution (user : Z) (session_id : option Z) (query fn_name : string)
  (similarity : Q) (method : string) (state_trace : option (list string))
  (result : string) (top_candidates : option (list (string * Q))) : M unit :=
  try_except
    (add_execution_log user session_id query fn_name similarity method top_candidates
       state_trace result ;;;
     commit)
    (fun _ => try_except rollback (fun _ => ret tt)).

Definition CLARIFICATION_RESPONSE : string :=
  "No estoy seguro de entender tu solicitud. Puedo ayudarte con:" ++ Py.nl ++ Py.nl ++
  "- Buscar libros por género, autor o tema" ++ Py.nl ++
  "- Recomendaciones personalizadas" ++ Py.nl ++
  "- Ver detalles de un libro" ++ Py.nl ++
  "- Verificar stock/disponibilidad" ++ Py.nl ++
  "- Agregar o quitar libros del carrito" ++ Py.nl ++
  "- Hacer checkout y pagar" ++ Py.nl ++
  "- Consultar estado de pedidos" ++ Py.nl ++ Py.nl ++
  "¿Qué te gustaría hacer?".

(** The numbered titles of the disambiguation reply. *)
Fixpoint numbered_titles (i : Z) (books : list BookCard) : list string :=
  match books with
  | [] => []
  | b :: rest =>
      ("  " ++ Py.str_of_int (i + 1) ++ ") " ++ card_title b ++ " — " ++ card_author b)
      :: numbered_titles (i + 1) rest
  end.

Definition ambiguous_response (books_data : list BookCard) : string :=
  "Encontré varios libros que coinciden. ¿Te refieres a alguno de estos?" ++ Py.nl ++ Py.nl ++
  Py.join Py.nl (numbered_titles 0 books_data) ++ Py.nl ++ Py.nl ++
  "Dime el número o nombre del libro.".

Definition NOT_FOUND_RESPONSE : string :=
  "No encontré ningún libro con ese nombre. ¿Podrías darme más detalles o el nombre exacto?".

Definition plain_result (text fn_name method : string) (similarity : Q)
  (top_candidates : option (list (string * Q))) : OrchestratorResult :=
  {| or_response := text; or_function_name := fn_name; or_method := method;
     or_similarity := similarity; or_state_trace := None; or_books := None;
     or_top_candidates := top_candidates |}.

(** The flow-engine branch of [handle_query], from [run_flow] on. *)
Definition run_and_log (query : string) (user : Z) (session_id : option Z)
  (m : SemanticMatch) (extracted : Params) : M OrchestratorResult :=
  let fn_name := sm_function_name m in
  flow_state <- run_flow fn_name user query extracted ;;
  _log_execution user session_id query fn_name (sm_similarity m) (sm_method m)
    (Some (state_trace flow_state)) (response flow_state) (Some (sm_top_candidates m)) ;;;
  ret {| or_response := response flow_state; or_function_name := fn_name;
         or_method := sm_method m; or_similarity := sm_similarity m;
         or_state_trace := Some (state_trace flow_state); or_books := None;
         or_top_candidates := Some (sm_top_candidates m) |}.

Definition handle_query (query : string) (user : Z) (session_id : option Z)
  : M OrchestratorResult :=
  match _check_help_query query with
  | Some help_response =>
      _log_execution user session_id query "" 1%Q "help" None help_response None ;;;
      ret (plain_result help_response "" "help" 1%Q None)
  | None =>
      m <- select_function query ;;
      let candidates := Some (sm_top_candidates m) in
      if sm_method m =s "clarification" then
        if negb (_is_domain_relevant query) then
          _log_execution user session_id query "" 0%Q "guardrail" None DOMAIN_GUARDRAIL
            candidates ;;;
          ret (plain_result DOMAIN_GUARDRAIL "" "guardrail" (sm_similarity m) candidates)
        else
          _log_execution user session_id query "" (sm_similarity m) "clarification" None
            CLARIFICATION_RESPONSE candidates ;;;
          ret (plain_result CLARIFICATION_RESPONSE "" "clarification" (sm_similarity m)
                 candidates)
      else
        let fn_name := sm_function_name m in
        if Py.str_in fn_name LANGGRAPH_FUNCTIONS then
          extracted <- _extract_params query fn_name ;;
          if Py.str_in fn_name ["add_book_to_cart"; "remove_book_from_cart"] &&
             match p_book_id extracted with None => true | Some _ => false end
          then
            resolution <- _resolve_book_smart query ;;
            match resolution with
            | found b =>
                run_and_log query user session_id m
                  {| p_book_id := Some (book_id b); p_quantity := p_quantity extracted;
                     p_order_id := p_order_id extracted |}
            | ambiguous books_data =>
                let text := ambiguous_response books_data in
                _log_execution user session_id query fn_name (sm_similarity m) (sm_method m)
                  None text candidates ;;;
                ret {| or_response := text; or_function_name := fn_name;
                       or_method := sm_method m; or_similarity := sm_similarity m;
                       or_state_trace := None; or_books := Some books_data;
                       or_top_candidates := candidates |}
            | not_found =>
                _log_execution user session_id query fn_name (sm_similarity m) (sm_method m)
                  None NOT_FOUND_RESPONSE candidates ;;;
                ret (plain_result NOT_FOUND_RESPONSE fn_name (sm_method m) (sm_similarity m)
                       candidates)
            end
          else run_and_log query user session_id m extracted
        else if Py.str_in fn_name DIRECT_FUNCTIONS then
          result <- _execute_direct fn_name query user ;;
          let books_for_frontend := _extract_books_from_result result in
          let llm_context := _strip_images_for_llm result in
          text <- _build_response_safe fn_name llm_context query ;;
          _log_execution user session_id query fn_name (sm_similarity m) (sm_method m)
            None text candidates ;;;
          ret {| or_response := text; or_function_name := fn_name;
                 or_method := sm_method m; or_similarity := sm_similarity m;
                 or_state_trace := None; or_books := books_for_frontend;
                 or_top_candidates := candidates |}
        else
          ret (plain_result "Error interno del orquestador." fn_name "error"
                 (sm_similarity m) None)
  end.


(** ** Properties *)

(** *** The steps of the flow engine *)

(** [tauto] and [intuition] generalise the whole context before they start, so a
    proof closed by them would depend on every variable of the section; the
    variables that the goal does not mention are cleared first. *)
Ltac clear_data :=
  repeat match goal with
         | x : ?T |- _ => lazymatch type of T with Prop => fail | _ => clear x end
         end.
Ltac prop := clear_data; tauto.
Ltac prop_congruence := clear_data; intuition congruence.

Ltac split_outcome m :=
  let r := fresh "r" in
  let s1 := fresh "s" in
  let e := fresh "msg" in
  let E := fresh "E" in
  destruct m as [[r | e] s1] eqn:E.

Lemma load_context_shape (st : FlowState) (s : Session) (st' : FlowState) (s' : Session) :
  load_context st s = (Ok st', s') ->
  exists ctx,
    load_context_ctx (function_name st) (params st) (user_id st) s = (Ok ctx, s') /\
    st' = {| user_id := user_id st; function_name := function_name st;
             query := query st; params := params st; context := ctx;
             action_result := action_result st; response := response st;
             state_trace := (state_trace st ++ ["LOAD_CONTEXT"])%list;
             needs_input := needs_input st; missing_fields := missing_fields st;
             error := error st |}.
Proof.
  unfold load_context, bind, ret.
  split_outcome (load_context_ctx (function_name st) (params st) (user_id st) s);
    intros H; inversion H; subst.
  exists r. split; reflexivity.
Qed.

Lemma load_context_raises (st : FlowState) (s : Session) (msg : string) (s' : Session) :
  load_context st s = (Raise msg, s') ->
  load_context_ctx (function_name st) (params st) (user_id st) s = (Raise msg, s').
Proof.
  unfold load_context, bind, ret.
  split_outcome (load_context_ctx (function_name st) (params st) (user_id st) s);
    intros H; inversion H; subst; reflexivity.
Qed.

(** [apply_action] never raises: it returns the result of the action, or
    the empty result with the message of the exception. *)
Lemma apply_action_shape (st : FlowState) (s : Session) :
  let trace := (state_trace st ++ ["APPLY_ACTION"])%list in
  (exists r s',
      dispatch_action (function_name st) (user_id st) (params st) (context st) s = (Ok r, s') /\
      apply_action st s = (Ok (with_result st trace r None), s')) \/
  (exists msg s',
      dispatch_action (function_name st) (user_id st) (params st) (context st) s = (Raise msg, s') /\
      apply_action st s = (Ok (with_result st trace empty_result (Some msg)), s')).
Proof.
  unfold apply_action, try_except, bind, ret.
  split_outcome (dispatch_action (function_name st) (user_id st) (params st) (context st) s).
  - left. exists r, s0. split; reflexivity.
  - right. exists msg, s0. split; reflexivity.
Qed.

Lemma persist_state_shape (st : FlowState) (s : Session) (st' : FlowState) (s' : Session) :
  persist_state st s = (Ok st', s') ->
  st' = with_trace st (state_trace st ++ ["PERSIST"])%list.
Proof.
  unfold persist_state, bind, ret.
  split_outcome (try_except commit (fun _ : string => rollback) s);
    intros H; inversion H; reflexivity.
Qed.

(** [build_response] never raises. *)
Lemma build_response_shape (st : FlowState) (s : Session) :
  exists text s',
    build_response st s =
      (Ok (with_response st (state_trace st ++ ["BUILD_RESPONSE"])%list text), s') /\
    (Py.truthy_str (error st) = true ->
       text = "Hubo un error al procesar tu solicitud: " ++ Py.get_default (error st) "" /\
       s' = s) /\
    (Py.truthy_str (error st) = false ->
     Py.str_in (function_name st) TRANSACTIONAL_ACTIONS = true ->
       text = build_transactional_response (function_name st) (action_result st) /\ s' = s).
Proof.
  unfold build_response, bind, ret.
  destruct (Py.truthy_str (error st)) eqn:Herr.
  - eexists _, s. repeat split; try reflexivity; discriminate.
  - destruct (Py.str_in (function_name st) TRANSACTIONAL_ACTIONS) eqn:Htx.
    + eexists _, s. repeat split; try reflexivity; discriminate.
    + unfold try_except, build_natural_response, natural_response, try_except.
      split_outcome (_chat_completion
          [("user", natural_prompt (function_name st) (json_dumps (action_result st)) (query st))]
          (5 # 10) 250 s);
        eexists _, _; (split; [reflexivity | split; discriminate]).
Qed.


(** *** Missing required fields (C7) *)

(** The required fields an invocation lacks, in the words of the
    specification: a resolved book id for the two cart actions, an order id
    for a cancellation. *)
Definition missing_required (fn : string) (p : Params) : list string :=
  if ((fn =s "add_book_to_cart") || (fn =s "remove_book_from_cart")) &&
     negb (Py.truthy_int (p_book_id p))
  then ["book_id"]
  else if (fn =s "cancel_order") && negb (Py.truthy_int (p_order_id p))
  then ["order_id"]
  else [].

Ltac string_case fn lit :=
  let E := fresh "E" in
  destruct (String.eqb_spec fn lit) as [E | E]; [subst fn | ].

Lemma validate_input_spec (fn : string) (user : Z) (q : string) (p : Params) :
  let st := validate_input (initial_state fn user q p) in
  state_trace st = ["VALIDATE_INPUT"] /\
  missing_fields st = missing_required fn p /\
  needs_input st = negb (match missing_required fn p with [] => true | _ => false end) /\
  function_name st = fn /\ user_id st = user /\ query st = q /\
  error st = None /\
  p_book_id (params st) = p_book_id p /\ p_order_id (params st) = p_order_id p.
Proof.
  unfold validate_input, missing_required.
  cbn [initial_state function_name params state_trace app].
  string_case fn "add_book_to_cart".
  { cbn [String.eqb Ascii.eqb Bool.eqb orb andb].
    destruct (Py.truthy_int (p_book_id p));
      destruct (Py.truthy_int (p_quantity p)); cbn; repeat split; reflexivity. }
  string_case fn "remove_book_from_cart".
  { cbn [String.eqb Ascii.eqb Bool.eqb orb andb].
    destruct (Py.truthy_int (p_book_id p)); cbn; repeat split; reflexivity. }
  cbn [orb andb].
  string_case fn "process_payment"; [cbn; repeat split; reflexivity | ].
  string_case fn "confirm_payment"; [cbn; repeat split; reflexivity | ].
  string_case fn "cancel_order".
  { destruct (Py.truthy_int (p_order_id p)); cbn; repeat split; reflexivity. }
  cbn. repeat split; reflexivity.
Qed.


(** The run after a successful validation, step by step. *)
Definition after_validation (st0 : FlowState) : M FlowState :=
  st1 <- load_context st0 ;;
  st2 <- apply_action st1 ;;
  st3 <- (if negb (Py.truthy_str (error st2)) then persist_state st2 else ret st2) ;;
  build_response st3.

Lemma run_flow_valid (fn : string) (user : Z) (q : string) (p : Params) (s : Session) :
  missing_required fn p = [] ->
  run_flow fn user q p s = after_validation (validate_input (initial_state fn user q p)) s.
Proof.
  intros Hm. pose proof (validate_input_spec fn user q p) as V. cbv zeta in V.
  destruct V as (_ & _ & Vn & _). rewrite Hm in Vn.
  unfold run_flow. rewrite Vn. reflexivity.
Qed.

Lemma run_flow_ask (fn : string) (user : Z) (q : string) (p : Params) (s : Session) :
  missing_required fn p <> [] ->
  run_flow fn user q p s =
    (Ok (with_response (validate_input (initial_state fn user q p))
           ["VALIDATE_INPUT"; "ASK_INPUT"]
           ("Para continuar, necesito que me indiques " ++
            Py.join ", " (map field_name (missing_required fn p)) ++ ".")), s).
Proof.
  intros Hm. pose proof (validate_input_spec fn user q p) as V. cbv zeta in V.
  destruct V as (Vt & Vm & Vn & _).
  unfold run_flow. rewrite Vn, Vm, Vt.
  destruct (missing_required fn p); [contradiction | reflexivity].
Qed.




(** *** Insufficient stock (C4) *)

(** C4: when the requested quantity (1 when none is given) exceeds the stock
    of the book loaded for the request, [_action_add_to_cart] returns the
    failure "Stock insuficiente" and the session is left as it was: no cart
    is created, no cart item inserted or updated, the books are unchanged,
    in the open transaction and in the committed database; APPLY_ACTION
    records that result with no error. *)
Theorem add_to_cart_insufficient_stock (user : Z) (p : Params) (ctx : Context)
  (book : BookCtx) (s : Session) :
  ctx_book ctx = Some book ->
  bctx_stock book < Py.get_default (p_quantity p) 1 ->
  _action_add_to_cart user p ctx s = (Ok (failure "Stock insuficiente"), s) /\
  (forall s', snd (_action_add_to_cart user p ctx s) = s' ->
     carts (working s') = carts (working s) /\
     cart_items (working s') = cart_items (working s) /\
     books (working s') = books (working s) /\
     committed s' = committed s) /\
  (forall st, function_name st = "add_book_to_cart" -> user_id st = user ->
     params st = p -> context st = ctx ->
     apply_action st s =
       (Ok (with_result st (state_trace st ++ ["APPLY_ACTION"])%list
              (failure "Stock insuficiente") None), s)).
Proof.
  intros Hbook Hstock.
  assert (A : _action_add_to_cart user p ctx s = (Ok (failure "Stock insuficiente"), s)).
  { unfold _action_add_to_cart. rewrite Hbook.
    apply Z.ltb_lt in Hstock. rewrite Hstock. reflexivity. }
  split; [exact A | split].
  - intros s' <-. rewrite A. cbn [snd]. repeat split; reflexivity.
  - intros st Hfn Hu Hp Hc.
    unfold apply_action, try_except, bind, dispatch_action.
    rewrite Hfn, Hu, Hp, Hc. cbn [String.eqb Ascii.eqb Bool.eqb].
    rewrite A. reflexivity.
Qed.


(** *** The stable descending sort *)

Section SortFacts.
(** Here a proof also depends on the hypotheses on the order that it uses. *)
#[local] Unset Default Proof Using.
Context {A K : Type} (key : A -> K) (lt : K -> K -> bool).
Hypothesis lt_irrefl : forall a, lt a a = false.
Hypothesis lt_asym : forall a b, lt a b = true -> lt b a = false.
Hypothesis lt_negtrans : forall a b c, lt a b = false -> lt b c = false -> lt a c = false.

(** [not_below x y]: the key of [y] does not exceed the key of [x]. *)
Definition not_below (x y : A) : Prop := lt (key x) (key y) = false.

Lemma insert_desc_In (x y : A) (l : list A) :
  In y (Py.insert_desc key lt x l) <-> y = x \/ In y l.
Proof.
  induction l as [ | z l IH]; cbn.
  - prop_congruence.
  - destruct (lt (key x) (key z)); cbn; rewrite ?IH; prop_congruence.
Qed.

Lemma sort_desc_In (y : A) (l : list A) : In y (Py.sort_desc key lt l) <-> In y l.
Proof.
  induction l as [ | x l IH]; cbn; [prop | ].
  rewrite insert_desc_In, IH. prop_congruence.
Qed.

Lemma insert_desc_length (x : A) (l : list A) :
  List.length (Py.insert_desc key lt x l) = S (List.length l).
Proof.
  induction l as [ | z l IH]; cbn; [reflexivity | ].
  destruct (lt (key x) (key z)); cbn; rewrite ?IH; reflexivity.
Qed.

Lemma sort_desc_length (l : list A) : List.length (Py.sort_desc key lt l) = List.length l.
Proof.
  induction l as [ | x l IH]; cbn; [reflexivity | ].
  rewrite insert_desc_length, IH. reflexivity.
Qed.

Lemma insert_desc_sorted (x : A) (l : list A) :
  StronglySorted not_below l -> StronglySorted not_below (Py.insert_desc key lt x l).
Proof.
  induction 1 as [ | z l Hs IH Hz]; cbn.
  - repeat constructor.
  - destruct (lt (key x) (key z)) eqn:E.
    + constructor; [exact IH | ].
      apply Forall_forall. intros y Hy. apply insert_desc_In in Hy.
      destruct Hy as [-> | Hy].
      * apply lt_asym. exact E.
      * rewrite Forall_forall in Hz. apply Hz. exact Hy.
    + constructor; [constructor; assumption | ].
      constructor; [exact E | ].
      apply Forall_forall. intros y Hy. rewrite Forall_forall in Hz.
      apply (lt_negtrans _ (key z)); [exact E | apply Hz; exact Hy].
Qed.

Lemma sort_desc_sorted (l : list A) : StronglySorted not_below (Py.sort_desc key lt l).
Proof.
  induction l as [ | x l IH]; cbn; [constructor | ].
  apply insert_desc_sorted. exact IH.
Qed.

(** The head of the sorted list has a maximal key. *)
Lemma sort_desc_head (l : list A) (x : A) (rest : list A) :
  Py.sort_desc key lt l = x :: rest ->
  In x l /\ forall y, In y l -> not_below x y.
Proof.
  intros E. split.
  - apply sort_desc_In. rewrite E. left. reflexivity.
  - intros y Hy. apply sort_desc_In in Hy. rewrite E in Hy.
    pose proof (sort_desc_sorted l) as S. rewrite E in S.
    inversion S as [ | ? ? _ Hall]; subst.
    destruct Hy as [<- | Hy]; [apply lt_irrefl | ].
    rewrite Forall_forall in Hall. apply Hall. exact Hy.
Qed.

(** [max(xs, key=key)] returns an element whose key is maximal. *)
Lemma max_by_spec (l : list A) (best : A) :
  In (Py.max_by key lt best l) (best :: l) /\
  forall y, In y (best :: l) -> not_below (Py.max_by key lt best l) y.
Proof.
  revert best. induction l as [ | z l IH]; intros best; cbn.
  - split; [left; reflexivity | ]. intros y [<- | []]. apply lt_irrefl.
  - destruct (lt (key best) (key z)) eqn:E.
    + destruct (IH z) as [Hin Hmax]. split.
      * right. exact Hin.
      * intros y [<- | Hy].
        -- apply (lt_negtrans _ (key z)).
           ++ apply Hmax. left. reflexivity.
           ++ apply lt_asym. exact E.
        -- apply Hmax. exact Hy.
    + destruct (IH best) as [Hin Hmax]. split.
      * destruct Hin as [Hin | Hin]; [left; exact Hin | right; right; exact Hin].
      * intros y [<- | [<- | Hy]].
        -- apply Hmax. left. reflexivity.
        -- apply (lt_negtrans _ (key best)); [apply Hmax; left; reflexivity | exact E].
        -- apply Hmax. right. exact Hy.
Qed.

End SortFacts.

Lemma Qlt_bool_iff (a b : Q) : Qlt_bool a b = true <-> (a < b)%Q.
Proof.
  unfold Qlt_bool. rewrite negb_true_iff. split.
  - intros H. apply Qnot_le_lt. intros Hle. apply Qle_bool_iff in Hle. congruence.
  - intros H. destruct (Qle_bool b a) eqn:E; [ | reflexivity].
    apply Qle_bool_iff in E. exfalso. apply (Qlt_not_le _ _ H). exact E.
Qed.

Lemma Qlt_bool_false_iff (a b : Q) : Qlt_bool a b = false <-> (b <= a)%Q.
Proof.
  unfold Qlt_bool. rewrite negb_false_iff. apply Qle_bool_iff.
Qed.

Lemma Qle_bool_false (a b : Q) : Qle_bool a b = false <-> (b < a)%Q.
Proof.
  split.
  - intros H. apply Qnot_le_lt. intros Hle. apply Qle_bool_iff in Hle. congruence.
  - intros H. destruct (Qle_bool a b) eqn:E; [ | reflexivity].
    apply Qle_bool_iff in E. exfalso. apply (Qlt_not_le _ _ H). exact E.
Qed.

(** *** The embedding tier (C3) *)

Lemma ranked_scores_head (query : string) (functions : list SemanticFunction)
  (all_individual : list SemanticFunctionEmbedding) :
  functions <> [] ->
  exists best_fn best_score others,
    ranked_scores query functions all_individual = (best_fn, best_score) :: others /\
    In best_fn functions /\
    best_score = function_score (encode query) all_individual best_fn /\
    forall fn, In fn functions ->
      (function_score (encode query) all_individual fn <= best_score)%Q.
Proof.
  intros Hne. unfold ranked_scores.
  set (scored := map (fun fn => (fn, function_score (encode query) all_individual fn)) functions).
  destruct (Py.sort_desc snd Qlt_bool scored) as [ | [best_fn best_score] others] eqn:E.
  - apply (f_equal (@List.length _)) in E. rewrite sort_desc_length in E.
    unfold scored in E. rewrite length_map in E.
    destruct functions; [contradiction | discriminate].
  - exists best_fn, best_score, others. split; [reflexivity | ].
    apply (sort_desc_head snd Qlt_bool) in E.
    + destruct E as [Hin Hmax]. unfold scored in Hin. apply in_map_iff in Hin.
      destruct Hin as (fn & Heq & Hin). inversion Heq; subst.
      repeat split; [exact Hin | ].
      intros fn' Hfn'. apply Qlt_bool_false_iff.
      apply (Hmax (fn', function_score (encode query) all_individual fn')).
      unfold scored. apply in_map_iff. exists fn'. split; [reflexivity | exact Hfn'].
    + intros a. apply Qlt_bool_false_iff. apply Qle_refl.
    + intros a b H. apply Qlt_bool_iff in H. apply Qlt_bool_false_iff. apply Qlt_le_weak. exact H.
    + intros a b c H1 H2. apply Qlt_bool_false_iff in H1, H2. apply Qlt_bool_false_iff.
      eapply Qle_trans; eassumption.
Qed.

(** C3: in the embedding tier the top-ranked action is an action of the
    table whose score, computed by [function_score], is the highest of all
    actions. It is returned with method "semantic" (the embedding method)
    and that score as soon as the score reaches the base threshold that
    applies, which is the setting [similarity_threshold] (the multi-vector
    threshold) when per-example embeddings exist and the setting
    [combined_similarity_threshold] when there is none, or reaches the
    setting [high_confidence_threshold]. No condition on the gap to the
    runner-up is involved: the answer is the same when the gap is below
    [confidence_gap_threshold]; and no storage or provider call is made. *)
Theorem embedding_tier_accepts_top (query : string) (functions : list SemanticFunction)
  (all_individual : list SemanticFunctionEmbedding) (s : Session) :
  functions <> [] ->
  exists best_fn best_score others,
    ranked_scores query functions all_individual = (best_fn, best_score) :: others /\
    In best_fn functions /\
    best_score = function_score (encode query) all_individual best_fn /\
    (forall fn, In fn functions ->
       (function_score (encode query) all_individual fn <= best_score)%Q) /\
    ((all_individual <> [] /\ (similarity_threshold settings <= best_score)%Q) \/
     (all_individual = [] /\ (combined_similarity_threshold settings <= best_score)%Q) \/
     (high_confidence_threshold settings <= best_score)%Q ->
     embedding_tier query functions all_individual s =
       (Ok {| sm_function_name := fn_name best_fn; sm_similarity := best_score;
              sm_method := "semantic";
              sm_top_candidates :=
                top_candidates_of (ranked_scores query functions all_individual) |}, s)).
Proof.
  intros Hne.
  destruct (ranked_scores_head query functions all_individual Hne)
    as (best_fn & best_score & others & E & Hin & Hscore & Hmax).
  exists best_fn, best_score, others.
  split; [exact E | ]. split; [exact Hin | ]. split; [exact Hscore | ].
  split; [exact Hmax | ].
  intros Hacc. unfold embedding_tier. rewrite E.
  destruct (Qle_bool (high_confidence_threshold settings) best_score) eqn:Hhigh;
    [reflexivity | ].
  destruct (Qle_bool (base_threshold all_individual) best_score) eqn:Hbase.
  - destruct (Qle_bool (confidence_gap_threshold settings) _); reflexivity.
  - exfalso. destruct Hacc as [[Hind H] | [[Hind H] | H]]; apply Qle_bool_iff in H.
    + destruct all_individual as [ | e rest]; [contradiction Hind; reflexivity | ].
      unfold base_threshold in Hbase. congruence.
    + rewrite Hind in Hbase. unfold base_threshold in Hbase. congruence.
    + congruence.
Qed.


(** *** The generative fallback (C9) *)

Lemma _chat_completion_session (messages : list (string * string)) (temperature : Q)
  (max_tokens : Z) (s : Session) :
  snd (_chat_completion messages temperature max_tokens s) = tick_llm s.
Proof.
  unfold _chat_completion.
  destruct (llm_provider settings =s "openai"); [reflexivity | ].
  destruct (llm_provider settings =s "ollama"); reflexivity.
Qed.

(** [classify_intent] never raises; it makes exactly one provider call. *)
Lemma classify_intent_total (query : string) (functions : list (string * string))
  (s : Session) :
  exists answer, classify_intent query functions s = (Ok answer, tick_llm s) /\
    match fst (_chat_completion [("user", classify_prompt query functions)] 0%Q 50 s) with
    | Ok name =>
        answer = if (name =s "NONE") || negb (Py.str_in name (map fst functions))
                 then None else Some name
    | Raise _ => answer = None
    end.
Proof.
  unfold classify_intent, try_except, bind, ret.
  pose proof (_chat_completion_session [("user", classify_prompt query functions)] 0%Q 50 s) as T.
  destruct (_chat_completion [("user", classify_prompt query functions)] 0%Q 50 s)
    as [[name | msg] s1]; cbn [fst snd] in *; subst s1.
  - destruct ((name =s "NONE") || negb (Py.str_in name (map fst functions)));
      eexists; split; reflexivity.
  - eexists; split; reflexivity.
Qed.

(** The actions offered to the provider. *)
Definition offered_functions (functions : list SemanticFunction) : list (string * string) :=
  dict_of_pairs (map (fun fn => (fn_name fn, fn_description fn)) functions).

(** C9: the generative provider is called only when the top embedding
    score is at least 0.25 and below the base threshold that applies (and
    below the high-confidence threshold); when the provider fails, or
    answers NONE or a name that is not among the offered actions, the
    resolver returns the empty action with method "clarification", the top
    score and the top candidates; in no case does the embedding tier
    raise. *)
Theorem generative_fallback_guarded (query : string) (functions : list SemanticFunction)
  (all_individual : list SemanticFunctionEmbedding) (s : Session) :
  functions <> [] ->
  exists best_fn best_score others,
    ranked_scores query functions all_individual = (best_fn, best_score) :: others /\
    (exists m s', embedding_tier query functions all_individual s = (Ok m, s')) /\
    (llm_calls (snd (embedding_tier query functions all_individual s)) <> llm_calls s ->
     (25 # 100 <= best_score)%Q /\
     (best_score < base_threshold all_individual)%Q /\
     (best_score < high_confidence_threshold settings)%Q) /\
    ((25 # 100 <= best_score)%Q ->
     (best_score < base_threshold all_individual)%Q ->
     (best_score < high_confidence_threshold settings)%Q ->
     (forall name,
        fst (_chat_completion
               [("user", classify_prompt query (offered_functions functions))] 0%Q 50 s)
          = Ok name ->
        name = "NONE" \/ Py.str_in name (map fst (offered_functions functions)) = false) ->
     embedding_tier query functions all_individual s =
       (Ok {| sm_function_name := ""; sm_similarity := best_score;
              sm_method := "clarification";
              sm_top_candidates :=
                top_candidates_of (ranked_scores query functions all_individual) |},
        tick_llm s)).
Proof.
  intros Hne.
  destruct (ranked_scores_head query functions all_individual Hne)
    as (best_fn & best_score & others & E & _).
  exists best_fn, best_score, others. split; [exact E | ].
  unfold embedding_tier. rewrite E.
  fold (offered_functions functions).
  destruct (classify_intent_total query (offered_functions functions) s)
    as (answer & Hc & Hanswer).
  destruct (Qle_bool (high_confidence_threshold settings) best_score) eqn:Hhigh.
  { apply Qle_bool_iff in Hhigh. split; [do 2 eexists; reflexivity | split].
    - cbn. intros H. congruence.
    - intros _ _ Hlt. exfalso. apply (Qlt_not_le _ _ Hlt). exact Hhigh. }
  destruct (Qle_bool (base_threshold all_individual) best_score) eqn:Hbase.
  { apply Qle_bool_iff in Hbase. split; [ | split].
    - destruct (Qle_bool (confidence_gap_threshold settings) _); do 2 eexists; reflexivity.
    - destruct (Qle_bool (confidence_gap_threshold settings) _); cbn; congruence.
    - intros _ Hlt. exfalso. apply (Qlt_not_le _ _ Hlt). exact Hbase. }
  apply Qle_bool_false in Hhigh, Hbase.
  destruct (Qle_bool (25 # 100) best_score) eqn:Hfloor.
  - apply Qle_bool_iff in Hfloor.
    unfold try_except, bind. rewrite Hc.
    split; [ | split].
    + destruct (Py.truthy_str answer); do 2 eexists; reflexivity.
    + intros _. repeat split; assumption.
    + intros _ _ _ Hno.
      destruct (fst (_chat_completion
                       [("user", classify_prompt query (offered_functions functions))]
                       0%Q 50 s)) as [name | msg] eqn:Ha.
      * destruct (Hno name eq_refl) as [-> | Hnot].
        -- cbn [String.eqb Ascii.eqb Bool.eqb orb] in Hanswer. subst answer. reflexivity.
        -- rewrite Hnot in Hanswer. rewrite orb_true_r in Hanswer. subst answer. reflexivity.
      * subst answer. reflexivity.
  - apply Qle_bool_false in Hfloor. split; [do 2 eexists; reflexivity | split].
    + cbn. congruence.
    + intros Hge. exfalso. apply (Qlt_not_le _ _ Hfloor). exact Hge.
Qed.


(** *** What a computation may do to the session *)

(** [steps R m]: whatever [m] returns or raises, its final session is
    related to the initial one by [R]. *)
Definition steps (R : Session -> Session -> Prop) {A : Type} (m : M A) : Prop :=
  forall s, R s (snd (m s)).

(** A relation that the bookkeeping of the session respects. *)
Record Frame (R : Session -> Session -> Prop) : Prop := {
  frame_refl : forall s, R s s;
  frame_trans : forall a b c, R a b -> R b c -> R a c;
  frame_io : forall s, R s (tick_io s);
  frame_rand : forall s, R s (tick_rand s);
  frame_llm : forall s, R s (tick_llm s) }.

(** A relation that commit and rollback respect. *)
Record Transactional (R : Session -> Session -> Prop) : Prop := {
  tx_commit : forall s, R s (with_committed (working s) s);
  tx_rollback : forall s, R s (with_working (committed s) s) }.

(** A relation that the writes to carts, cart items, order items and
    payments, and the insertion of a created order, respect. *)
Record CartWrites (R : Session -> Session -> Prop) : Prop := {
  cw_add_cart : forall u st, steps R (add_cart u st);
  cw_add_cart_item : forall c b q, steps R (add_cart_item c b q);
  cw_set_item_quantity : forall i q, steps R (modify_working (set_item_quantity i q));
  cw_delete_item : forall i s,
    R s (with_working (with_cart_items
                         (filter (fun it => negb (item_id it =? i)) (cart_items (working s)))
                         (working s)) s);
  cw_set_cart_status : forall i st, steps R (modify_working (set_cart_status i st));
  cw_add_order : forall u t, steps R (add_order u "created" t);
  cw_add_order_item : forall o b q p, steps R (add_order_item o b q p);
  cw_add_payment : forall o a st, steps R (add_payment o a st) }.

Section StepRules.
(** Here a proof also depends on the hypotheses on the relation that it uses. *)
#[local] Unset Default Proof Using.
Variable R : Session -> Session -> Prop.
Hypothesis F : Frame R.

Lemma steps_ret {A : Type} (a : A) : steps R (ret a).
Proof. intros s. apply (frame_refl R F). Qed.

Lemma steps_raise {A : Type} (msg : string) : steps R (@raise A msg).
Proof. intros s. apply (frame_refl R F). Qed.

Lemma steps_bind {A B : Type} (m : M A) (k : A -> M B) :
  steps R m -> (forall a, steps R (k a)) -> steps R (bind m k).
Proof.
  intros Hm Hk s. unfold bind. specialize (Hm s).
  destruct (m s) as [[a | msg] s1]; cbn [snd] in *.
  - apply (frame_trans R F _ s1); [exact Hm | apply Hk].
  - exact Hm.
Qed.

Lemma steps_try_except {A : Type} (m : M A) (handler : string -> M A) :
  steps R m -> (forall msg, steps R (handler msg)) -> steps R (try_except m handler).
Proof.
  intros Hm Hh s. unfold try_except. specialize (Hm s).
  destruct (m s) as [[a | msg] s1]; cbn [snd] in *.
  - exact Hm.
  - apply (frame_trans R F _ s1); [exact Hm | apply Hh].
Qed.

Lemma steps_io : steps R io.
Proof.
  intros s. unfold io. destruct (fault_plan s (io_count s)); apply (frame_io R F).
Qed.

Lemma steps_execute_select {T : Type} (table : DB -> list T) (where_ : T -> bool) :
  steps R (execute_select table where_).
Proof.
  unfold execute_select. apply steps_bind; [apply steps_io | ].
  intros _ s. apply (frame_refl R F).
Qed.

Lemma steps_scalar_one_or_none {T : Type} (rows : list T) : steps R (scalar_one_or_none rows).
Proof.
  destruct rows as [ | r [ | r' rest]]; cbn; first [apply steps_ret | apply steps_raise].
Qed.

Lemma steps_scalar_one {T : Type} (rows : list T) : steps R (scalar_one rows).
Proof.
  destruct rows as [ | r [ | r' rest]]; cbn; first [apply steps_ret | apply steps_raise].
Qed.

Lemma steps_random_random : steps R random_random.
Proof. intros s. apply (frame_rand R F). Qed.

Lemma steps_chat_completion (messages : list (string * string)) (temperature : Q)
  (max_tokens : Z) : steps R (_chat_completion messages temperature max_tokens).
Proof.
  intros s. rewrite _chat_completion_session. apply (frame_llm R F).
Qed.

(** One rule per shape of program. *)
Ltac steps_rules :=
  repeat match goal with
    | |- steps _ (ret _) => apply steps_ret
    | |- steps _ (raise _) => apply steps_raise
    | |- steps _ io => apply steps_io
    | |- steps _ (execute_select _ _) => apply steps_execute_select
    | |- steps _ (scalar_one_or_none _) => apply steps_scalar_one_or_none
    | |- steps _ (scalar_one _) => apply steps_scalar_one
    | |- steps _ random_random => apply steps_random_random
    | |- steps _ (_chat_completion _ _ _) => apply steps_chat_completion
    | |- steps _ (bind _ _) => apply steps_bind; [ | intros ? ]
    | |- steps _ (try_except _ _) => apply steps_try_except; [ | intros ? ]
    | |- steps _ (if ?b then _ else _) => destruct b
    | |- steps _ (match ?x with _ => _ end) => destruct x
    end.

Lemma steps_classify_intent (query : string) (functions : list (string * string)) :
  steps R (classify_intent query functions).
Proof. unfold classify_intent. steps_rules. Qed.

Lemma steps_natural_response (action result_json query fallback : string) :
  steps R (natural_response action result_json query fallback).
Proof. unfold natural_response. steps_rules. Qed.

Lemma steps_embedding_tier (query : string) (functions : list SemanticFunction)
  (all_individual : list SemanticFunctionEmbedding) :
  steps R (embedding_tier query functions all_individual).
Proof. unfold embedding_tier. steps_rules. all: apply steps_classify_intent. Qed.

Lemma steps_select_function (query : string) : steps R (select_function query).
Proof. unfold select_function. steps_rules. all: apply steps_embedding_tier. Qed.

Lemma steps_resolve_book_smart (query : string) : steps R (_resolve_book_smart query).
Proof. unfold _resolve_book_smart. steps_rules. Qed.

Lemma steps_extract_params (query fn_name : string) : steps R (_extract_params query fn_name).
Proof. unfold _extract_params. steps_rules. all: apply steps_resolve_book_smart. Qed.

Lemma steps_load_cart_items (items : list CartItem) : steps R (load_cart_items items).
Proof. induction items as [ | item rest IH]; cbn [load_cart_items]; steps_rules. all: exact IH. Qed.

Lemma steps_load_context_ctx (fn : string) (p : Params) (user : Z) :
  steps R (load_context_ctx fn p user).
Proof. unfold load_context_ctx. steps_rules. all: apply steps_load_cart_items. Qed.

Lemma steps_load_context (st : FlowState) : steps R (load_context st).
Proof. unfold load_context. steps_rules. all: apply steps_load_context_ctx. Qed.

Lemma steps_build_response (st : FlowState) : steps R (build_response st).
Proof.
  unfold build_response, build_natural_response. steps_rules.
  all: apply steps_natural_response.
Qed.

Lemma steps_build_response_safe (fn_name : string) (result_data : DirectResult)
  (query : string) : steps R (_build_response_safe fn_name result_data query).
Proof. unfold _build_response_safe. steps_rules. all: apply steps_natural_response. Qed.

Lemma steps_persist_state (st : FlowState) : Transactional R -> steps R (persist_state st).
Proof.
  intros T. unfold persist_state, commit, rollback. steps_rules.
  - intros s. apply (tx_commit R T).
  - intros s. apply (tx_rollback R T).
Qed.

Section Writes.
Hypothesis W : CartWrites R.

Lemma steps_params_book_id (p : Params) : steps R (params_book_id p).
Proof. unfold params_book_id. steps_rules. Qed.

Lemma steps_action_add_to_cart (user : Z) (p : Params) (ctx : Context) :
  steps R (_action_add_to_cart user p ctx).
Proof.
  unfold _action_add_to_cart, flush. steps_rules.
  all: first [ apply steps_params_book_id | apply (cw_add_cart R W)
             | apply (cw_add_cart_item R W) | apply (cw_set_item_quantity R W) ].
Qed.

Lemma steps_action_remove_from_cart (p : Params) (ctx : Context) :
  steps R (_action_remove_from_cart p ctx).
Proof.
  unfold _action_remove_from_cart, delete_cart_item, modify_working. steps_rules.
  - apply steps_params_book_id.
  - intros s. apply (cw_delete_item R W).
Qed.

Lemma steps_add_order_items (order : Z) (items : list CartItemCtx) :
  steps R (add_order_items order items).
Proof.
  induction items as [ | item rest IH]; cbn [add_order_items]; steps_rules.
  - apply (cw_add_order_item R W).
  - exact IH.
Qed.

Lemma steps_action_checkout (user : Z) (ctx : Context) : steps R (_action_checkout user ctx).
Proof.
  unfold _action_checkout, flush. steps_rules.
  all: first [ apply (cw_add_order R W) | apply steps_add_order_items
             | apply (cw_set_cart_status R W) ].
Qed.

(** The actions that assign an order's status need that write too. *)
Hypothesis order_status_write :
  forall i st, steps R (modify_working (set_order_status i st)).

Lemma steps_action_process_payment (ctx : Context) : steps R (_action_process_payment ctx).
Proof.
  unfold _action_process_payment. steps_rules.
  all: first [ apply (cw_add_payment R W) | apply order_status_write ].
Qed.

Lemma steps_action_cancel_order (ctx : Context) : steps R (_action_cancel_order ctx).
Proof. unfold _action_cancel_order. steps_rules. all: apply order_status_write. Qed.

Lemma steps_dispatch_action (fn : string) (user : Z) (p : Params) (ctx : Context) :
  steps R (dispatch_action fn user p ctx).
Proof.
  unfold dispatch_action. steps_rules.
  all: first [ apply steps_action_add_to_cart | apply steps_action_remove_from_cart
             | apply steps_action_checkout | apply steps_action_process_payment
             | apply steps_action_cancel_order ].
Qed.

Lemma steps_apply_action (st : FlowState) : steps R (apply_action st).
Proof. unfold apply_action. steps_rules. apply steps_dispatch_action. Qed.

Lemma steps_run_flow (fn : string) (user : Z) (q : string) (p : Params) :
  Transactional R -> steps R (run_flow fn user q p).
Proof.
  intros T. unfold run_flow. steps_rules.
  all: first [ apply steps_load_context | apply steps_apply_action
             | apply steps_persist_state; exact T | apply steps_build_response ].
Qed.

End Writes.
End StepRules.


(** *** Three relations on sessions *)

(** Nothing is written: both databases are as before. *)
Definition same_db (s s' : Session) : Prop :=
  working s' = working s /\ committed s' = committed s.

(** Nothing is committed. *)
Definition same_committed (s s' : Session) : Prop := committed s' = committed s.

(** A table on which the open transaction and the committed database agree
    stays as it is, in both. *)
Definition keeps {T : Type} (table : DB -> T) (s s' : Session) : Prop :=
  table (working s) = table (committed s) ->
  table (working s') = table (working s) /\ table (committed s') = table (committed s).

Lemma same_db_frame : Frame same_db.
Proof.
  constructor; unfold same_db; cbn; try prop.
  intros a b c [H1 H2] [H3 H4]. split; congruence.
Qed.

Lemma same_committed_frame : Frame same_committed.
Proof. constructor; unfold same_committed; cbn; congruence. Qed.

Lemma same_committed_writes : CartWrites same_committed.
Proof. constructor; unfold steps; intros; reflexivity. Qed.

Lemma same_committed_order_status (i : Z) (st : string) :
  steps same_committed (modify_working (set_order_status i st)).
Proof. intros s. reflexivity. Qed.

Lemma keeps_frame {T : Type} (table : DB -> T) : Frame (keeps table).
Proof.
  constructor; unfold keeps; cbn; try prop.
  intros a b c H1 H2 H. destruct (H1 H) as [H3 H4].
  destruct H2 as [H5 H6]; [congruence | ]. split; congruence.
Qed.

Lemma keeps_transactional {T : Type} (table : DB -> T) : Transactional (keeps table).
Proof. constructor; unfold keeps; cbn; intros s H; split; congruence. Qed.

(** A table that the writes of the flow engine do not touch. *)
Definition untouched {T : Type} (table : DB -> T) : Prop :=
  (forall l d, table (with_carts l d) = table d) /\
  (forall l d, table (with_cart_items l d) = table d) /\
  (forall l d, table (with_orders l d) = table d) /\
  (forall l d, table (with_order_items l d) = table d) /\
  (forall l d, table (with_payments l d) = table d).

Lemma books_untouched : untouched books.
Proof. repeat split. Qed.

Lemma execution_logs_untouched : untouched execution_logs.
Proof. repeat split. Qed.

Lemma keeps_writes {T : Type} (table : DB -> T) : untouched table -> CartWrites (keeps table).
Proof.
  intros (Hc & Hi & Ho & Hoi & Hp).
  constructor; unfold steps; intros; unfold keeps; cbn;
    unfold set_item_quantity, set_cart_status; rewrite ?Hc, ?Hi, ?Ho, ?Hoi, ?Hp; prop.
Qed.

Lemma keeps_order_status {T : Type} (table : DB -> T) (i : Z) (st : string) :
  untouched table -> steps (keeps table) (modify_working (set_order_status i st)).
Proof.
  intros (_ & _ & Ho & _). intros s. unfold keeps, set_order_status. cbn.
  rewrite Ho. prop.
Qed.

(** *** Reading the results of storage calls *)

Lemma bind_ok {A B : Type} (m : M A) (k : A -> M B) (s : Session) (b : B) (s' : Session) :
  bind m k s = (Ok b, s') ->
  exists a s1, m s = (Ok a, s1) /\ k a s1 = (Ok b, s').
Proof.
  unfold bind. destruct (m s) as [[a | msg] s1]; [ | discriminate].
  intros H. exists a, s1. split; [reflexivity | exact H].
Qed.

Lemma execute_select_ok {T : Type} (table : DB -> list T) (where_ : T -> bool)
  (s : Session) (rows : list T) (s' : Session) :
  execute_select table where_ s = (Ok rows, s') ->
  rows = filter where_ (table (working s)) /\ s' = tick_io s.
Proof.
  unfold execute_select, bind, io.
  destruct (fault_plan s (io_count s)); [discriminate | ].
  intros H. inversion H. split; reflexivity.
Qed.

Lemma scalar_one_or_none_ok {T : Type} (rows : list T) (s : Session) (r : option T)
  (s' : Session) :
  scalar_one_or_none rows s = (Ok r, s') ->
  s' = s /\ match r with Some x => rows = [x] | None => rows = [] end.
Proof.
  destruct rows as [ | x [ | y rest]]; cbn; intros H; inversion H; split; reflexivity.
Qed.

Lemma scalar_one_ok {T : Type} (rows : list T) (s : Session) (r : T) (s' : Session) :
  scalar_one rows s = (Ok r, s') -> s' = s /\ rows = [r].
Proof.
  destruct rows as [ | x [ | y rest]]; cbn; intros H; inversion H; split; reflexivity.
Qed.


(** *** The books are never written (C10) *)

(** A request to the flow engine, and a sequence of requests: each one is
    served in a session of its own, opened on the committed database (as
    the chat endpoint does), whatever the previous one returned or raised. *)
Record Request := {
  req_function : string;
  req_user : Z;
  req_query : string;
  req_params : Params }.

Definition open_session (s : Session) : Session := with_working (committed s) s.

Definition serve (r : Request) (s : Session) : Session :=
  snd (run_flow (req_function r) (req_user r) (req_query r) (req_params r) (open_session s)).

Fixpoint run_requests (reqs : list Request) (s : Session) : Session :=
  match reqs with
  | [] => s
  | r :: rest => run_requests rest (serve r s)
  end.

Lemma run_flow_keeps {T : Type} (table : DB -> T) (fn : string) (user : Z) (q : string)
  (p : Params) :
  untouched table -> steps (keeps table) (run_flow fn user q p).
Proof.
  intros U. apply steps_run_flow.
  - apply keeps_frame.
  - apply keeps_writes. exact U.
  - intros i st. apply keeps_order_status. exact U.
  - apply keeps_transactional.
Qed.

Lemma run_requests_books (reqs : list Request) (s : Session) :
  books (committed (run_requests reqs s)) = books (committed s).
Proof.
  revert s. induction reqs as [ | r rest IH]; intros s; cbn [run_requests]; [reflexivity | ].
  rewrite IH. unfold serve.
  destruct (run_flow_keeps books (req_function r) (req_user r) (req_query r) (req_params r)
              books_untouched (open_session s)) as [_ H]; [reflexivity | exact H].
Qed.

(** The book that LOAD_CONTEXT puts in the context is a row of the books
    table, read as it is. *)
Lemma load_context_book (fn : string) (p : Params) (user : Z) (s : Session) (ctx : Context)
  (s' : Session) (b : BookCtx) :
  load_context_ctx fn p user s = (Ok ctx, s') ->
  ctx_book ctx = Some b ->
  exists row, In row (books (working s)) /\ b = book_ctx row /\
              Some (book_id row) = p_book_id p.
Proof.
  unfold load_context_ctx.
  destruct ((fn =s "add_book_to_cart") || (fn =s "remove_book_from_cart")).
  - intros H Hb.
    apply bind_ok in H. destruct H as (book & s1 & Hload & H).
    apply bind_ok in H. destruct H as (rows & s2 & _ & H).
    apply bind_ok in H. destruct H as (cart & s3 & _ & H).
    inversion H; subst ctx. cbn [ctx_book] in Hb.
    destruct book as [row | ]; [ | discriminate]. inversion Hb; subst b.
    destruct (Py.truthy_int (p_book_id p)) eqn:Ht; [ | discriminate].
    apply bind_ok in Hload. destruct Hload as (found & s4 & Hsel & Hone).
    apply execute_select_ok in Hsel. destruct Hsel as [-> _].
    apply scalar_one_or_none_ok in Hone. destruct Hone as [_ Hone].
    assert (Hin : In row (filter (fun b => book_id b =? Py.get_default (p_book_id p) 0)
                            (books (working s)))) by (rewrite Hone; left; reflexivity).
    apply filter_In in Hin. destruct Hin as [Hin Hid].
    exists row. repeat split; [exact Hin | ].
    apply Z.eqb_eq in Hid. destruct (p_book_id p); [cbn in Hid; congruence | discriminate].
  - destruct (fn =s "checkout_order").
    + intros H Hb.
      apply bind_ok in H. destruct H as (rows & s1 & _ & H).
      apply bind_ok in H. destruct H as (cart & s2 & _ & H).
      destruct cart as [cart | ].
      * apply bind_ok in H. destruct H as (items & s3 & _ & H).
        apply bind_ok in H. destruct H as (loaded & s4 & _ & H).
        inversion H; subst ctx. discriminate.
      * inversion H; subst ctx. discriminate.
    + destruct ((fn =s "process_payment") || (fn =s "confirm_payment") ||
                (fn =s "cancel_order") || (fn =s "get_order_status")).
      * intros H Hb. apply bind_ok in H. destruct H as (order & s1 & _ & H).
        inversion H; subst ctx. discriminate.
      * intros H Hb. inversion H; subst ctx. discriminate.
Qed.

(** C10: no run of the flow engine writes the books table. Starting from a
    session whose open transaction and committed database hold the same
    books, the books are the same in both after the run, whatever the
    action, its parameters and the storage faults; so after every sequence
    of requests the committed books are the original ones, and the book
    that LOAD_CONTEXT hands to the stock check of add_book_to_cart is a row
    of the original catalog, with its original stock. *)
Theorem flow_never_writes_books (reqs : list Request) (s0 : Session) :
  (forall fn user q p s,
     books (working s) = books (committed s) ->
     books (working (snd (run_flow fn user q p s))) = books (working s) /\
     books (committed (snd (run_flow fn user q p s))) = books (committed s)) /\
  books (committed (run_requests reqs s0)) = books (committed s0) /\
  (forall fn p user ctx s' b,
     load_context_ctx fn p user (open_session (run_requests reqs s0)) = (Ok ctx, s') ->
     ctx_book ctx = Some b ->
     exists row, In row (books (committed s0)) /\
                 Some (book_id row) = p_book_id p /\
                 bctx_id b = book_id row /\ bctx_stock b = book_stock row).
Proof.
  split; [ | split].
  - intros fn user q p s H. exact (run_flow_keeps books fn user q p books_untouched s H).
  - apply run_requests_books.
  - intros fn p user ctx s' b Hload Hb.
    destruct (load_context_book fn p user _ ctx s' b Hload Hb) as (row & Hin & -> & Hid).
    exists row. cbn [open_session working with_working] in Hin.
    rewrite run_requests_books in Hin. repeat split; assumption.
Qed.


(** *** Actions that the orchestrator does not route (C1, C2) *)

Lemma try_except_ok {A : Type} (m : M A) (handler : string -> M A) (s : Session) (a : A)
  (s' : Session) :
  try_except m handler s = (Ok a, s') ->
  m s = (Ok a, s') \/ exists msg s1, m s = (Raise msg, s1) /\ handler msg s1 = (Ok a, s').
Proof.
  unfold try_except. destruct (m s) as [[x | msg] s1]; intros H.
  - left. exact H.
  - right. exists msg, s1. split; [reflexivity | exact H].
Qed.

(** A match whose method is "clarification" names no action. *)
Lemma embedding_tier_clarification (query : string) (functions : list SemanticFunction)
  (all_individual : list SemanticFunctionEmbedding) (s : Session) (m : SemanticMatch)
  (s' : Session) :
  embedding_tier query functions all_individual s = (Ok m, s') ->
  sm_method m = "clarification" -> sm_function_name m = "".
Proof.
  unfold embedding_tier.
  destruct (ranked_scores query functions all_individual) as [ | [best_fn best_score] others];
    [discriminate | ].
  destruct (Qle_bool (high_confidence_threshold settings) best_score).
  { intros H; inversion H; subst; discriminate. }
  destruct (Qle_bool (base_threshold all_individual) best_score).
  { destruct (Qle_bool (confidence_gap_threshold settings) _);
      intros H; inversion H; subst; discriminate. }
  destruct (Qle_bool (25 # 100) best_score).
  - intros H Hm. apply try_except_ok in H. destruct H as [H | (msg & s1 & _ & H)].
    + apply bind_ok in H. destruct H as (answer & s1 & _ & H).
      destruct (Py.truthy_str answer) eqn:T; inversion H; subst; cbn in *;
        [discriminate | reflexivity].
    + inversion H; subst. reflexivity.
  - intros H _. inversion H; subst. reflexivity.
Qed.


Lemma select_function_clarification (query : string) (s : Session) (m : SemanticMatch)
  (s' : Session) :
  select_function query s = (Ok m, s') ->
  sm_method m = "clarification" -> sm_function_name m = "".
Proof.
  unfold select_function. destruct (_rule_based_match query).
  { intros H; inversion H; subst; discriminate. }
  intros H. apply bind_ok in H. destruct H as (functions & s1 & _ & H).
  destruct functions as [ | f fs].
  { inversion H; subst. reflexivity. }
  apply bind_ok in H. destruct H as (all_individual & s2 & _ & H).
  exact (embedding_tier_clarification _ _ _ _ _ _ H).
Qed.

(** An action outside [LANGGRAPH_FUNCTIONS] and [DIRECT_FUNCTIONS] reaches
    the last [return] of [handle_query]. *)
Lemma handle_query_unrouted (query : string) (user : Z) (session_id : option Z)
  (s : Session) (m : SemanticMatch) (s1 : Session) :
  _check_help_query query = None ->
  select_function query s = (Ok m, s1) ->
  sm_function_name m <> "" ->
  Py.str_in (sm_function_name m) LANGGRAPH_FUNCTIONS = false ->
  Py.str_in (sm_function_name m) DIRECT_FUNCTIONS = false ->
  handle_query query user session_id s =
    (Ok (plain_result "Error interno del orquestador." (sm_function_name m) "error"
           (sm_similarity m) None), s1) /\
  same_db s s1.
Proof.
  intros Hhelp Hsel Hname Hflow Hdirect. split.
  - unfold handle_query. rewrite Hhelp. unfold bind at 1. rewrite Hsel.
    destruct (String.eqb_spec (sm_method m) "clarification") as [Hm | Hm].
    { exfalso. apply Hname. exact (select_function_clarification _ _ _ _ Hsel Hm). }
    rewrite Hflow, Hdirect. reflexivity.
  - pose proof (steps_select_function same_db same_db_frame query s) as H.
    rewrite Hsel in H. exact H.
Qed.

(** C1, as the code has it: a query that the intent resolver
    maps to confirm_payment is not dispatched to the flow engine.
    [handle_query] answers "Error interno del orquestador." with method
    "error"; both databases are as before the query (no payment row is
    recorded, no order changes status). *)
Theorem confirm_payment_not_dispatched (query : string) (user : Z) (session_id : option Z)
  (s : Session) (m : SemanticMatch) (s1 : Session) :
  _check_help_query query = None ->
  select_function query s = (Ok m, s1) ->
  sm_function_name m = "confirm_payment" ->
  exists s',
    handle_query query user session_id s =
      (Ok (plain_result "Error interno del orquestador." "confirm_payment" "error"
             (sm_similarity m) None), s') /\
    payments (working s') = payments (working s) /\
    orders (working s') = orders (working s) /\
    committed s' = committed s.
Proof.
  intros Hhelp Hsel Hname.
  destruct (handle_query_unrouted query user session_id s m s1 Hhelp Hsel) as [H [Hw Hc]];
    try (rewrite Hname; first [discriminate | reflexivity]).
  exists s1. rewrite Hname in H. repeat split; congruence.
Qed.

(** C2, as the code has it: when the resolved action is in
    neither routing set (confirm_payment and view_cart are such actions),
    [handle_query] returns its response without writing an ExecutionLog
    record: the log table is as before in the open transaction and in the
    committed database, and no storage call follows the resolution of the
    intent. *)
Theorem unrouted_query_writes_no_log (query : string) (user : Z) (session_id : option Z)
  (s : Session) (m : SemanticMatch) (s1 : Session) :
  _check_help_query query = None ->
  select_function query s = (Ok m, s1) ->
  sm_function_name m <> "" ->
  Py.str_in (sm_function_name m) LANGGRAPH_FUNCTIONS = false ->
  Py.str_in (sm_function_name m) DIRECT_FUNCTIONS = false ->
  exists r s',
    handle_query query user session_id s = (Ok r, s') /\
    or_response r = "Error interno del orquestador." /\
    execution_logs (working s') = execution_logs (working s) /\
    execution_logs (committed s') = execution_logs (committed s) /\
    io_count s' = io_count s1.
Proof.
  intros Hhelp Hsel Hname Hflow Hdirect.
  destruct (handle_query_unrouted query user session_id s m s1 Hhelp Hsel Hname Hflow Hdirect)
    as [H [Hw Hc]].
  eexists _, s1. split; [exact H | ]. repeat split; congruence.
Qed.

(** [_log_execution] never raises, whatever the storage does; when its
    commit succeeds the committed log holds exactly one more record. *)
Lemma log_execution_total (user : Z) (session_id : option Z) (query fn_name : string)
  (similarity : Q) (method : string) (trace : option (list string)) (result : string)
  (candidates : option (list (string * Q))) (s : Session) :
  exists s',
    _log_execution user session_id query fn_name similarity method trace result candidates s
      = (Ok tt, s') /\
    (fault_plan s (io_count s) = None ->
     exists row,
       execution_logs (committed s') = (execution_logs (working s) ++ [row])%list /\
       working s' = committed s' /\
       log_query row = query /\ log_matched_function row = fn_name /\
       log_method row = method /\ log_state_trace row = trace /\ log_result row = result) /\
    (fault_plan s (io_count s) <> None -> committed s' = committed s).
Proof.
  unfold _log_execution, try_except, bind, add_execution_log, modify_working, commit,
    rollback, bind, io, ret.
  simpl.
  destruct (fault_plan s (io_count s)) as [msg | ] eqn:F1; simpl.
  - destruct (fault_plan s (S (io_count s))) as [msg2 | ];
      eexists; (split; [reflexivity | split; [discriminate | intros _; reflexivity]]).
  - eexists. split; [reflexivity | split; [ | congruence]].
    intros _. eexists. simpl. repeat split; reflexivity.
Qed.


(** *** The order state machine (C5) *)















Lemma firstn_incl {T : Type} (n : nat) (l : list T) (x : T) :
  In x (firstn n l) -> In x l.
Proof.
  revert l. induction n as [ | n IH]; intros [ | y l]; cbn; try prop.
  intros [H | H]; [left; exact H | right; apply IH; exact H].
Qed.





















(** *** Exceptions inside APPLY_ACTION (C6) *)

Lemma truthy_str_nonempty (msg : string) : msg <> "" -> Py.truthy_str (Some msg) = true.
Proof. destruct msg; [contradiction | reflexivity]. Qed.

Lemma apply_action_raise (st : FlowState) (s : Session) (msg : string) (s' : Session) :
  dispatch_action (function_name st) (user_id st) (params st) (context st) s = (Raise msg, s') ->
  apply_action st s =
    (Ok (with_result st (state_trace st ++ ["APPLY_ACTION"])%list empty_result (Some msg)), s').
Proof. intros D. unfold apply_action, try_except, bind. rewrite D. reflexivity. Qed.

(** An exception with a message: the flow records it, skips PERSIST (the
    trace is VALIDATE_INPUT, LOAD_CONTEXT, APPLY_ACTION, BUILD_RESPONSE),
    names it in the response, and the run itself commits nothing. *)
Lemma action_exception_skips_persist (fn : string) (user : Z) (q : string) (p : Params)
  (s : Session) (st1 : FlowState) (s1 : Session) (msg : string) (s2 : Session) :
  missing_required fn p = [] ->
  load_context (validate_input (initial_state fn user q p)) s = (Ok st1, s1) ->
  dispatch_action (function_name st1) (user_id st1) (params st1) (context st1) s1
    = (Raise msg, s2) ->
  msg <> "" ->
  exists st,
    run_flow fn user q p s = (Ok st, s2) /\
    error st = Some msg /\
    state_trace st = ["VALIDATE_INPUT"; "LOAD_CONTEXT"; "APPLY_ACTION"; "BUILD_RESPONSE"] /\
    response st = "Hubo un error al procesar tu solicitud: " ++ msg /\
    committed s2 = committed s.
Proof.
  intros Hm L D Hmsg.
  rewrite (run_flow_valid fn user q p s Hm). unfold after_validation.
  unfold bind at 1. rewrite L. unfold bind at 1. rewrite (apply_action_raise st1 s1 msg s2 D).
  cbn [error with_result]. rewrite (truthy_str_nonempty msg Hmsg). cbn [negb].
  unfold bind, ret, build_response, bind, ret. cbn [error with_result].
  rewrite (truthy_str_nonempty msg Hmsg).
  eexists. split; [reflexivity | ].
  cbn [error state_trace response with_response with_result Py.get_default].
  pose proof (validate_input_spec fn user q p) as V. cbv zeta in V.
  destruct V as (Vt & _).
  pose proof (steps_load_context same_db same_db_frame
                (validate_input (initial_state fn user q p)) s) as [_ C1].
  rewrite L in C1. cbn [snd] in C1.
  pose proof (steps_dispatch_action same_committed same_committed_frame
                same_committed_writes same_committed_order_status
                (function_name st1) (user_id st1) (params st1) (context st1) s1) as C2.
  rewrite D in C2. unfold same_committed in C2. cbn [snd] in C2.
  apply load_context_shape in L. destruct L as (ctx & _ & ->).
  cbn [state_trace]. rewrite Vt. repeat split. congruence.
Qed.

(** C6, as the code has it: when the exception raised inside
    APPLY_ACTION has an empty message, the recorded error is the empty
    string, which [run_flow] and [build_response] test as no error: PERSIST
    is executed (the trace is VALIDATE_INPUT, LOAD_CONTEXT, APPLY_ACTION,
    PERSIST, BUILD_RESPONSE), its commit makes the changes that the failed
    action had made durable, and the response is the template of the
    action for an empty result instead of naming the error. *)
Theorem empty_exception_message_persists (fn : string) (user : Z) (q : string) (p : Params)
  (s : Session) (st1 : FlowState) (s1 s2 : Session) :
  missing_required fn p = [] ->
  Py.str_in fn TRANSACTIONAL_ACTIONS = true ->
  load_context (validate_input (initial_state fn user q p)) s = (Ok st1, s1) ->
  dispatch_action (function_name st1) (user_id st1) (params st1) (context st1) s1
    = (Raise "", s2) ->
  fault_plan s2 (io_count s2) = None ->
  exists st s',
    run_flow fn user q p s = (Ok st, s') /\
    error st = Some "" /\
    state_trace st =
      ["VALIDATE_INPUT"; "LOAD_CONTEXT"; "APPLY_ACTION"; "PERSIST"; "BUILD_RESPONSE"] /\
    response st = build_transactional_response fn empty_result /\
    committed s' = working s2.
Proof.
  intros Hm Htx L D Hfault.
  rewrite (run_flow_valid fn user q p s Hm). unfold after_validation.
  unfold bind at 1. rewrite L. unfold bind at 1. rewrite (apply_action_raise st1 s1 "" s2 D).
  cbn [error with_result Py.truthy_str negb].
  unfold bind at 1.
  unfold persist_state, try_except, bind, commit, bind, io. rewrite Hfault.
  unfold ret, build_response, bind, ret.
  cbn [error with_result with_trace Py.truthy_str function_name].
  pose proof (validate_input_spec fn user q p) as V. cbv zeta in V.
  destruct V as (Vt & _ & _ & Vf & _).
  apply load_context_shape in L. destruct L as (ctx & _ & ->).
  cbn [function_name state_trace action_result]. rewrite Vf, Htx, Vt.
  do 2 eexists. split; [reflexivity | ]. repeat split.
Qed.


(** *** The entity resolver (C8) *)

Lemma insert_desc_filter_length {A K : Type} (key : A -> K) (lt : K -> K -> bool)
  (keep : A -> bool) (x : A) (l : list A) :
  List.length (filter keep (Py.insert_desc key lt x l)) = List.length (filter keep (x :: l)).
Proof.
  induction l as [ | y l IH]; [reflexivity | ].
  cbn [Py.insert_desc]. destruct (lt (key x) (key y)); [ | reflexivity].
  cbn [filter] in *. destruct (keep y), (keep x); cbn [List.length] in *; rewrite IH; reflexivity.
Qed.

Lemma sort_desc_filter_length {A K : Type} (key : A -> K) (lt : K -> K -> bool)
  (keep : A -> bool) (l : list A) :
  List.length (filter keep (Py.sort_desc key lt l)) = List.length (filter keep l).
Proof.
  induction l as [ | x l IH]; [reflexivity | ].
  cbn [Py.sort_desc]. rewrite insert_desc_filter_length.
  cbn [filter]. destruct (keep x); cbn [List.length]; rewrite IH; reflexivity.
Qed.

Lemma ltb_irrefl (a : nat) : (a <? a)%nat = false.
Proof. apply Nat.ltb_irrefl. Qed.

Lemma ltb_asym (a b : nat) : (a <? b)%nat = true -> (b <? a)%nat = false.
Proof. rewrite Nat.ltb_lt, Nat.ltb_ge. lia. Qed.

Lemma ltb_negtrans (a b c : nat) :
  (a <? b)%nat = false -> (b <? c)%nat = false -> (a <? c)%nat = false.
Proof. rewrite !Nat.ltb_ge. lia. Qed.

(** Tier 1: when some title occurs in the query, the book found is one of
    the longest such titles. *)
Lemma resolve_among_exact (query : string) (all_books : list Book) :
  (exists b, In b all_books /\ exact_hit query b = true) ->
  exists b,
    resolve_among query all_books = found b /\ In b all_books /\ exact_hit query b = true /\
    forall b', In b' all_books -> exact_hit query b' = true ->
               (title_len b' <= title_len b)%nat.
Proof.
  intros (b0 & Hin0 & Hhit0).
  unfold resolve_among. destruct all_books as [ | x xs] eqn:Hbooks; [contradiction | ].
  rewrite <- Hbooks in *. clear Hbooks x xs.
  remember (filter (exact_hit query) (Py.sort_desc title_len Nat.ltb all_books)) as hits
    eqn:E.
  assert (Hhits : forall b, In b hits <-> In b all_books /\ exact_hit query b = true).
  { intros b. subst hits. rewrite filter_In, sort_desc_In. reflexivity. }
  clear E. destruct hits as [ | first rest].
  { exfalso. apply (proj2 (Hhits b0)). split; assumption. }
  assert (Hmax : exists b, In b (first :: rest) /\
                   (forall y, In y (first :: rest) -> (title_len y <= title_len b)%nat) /\
                   match rest with
                   | [] => found first
                   | _ => found (Py.max_by title_len Nat.ltb first rest)
                   end = found b).
  { destruct (max_by_spec title_len Nat.ltb ltb_irrefl ltb_asym ltb_negtrans rest first)
      as [Hin Hle].
    destruct rest as [ | second rest'].
    - exists first. split; [left; reflexivity | split; [ | reflexivity]].
      intros y [<- | []]. lia.
    - exists (Py.max_by title_len Nat.ltb first (second :: rest')).
      split; [exact Hin | split; [ | reflexivity]].
      intros y Hy. specialize (Hle y Hy). unfold not_below in Hle.
      apply Nat.ltb_ge in Hle. exact Hle. }
  destruct Hmax as (b & Hb & Hle & Heq).
  exists b. split.
  - destruct rest; exact Heq.
  - apply Hhits in Hb. destruct Hb as [Hb1 Hb2]. repeat split; try assumption.
    intros b' Hin' Hhit'. apply Hle. apply Hhits. split; assumption.
Qed.

Lemma resolve_among_no_exact (query : string) (all_books : list Book) :
  (forall b, In b all_books -> exact_hit query b = false) ->
  resolve_among query all_books = keyword_tiers query all_books.
Proof.
  intros Hno. unfold resolve_among.
  destruct all_books as [ | x xs] eqn:Hbooks.
  { unfold keyword_tiers. destruct (_extract_keywords query); reflexivity. }
  rewrite <- Hbooks in *. clear Hbooks x xs.
  destruct (filter (exact_hit query) (Py.sort_desc title_len Nat.ltb all_books))
    as [ | first rest] eqn:E; [reflexivity | ].
  assert (H : In first (filter (exact_hit query) (Py.sort_desc title_len Nat.ltb all_books)))
    by (rewrite E; left; reflexivity).
  apply filter_In in H. destruct H as [Hin Hhit]. apply sort_desc_In in Hin.
  rewrite (Hno first Hin) in Hhit. discriminate.
Qed.


(** The books with a positive score, in catalog order, as the code builds
    them before sorting. *)
Definition scored_books (keywords : list string) (all_books : list Book) : list (Book * nat) :=
  filter (fun bm => (0 <? snd bm)%nat)
         (map (fun book => (book, keyword_matches keywords book)) all_books).

(** [t] is the highest score of a book of the catalog. *)
Definition is_top_score (keywords : list string) (all_books : list Book) (t : nat) : Prop :=
  (exists b, In b all_books /\ keyword_matches keywords b = t) /\
  forall b, In b all_books -> (keyword_matches keywords b <= t)%nat.

(** The number of books of the catalog whose score is [t]. *)
Definition count_scoring (keywords : list string) (all_books : list Book) (t : nat) : nat :=
  List.length (filter (fun b => (keyword_matches keywords b =? t)%nat) all_books).

Lemma scored_books_In (keywords : list string) (all_books : list Book) (b : Book) (c : nat) :
  In (b, c) (scored_books keywords all_books) <->
  In b all_books /\ c = keyword_matches keywords b /\ (0 < c)%nat.
Proof.
  unfold scored_books. rewrite filter_In, in_map_iff. cbn [snd]. rewrite Nat.ltb_lt. split.
  - intros [(b' & Heq & Hin) Hpos]. inversion Heq; subst. auto.
  - intros (Hin & -> & Hpos). split; [exists b; auto | exact Hpos].
Qed.

Lemma scored_books_count (keywords : list string) (all_books : list Book) (t : nat) :
  (0 < t)%nat ->
  List.length (filter (fun bm => (snd bm =? t)%nat) (scored_books keywords all_books)) =
  count_scoring keywords all_books t.
Proof.
  intros Ht. unfold scored_books, count_scoring.
  induction all_books as [ | b l IH]; [reflexivity | ].
  cbn [map filter snd].
  destruct (Nat.ltb_spec 0 (keyword_matches keywords b)) as [Hpos | Hzero].
  - cbn [filter snd]. destruct (keyword_matches keywords b =? t)%nat;
      cbn [List.length]; rewrite IH; reflexivity.
  - destruct (Nat.eqb_spec (keyword_matches keywords b) t) as [E | E]; [lia | exact IH].
Qed.

Lemma filter_none {T : Type} (keep : T -> bool) (l : list T) :
  (forall x, In x l -> keep x = false) -> filter keep l = [].
Proof.
  induction l as [ | x l IH]; intros H; [reflexivity | ].
  cbn [filter]. rewrite (H x (or_introl eq_refl)). apply IH.
  intros y Hy. apply H. right. exact Hy.
Qed.

Lemma top_two_filter {T : Type} (keep : T -> bool) (x y : T) (rest : list T) :
  keep x = true -> keep y = true ->
  filter keep (firstn 5 (x :: y :: rest)) = x :: y :: filter keep (firstn 3 rest).
Proof.
  intros Hx Hy. change (firstn 5 (x :: y :: rest)) with (x :: y :: firstn 3 rest).
  cbn [filter]. rewrite Hx, Hy. reflexivity.
Qed.

(** Tiers 2 and 3 by cases on the highest score [t] of the catalog. *)
Lemma keyword_tiers_cases (query : string) (all_books : list Book) (t : nat) :
  _extract_keywords query <> [] ->
  is_top_score (_extract_keywords query) all_books t ->
  (0 < t)%nat ->
  let keywords := _extract_keywords query in
  (t = List.length keywords ->
   exists b, keyword_tiers query all_books = found b /\ In b all_books /\
             keyword_matches keywords b = t) /\
  (t <> List.length keywords -> count_scoring keywords all_books t = 1%nat ->
   exists b, keyword_tiers query all_books = found b /\ In b all_books /\
             keyword_matches keywords b = t) /\
  (t <> List.length keywords -> (2 <= count_scoring keywords all_books t)%nat ->
   exists candidates,
     keyword_tiers query all_books = ambiguous candidates /\
     (2 <= List.length candidates <= 5)%nat /\
     forall c, In c candidates ->
       exists b, In b all_books /\ c = book_card b /\ keyword_matches keywords b = t).
Proof.
  intros Hkw [(bt & Hbt & Hst) Hmax] Hpos. cbv zeta.
  unfold keyword_tiers.
  destruct (_extract_keywords query) as [ | k ks] eqn:Ek; [contradiction | ].
  fold (scored_books (k :: ks) all_books). cbv zeta.
  set (keywords := k :: ks) in *.
  remember (Py.sort_desc snd Nat.ltb (scored_books keywords all_books)) as sorted eqn:Es.
  assert (Hin : forall b c, In (b, c) sorted <->
                  In b all_books /\ c = keyword_matches keywords b /\ (0 < c)%nat).
  { intros b c. subst sorted. rewrite sort_desc_In. apply scored_books_In. }
  assert (Hcount : List.length (filter (fun bm => (snd bm =? t)%nat) sorted) =
                   count_scoring keywords all_books t).
  { subst sorted. rewrite sort_desc_filter_length. apply scored_books_count. exact Hpos. }
  assert (Hsorted : StronglySorted (not_below snd Nat.ltb) sorted).
  { subst sorted. apply sort_desc_sorted; [apply ltb_asym | apply ltb_negtrans]. }
  clear Es.
  destruct sorted as [ | [bb bc] others].
  { exfalso. apply (proj2 (Hin bt t)). repeat split; auto. }
  assert (Hbb : In bb all_books /\ bc = keyword_matches keywords bb /\ (0 < bc)%nat)
    by (apply Hin; left; reflexivity).
  destruct Hbb as (Hbb1 & Hbb2 & Hbb3).
  assert (Hbc : bc = t).
  { apply Nat.le_antisymm.
    - rewrite Hbb2. apply Hmax. exact Hbb1.
    - assert (Ht : In (bt, t) ((bb, bc) :: others)) by (apply Hin; auto).
      destruct Ht as [Ht | Ht]; [inversion Ht; lia | ].
      destruct (StronglySorted_inv Hsorted) as [_ Hall].
      rewrite Forall_forall in Hall. specialize (Hall _ Ht).
      unfold not_below in Hall. cbn [snd] in Hall. apply Nat.ltb_ge in Hall. exact Hall. }
  rewrite Hbc in *. clear Hbc bc.
  cbn [filter snd] in Hcount. rewrite Nat.eqb_refl in Hcount. cbn [List.length] in Hcount.
  destruct (Nat.eqb_spec t (List.length keywords)) as [Hall | Hnot].
  { repeat split; try contradiction. intros _. exists bb. auto. }
  split; [intros E; contradiction | ].
  destruct others as [ | [b2 c2] rest].
  { cbn in Hcount. split.
    - intros _ _. exists bb. auto.
    - intros _ H2. lia. }
  destruct (StronglySorted_inv Hsorted) as [Hs2 Hall1].
  assert (Hc2 : (c2 <= t)%nat).
  { pose proof (Forall_inv Hall1) as H2.
    unfold not_below in H2. cbn [snd] in H2. apply Nat.ltb_ge in H2. exact H2. }
  destruct (Nat.ltb_spec c2 t) as [Hlt | Hge].
  - assert (Hnone : filter (fun bm => (snd bm =? t)%nat) ((b2, c2) :: rest) = []).
    { apply filter_none. intros [b3 c3] H3. cbn [snd]. apply Nat.eqb_neq.
      destruct H3 as [H3 | H3]; [inversion H3; lia | ].
      destruct (StronglySorted_inv Hs2) as [_ Hall2]. rewrite Forall_forall in Hall2.
      specialize (Hall2 _ H3). unfold not_below in Hall2. cbn [snd] in Hall2.
      apply Nat.ltb_ge in Hall2. lia. }
    rewrite Hnone in Hcount. cbn [List.length] in Hcount. split.
    + intros _ _. exists bb. auto.
    + intros _ H2. lia.
  - assert (Hc2t : c2 = t) by lia. rewrite Hc2t in *. clear Hc2t c2.
    cbn [filter snd] in Hcount. rewrite Nat.eqb_refl in Hcount. cbn [List.length] in Hcount.
    split; [intros _ H1; lia | ].
    intros _ _. eexists. split; [reflexivity | ].
    rewrite top_two_filter by (cbn [snd]; apply Nat.eqb_refl).
    cbn [map List.length fst]. split.
    + pose proof (filter_length_le (fun bm : Book * nat => (snd bm =? t)%nat) (firstn 3 rest)).
      pose proof (firstn_le_length 3 rest). rewrite length_map. lia.
    + intros c [<- | [<- | Hc]].
      * exists bb. auto.
      * exists b2. destruct (proj1 (Hin b2 t)) as (H1 & H2 & _); [right; left; reflexivity | ].
        auto.
      * apply in_map_iff in Hc. destruct Hc as ([b3 c3] & <- & Hf).
        apply filter_In in Hf. destruct Hf as [Hf Heq]. cbn [snd] in Heq.
        apply Nat.eqb_eq in Heq. rewrite Heq in *. apply firstn_incl in Hf.
        destruct (proj1 (Hin b3 t)) as (H1 & H2 & _); [right; right; exact Hf | ].
        exists b3. auto.
Qed.

(** Tiers 2 and 3 find nothing exactly when no keyword is extracted or no
    title contains a keyword. *)
Lemma keyword_tiers_not_found (query : string) (all_books : list Book) :
  keyword_tiers query all_books = not_found <->
  _extract_keywords query = [] \/
  forall b, In b all_books -> keyword_matches (_extract_keywords query) b = 0%nat.
Proof.
  unfold keyword_tiers.
  destruct (_extract_keywords query) as [ | k ks] eqn:Ek; [prop | ].
  fold (scored_books (k :: ks) all_books). cbv zeta.
  set (keywords := k :: ks) in *.
  remember (Py.sort_desc snd Nat.ltb (scored_books keywords all_books)) as sorted eqn:Es.
  assert (Hin : forall b c, In (b, c) sorted <->
                  In b all_books /\ c = keyword_matches keywords b /\ (0 < c)%nat).
  { intros b c. subst sorted. rewrite sort_desc_In. apply scored_books_In. }
  clear Es. destruct sorted as [ | [bb bc] others].
  - split; [ | reflexivity]. intros _. right. intros b Hb.
    destruct (keyword_matches keywords b) as [ | n] eqn:E; [reflexivity | ].
    exfalso. apply (proj2 (Hin b (S n))). repeat split; auto; lia.
  - split.
    + intros H. exfalso.
      destruct (bc =? List.length keywords)%nat; [discriminate | ].
      destruct others as [ | [b2 c2] rest]; [discriminate | ].
      destruct (c2 <? bc)%nat; discriminate.
    + intros [H | H]; [discriminate | ]. exfalso.
      destruct (proj1 (Hin bb bc)) as (H1 & H2 & H3); [left; reflexivity | ].
      rewrite (H bb H1) in H2. lia.
Qed.


Lemma resolve_book_smart_run (query : string) (s : Session) :
  fault_plan s (io_count s) = None ->
  _resolve_book_smart query s = (Ok (resolve_among query (books (working s))), tick_io s).
Proof.
  intros Hfault. unfold _resolve_book_smart, bind, execute_select, bind, io.
  rewrite Hfault. cbn [working tick_io]. unfold ret. f_equal. f_equal. f_equal.
  induction (books (working s)) as [ | b l IH]; [reflexivity | ]. cbn. rewrite IH. reflexivity.
Qed.

(** C8, as the code has it: (1) when titles occur in the query, whatever
    the case of the letters, the resolver returns found with one of the
    longest such titles; (2) otherwise it returns not_found exactly when no
    keyword is extracted or no title contains a keyword; and with [t] the
    highest keyword score of the catalog, it returns (3) found with a top
    scorer when [t] is the number of keywords (every keyword matches),
    whether or not that score is tied, (4) found with the top scorer when
    exactly one book scores [t] (a sole scorer, or a strict top scorer), and
    (5) ambiguous, with 2 to 5 candidates that all score [t], when at least
    two books score [t] and [t] is below the number of keywords. *)
Theorem entity_resolver_cascade (query : string) (all_books : list Book) :
  ((exists b, In b all_books /\ exact_hit query b = true) ->
   exists b,
     resolve_among query all_books = found b /\ In b all_books /\ exact_hit query b = true /\
     forall b', In b' all_books -> exact_hit query b' = true ->
                (title_len b' <= title_len b)%nat) /\
  ((forall b, In b all_books -> exact_hit query b = false) ->
   (resolve_among query all_books = not_found <->
    _extract_keywords query = [] \/
    forall b, In b all_books -> keyword_matches (_extract_keywords query) b = 0%nat) /\
   forall t,
     _extract_keywords query <> [] ->
     is_top_score (_extract_keywords query) all_books t ->
     (0 < t)%nat ->
     (t = List.length (_extract_keywords query) ->
      exists b, resolve_among query all_books = found b /\ In b all_books /\
                keyword_matches (_extract_keywords query) b = t) /\
     (t <> List.length (_extract_keywords query) ->
      count_scoring (_extract_keywords query) all_books t = 1%nat ->
      exists b, resolve_among query all_books = found b /\ In b all_books /\
                keyword_matches (_extract_keywords query) b = t) /\
     (t <> List.length (_extract_keywords query) ->
      (2 <= count_scoring (_extract_keywords query) all_books t)%nat ->
      exists candidates,
        resolve_among query all_books = ambiguous candidates /\
        (2 <= List.length candidates <= 5)%nat /\
        forall c, In c candidates ->
          exists b, In b all_books /\ c = book_card b /\
                    keyword_matches (_extract_keywords query) b = t)).
Proof.
  split; [apply resolve_among_exact | ].
  intros Hno. rewrite (resolve_among_no_exact query all_books Hno).
  split; [apply keyword_tiers_not_found | ].
  intros t Hkw Htop Hpos. exact (keyword_tiers_cases query all_books t Hkw Htop Hpos).
Qed.


(** ** Further properties of the flow engine *)

(** *** The declared graph and the runs *)

(** [build_flow_graph] declares the graph; [run_flow] executes the nodes
    by hand. The graph is its nodes, its entry point, its plain edges and
    its conditional edges, each with a router and the node of each of the
    router's answers. *)
Definition END : string := "__end__".

Definition _route_after_validation (state : FlowState) : string :=
  if needs_input state then "needs_input" else "valid".

Definition _route_after_action (state : FlowState) : string :=
  if Py.truthy_str (error state) then "error" else "success".

Record StateGraph := {
  nodes : list string;
  entry_point : string;
  edges : list (string * string);
  conditional_edges : list (string * ((FlowState -> string) * list (string * string))) }.

Definition build_flow_graph : StateGraph :=
  {| nodes := ["VALIDATE_INPUT"; "LOAD_CONTEXT"; "APPLY_ACTION"; "PERSIST";
               "BUILD_RESPONSE"; "ASK_INPUT"];
     entry_point := "VALIDATE_INPUT";
     edges := [("ASK_INPUT", END); ("LOAD_CONTEXT", "APPLY_ACTION");
               ("PERSIST", "BUILD_RESPONSE"); ("BUILD_RESPONSE", END)];
     conditional_edges :=
       [("VALIDATE_INPUT",
         (_route_after_validation,
          [("needs_input", "ASK_INPUT"); ("valid", "LOAD_CONTEXT")]));
        ("APPLY_ACTION",
         (_route_after_action, [("success", "PERSIST"); ("error", "BUILD_RESPONSE")]))] |}.

Fixpoint lookup {A : Type} (k : string) (l : list (string * A)) : option A :=
  match l with
  | [] => None
  | (k', v) :: rest => if k' =s k then Some v else lookup k rest
  end.

(** The node that follows [node] for a state: the answer of the router when
    the node has one, the plain edge otherwise. *)
Definition next_node (g : StateGraph) (node : string) (state : FlowState) : option string :=
  match lookup node (conditional_edges g) with
  | Some (router, targets) => lookup (router state) targets
  | None => lookup node (edges g)
  end.

(** The nodes visited from [node] to [END], when [END] is reached within
    [fuel] steps. *)
Fixpoint graph_walk (g : StateGraph) (fuel : nat) (node : string) (state : FlowState)
  : option (list string) :=
  if node =s END then Some []
  else
    match fuel with
    | O => None
    | S fuel' =>
        match next_node g node state with
        | Some n => option_map (cons node) (graph_walk g fuel' n state)
        | None => None
        end
    end.

(** The trace of a run that passed validation and returned: PERSIST is
    visited exactly when the recorded error is not truthy. *)
Lemma after_validation_outcome (st0 : FlowState) (s : Session) (st : FlowState) (s' : Session) :
  after_validation st0 s = (Ok st, s') ->
  needs_input st = needs_input st0 /\
  state_trace st =
    (state_trace st0 ++
     "LOAD_CONTEXT" :: "APPLY_ACTION" ::
     (if Py.truthy_str (error st) then ["BUILD_RESPONSE"] else ["PERSIST"; "BUILD_RESPONSE"]))%list.
Proof.
  unfold after_validation, bind. intros H.
  destruct (load_context st0 s) as [[st1 | m1] s1] eqn:L; [ | discriminate].
  apply load_context_shape in L. destruct L as (ctx & _ & L).
  assert (T1 : state_trace st1 = (state_trace st0 ++ ["LOAD_CONTEXT"])%list) by (subst st1; reflexivity).
  assert (N1 : needs_input st1 = needs_input st0) by (subst st1; reflexivity).
  clear L.
  destruct (apply_action_shape st1 s1) as [(r & s2 & _ & A) | (m & s2 & _ & A)];
    cbv zeta in A; rewrite A in H; clear A; cbn [error with_result] in H.
  - cbn [Py.truthy_str negb] in H.
    destruct (persist_state _ s2) as [[st3 | m3] s3] eqn:P; [ | discriminate].
    apply persist_state_shape in P. subst st3.
    match type of H with build_response ?x _ = _ =>
      destruct (build_response_shape x s3) as (text & s4 & B & _) end.
    rewrite B in H. inversion H; subst. cbn. rewrite T1, N1.
    split; [reflexivity | ]. rewrite <- !app_assoc. reflexivity.
  - destruct (Py.truthy_str (Some m)) eqn:Hm; cbn [negb] in H.
    + unfold ret in H.
      match type of H with build_response ?x _ = _ =>
        destruct (build_response_shape x s2) as (text & s4 & B & _) end.
      rewrite B in H. inversion H; subst. cbn [needs_input state_trace error with_response with_result].
      rewrite Hm, T1, N1. split; [reflexivity | ]. rewrite <- !app_assoc. reflexivity.
    + destruct (persist_state _ s2) as [[st3 | m3] s3] eqn:P; [ | discriminate].
      apply persist_state_shape in P. subst st3.
      match type of H with build_response ?x _ = _ =>
        destruct (build_response_shape x s3) as (text & s4 & B & _) end.
      rewrite B in H. inversion H; subst.
      cbn [needs_input state_trace error with_response with_result with_trace].
      rewrite Hm, T1, N1. split; [reflexivity | ]. rewrite <- !app_assoc. reflexivity.
Qed.

(** Every run of the flow engine that returns has visited exactly the nodes
    that the declared graph visits from its entry point to [END] when its
    routers read the state the run returns: [needs_input] is set by
    VALIDATE_INPUT and [error] by APPLY_ACTION, and no later node changes
    them. The trace is one of three: VALIDATE_INPUT, ASK_INPUT; the five
    states with PERSIST; the four without it. *)
Theorem run_flow_follows_graph (fn : string) (user : Z) (q : string) (p : Params)
  (s : Session) (st : FlowState) (s' : Session) :
  run_flow fn user q p s = (Ok st, s') ->
  graph_walk build_flow_graph (List.length (nodes build_flow_graph))
    (entry_point build_flow_graph) st = Some (state_trace st) /\
  (state_trace st = ["VALIDATE_INPUT"; "ASK_INPUT"] \/
   state_trace st = ["VALIDATE_INPUT"; "LOAD_CONTEXT"; "APPLY_ACTION"; "PERSIST";
                     "BUILD_RESPONSE"] \/
   state_trace st = ["VALIDATE_INPUT"; "LOAD_CONTEXT"; "APPLY_ACTION"; "BUILD_RESPONSE"]).
Proof.
  intros H.
  pose proof (validate_input_spec fn user q p) as V. cbv zeta in V.
  destruct V as (Vt & Vm & Vn & _).
  destruct (missing_required fn p) as [ | f fs] eqn:Hm.
  - rewrite (run_flow_valid fn user q p s Hm) in H.
    apply after_validation_outcome in H. destruct H as [Hn Ht].
    rewrite Vn in Hn. rewrite Vt in Ht. cbn in Hn, Ht.
    destruct (Py.truthy_str (error st)) eqn:He; rewrite Ht; (split; [ | auto]);
      cbn; unfold next_node; cbn; unfold _route_after_validation, _route_after_action;
      rewrite ?Hn, ?He; cbn; reflexivity.
  - rewrite run_flow_ask in H by (rewrite Hm; discriminate).
    inversion H; subst st s'. cbn [state_trace with_response]. split; [ | auto].
    cbn. unfold next_node. cbn. unfold _route_after_validation.
    cbn [needs_input with_response]. rewrite Vn. reflexivity.
Qed.


(** *** A commit that fails *)

(** Nothing is committed by LOAD_CONTEXT and APPLY_ACTION. *)
Lemma context_and_action_commit_nothing (st0 : FlowState) (s : Session) (st1 : FlowState)
  (s1 : Session) (s2 : Session) (res : outcome Result) :
  load_context st0 s = (Ok st1, s1) ->
  dispatch_action (function_name st1) (user_id st1) (params st1) (context st1) s1 = (res, s2) ->
  committed s2 = committed s.
Proof.
  intros L D.
  pose proof (steps_load_context same_committed same_committed_frame st0 s) as C1.
  rewrite L in C1. cbn [snd] in C1.
  pose proof (steps_dispatch_action same_committed same_committed_frame
                same_committed_writes same_committed_order_status
                (function_name st1) (user_id st1) (params st1) (context st1) s1) as C2.
  rewrite D in C2. cbn [snd] in C2. unfold same_committed in *. congruence.
Qed.

(** When the commit of PERSIST raises, [persist_state] swallows the
    exception and rolls back: the run records no error, its trace is the
    full one, and the reply is the reply of the action (for a transactional
    action, its template for the action's result), while the changes of the
    action are gone and the committed database is as before the run. When
    the rollback raises too, that exception leaves [run_flow]. *)
Theorem commit_failure_is_silent (fn : string) (user : Z) (q : string) (p : Params)
  (s : Session) (st1 : FlowState) (s1 : Session) (r : Result) (s2 : Session) (msg : string) :
  missing_required fn p = [] ->
  Py.str_in fn TRANSACTIONAL_ACTIONS = true ->
  load_context (validate_input (initial_state fn user q p)) s = (Ok st1, s1) ->
  dispatch_action (function_name st1) (user_id st1) (params st1) (context st1) s1 = (Ok r, s2) ->
  fault_plan s2 (io_count s2) = Some msg ->
  (fault_plan s2 (S (io_count s2)) = None ->
   exists st s',
     run_flow fn user q p s = (Ok st, s') /\
     error st = None /\
     state_trace st =
       ["VALIDATE_INPUT"; "LOAD_CONTEXT"; "APPLY_ACTION"; "PERSIST"; "BUILD_RESPONSE"] /\
     response st = build_transactional_response fn r /\
     working s' = committed s /\ committed s' = committed s) /\
  (forall msg2, fault_plan s2 (S (io_count s2)) = Some msg2 ->
   exists s', run_flow fn user q p s = (Raise msg2, s') /\ committed s' = committed s).
Proof.
  intros Hm Htx L D Hcommit.
  pose proof (context_and_action_commit_nothing _ _ _ _ _ _ L D) as Hc.
  pose proof (validate_input_spec fn user q p) as V. cbv zeta in V.
  destruct V as (Vt & _ & _ & Vf & _).
  pose proof L as L'. apply load_context_shape in L'. destruct L' as (ctx & _ & Hst1).
  assert (F1 : function_name st1 = fn) by (subst st1; exact Vf).
  assert (T1 : state_trace st1 = ["VALIDATE_INPUT"; "LOAD_CONTEXT"])
    by (subst st1; cbn [state_trace]; rewrite Vt; reflexivity).
  assert (E : run_flow fn user q p s =
              bind (persist_state
                      (with_result st1 (state_trace st1 ++ ["APPLY_ACTION"])%list r None))
                   (fun st3 => build_response st3) s2).
  { rewrite (run_flow_valid fn user q p s Hm). unfold after_validation.
    unfold bind at 1. rewrite L. unfold bind at 1.
    unfold apply_action, try_except, bind at 1. rewrite D. reflexivity. }
  rewrite E. clear E.
  unfold bind at 1.
  unfold persist_state, try_except, bind, commit, bind, io. rewrite Hcommit.
  unfold rollback, bind, io. cbn [tick_io fault_plan io_count].
  split.
  - intros Hroll. rewrite Hroll.
    unfold ret, build_response, bind, ret.
    cbn [error with_result with_trace Py.truthy_str function_name].
    rewrite F1, Htx. do 2 eexists. split; [reflexivity | ].
    cbn [error response state_trace with_response with_trace with_result action_result
         working committed with_working tick_io].
    rewrite T1, Hc. repeat split; reflexivity.
  - intros msg2 Hroll. rewrite Hroll. eexists. split; [reflexivity | ].
    cbn [committed tick_io]. exact Hc.
Qed.


(** *** Runs that reach PERSIST *)

(** The state after LOAD_CONTEXT. *)
Definition with_context (state : FlowState) (ctx : Context) : FlowState :=
  {| user_id := user_id state; function_name := function_name state;
     query := query state; params := params state; context := ctx;
     action_result := action_result state; response := response state;
     state_trace := (state_trace state ++ ["LOAD_CONTEXT"])%list;
     needs_input := needs_input state; missing_fields := missing_fields state;
     error := error state |}.

Lemma load_context_ok (st : FlowState) (s : Session) (ctx : Context) (s' : Session) :
  load_context_ctx (function_name st) (params st) (user_id st) s = (Ok ctx, s') ->
  load_context st s = (Ok (with_context st ctx), s').
Proof. intros H. unfold load_context, bind. rewrite H. reflexivity. Qed.

(** The parameters after validation: the quantity of add_book_to_cart is
    set to 1 when it is missing or zero, nothing else changes. *)
Definition validated_params (fn : string) (p : Params) : Params :=
  if (fn =s "add_book_to_cart") && negb (Py.truthy_int (p_quantity p))
  then {| p_book_id := p_book_id p; p_quantity := Some 1; p_order_id := p_order_id p |}
  else p.

Lemma validate_input_params (fn : string) (user : Z) (q : string) (p : Params) :
  params (validate_input (initial_state fn user q p)) = validated_params fn p.
Proof.
  unfold validate_input, validated_params.
  cbn [initial_state function_name params state_trace app].
  string_case fn "add_book_to_cart".
  { cbn [String.eqb Ascii.eqb Bool.eqb orb andb].
    destruct (Py.truthy_int (p_book_id p));
      destruct (Py.truthy_int (p_quantity p)); reflexivity. }
  cbn [andb].
  string_case fn "remove_book_from_cart".
  { destruct (Py.truthy_int (p_book_id p)); reflexivity. }
  string_case fn "process_payment"; [reflexivity | ].
  string_case fn "confirm_payment"; [reflexivity | ].
  string_case fn "cancel_order".
  { destruct (Py.truthy_int (p_order_id p)); reflexivity. }
  reflexivity.
Qed.

(** A run with no missing field whose context is loaded, whose action
    returns and whose commit succeeds. *)
Lemma run_flow_commits (fn : string) (user : Z) (q : string) (p : Params) (s : Session)
  (ctx : Context) (s1 : Session) (r : Result) (s2 : Session) :
  missing_required fn p = [] ->
  Py.str_in fn TRANSACTIONAL_ACTIONS = true ->
  load_context_ctx fn (validated_params fn p) user s = (Ok ctx, s1) ->
  dispatch_action fn user (validated_params fn p) ctx s1 = (Ok r, s2) ->
  fault_plan s2 (io_count s2) = None ->
  exists st,
    run_flow fn user q p s = (Ok st, with_committed (working s2) (tick_io s2)) /\
    error st = None /\
    action_result st = r /\
    response st = build_transactional_response fn r /\
    state_trace st =
      ["VALIDATE_INPUT"; "LOAD_CONTEXT"; "APPLY_ACTION"; "PERSIST"; "BUILD_RESPONSE"].
Proof.
  intros Hm Htx L D Hcommit.
  pose proof (validate_input_spec fn user q p) as V. cbv zeta in V.
  destruct V as (Vt & _ & _ & Vf & Vu & _).
  pose proof (validate_input_params fn user q p) as Vp.
  set (st0 := validate_input (initial_state fn user q p)) in *.
  assert (L0 : load_context st0 s = (Ok (with_context st0 ctx), s1)).
  { apply load_context_ok. rewrite Vf, Vp, Vu. exact L. }
  rewrite (run_flow_valid fn user q p s Hm). fold st0. unfold after_validation.
  unfold bind at 1. rewrite L0. unfold bind at 1.
  unfold apply_action, try_except, bind at 1.
  cbn [function_name user_id params context with_context]. rewrite Vf, Vp, Vu, D.
  unfold ret at 1. cbn [error with_result Py.truthy_str negb].
  unfold bind at 1.
  unfold persist_state, try_except, bind, commit, bind, io. rewrite Hcommit.
  unfold ret, build_response, bind, ret.
  cbn [error with_result with_trace with_context Py.truthy_str function_name].
  rewrite Vf, Htx. eexists. split; [reflexivity | ].
  cbn [error response state_trace with_response with_trace with_result with_context
       action_result].
  rewrite Vt. repeat split; reflexivity.
Qed.

(** *** Orders of other users *)

Lemma no_order_of_user (user i : Z) (l : list Order) :
  (forall o, In o l -> order_id o = i -> order_user_id o <> user) ->
  filter (fun o => (order_id o =? i) && (order_user_id o =? user)) l = [].
Proof.
  intros H. induction l as [ | o l IH]; [reflexivity | ]. cbn [filter].
  destruct (Z.eqb_spec (order_id o) i) as [Ei | Ei]; cbn [andb].
  - destruct (Z.eqb_spec (order_user_id o) user) as [Eu | Eu].
    + exfalso. exact (H o (or_introl eq_refl) Ei Eu).
    + apply IH. intros o' Hin. apply H. right. exact Hin.
  - apply IH. intros o' Hin. apply H. right. exact Hin.
Qed.

(** The reply of each order action when no order is found. *)
Definition order_not_found_reply (fn : string) : string :=
  if fn =s "cancel_order" then "Orden no encontrada"
  else "No se encontró una orden pendiente de pago. Primero haz checkout de tu carrito.".

(** The payment prompt, the payment and the cancellation read the order by
    its id and the id of the user who asks. Given the id of an order that
    belongs to somebody else (or to nobody), and a storage that does not
    fail, each of them answers that no order was found, draws no number,
    and leaves the open transaction as it was: no order changes status and
    no payment is recorded. *)
Theorem foreign_order_is_not_found (fn : string) (user : Z) (q : string) (p : Params)
  (i : Z) (s : Session) :
  fn = "process_payment" \/ fn = "confirm_payment" \/ fn = "cancel_order" ->
  p_order_id p = Some i ->
  i <> 0 ->
  (forall o, In o (orders (working s)) -> order_id o = i -> order_user_id o <> user) ->
  (forall n, fault_plan s n = None) ->
  exists st s',
    run_flow fn user q p s = (Ok st, s') /\
    response st = order_not_found_reply fn /\
    success (action_result st) = Some false /\
    working s' = working s /\
    committed s' = working s /\
    rand_count s' = rand_count s.
Proof.
  intros Hfn Hp Hi Hforeign Hplan.
  assert (Ht : Py.truthy_int (p_order_id p) = true).
  { rewrite Hp. cbn. destruct (Z.eqb_spec i 0); [contradiction | reflexivity]. }
  pose proof (no_order_of_user user i (orders (working s)) Hforeign) as Hnone.
  assert (Hv : validated_params fn p = p).
  { destruct Hfn as [-> | [-> | ->]]; reflexivity. }
  assert (Hm : missing_required fn p = []).
  { destruct Hfn as [-> | [-> | ->]]; unfold missing_required; cbn; rewrite ?Ht; reflexivity. }
  assert (Htx : Py.str_in fn TRANSACTIONAL_ACTIONS = true).
  { destruct Hfn as [-> | [-> | ->]]; reflexivity. }
  assert (L : load_context_ctx fn p user s =
              (Ok {| ctx_book := None; ctx_cart_id := None; ctx_cart_items := None;
                     ctx_order := None |}, tick_io s)).
  { assert (E : load_context_ctx fn p user s =
                bind (bind (execute_select orders
                              (fun o => (order_id o =? Py.get_default (p_order_id p) 0) &&
                                        (order_user_id o =? user)))
                           (fun rows => scalar_one_or_none rows))
                     (fun order => ret {| ctx_book := None; ctx_cart_id := None;
                                          ctx_cart_items := None;
                                          ctx_order := option_map order_ctx order |}) s).
    { destruct Hfn as [-> | [-> | ->]]; unfold load_context_ctx;
        cbn [String.eqb Ascii.eqb Bool.eqb orb]; rewrite Ht; reflexivity. }
    rewrite E. unfold execute_select, bind, io. rewrite (Hplan (io_count s)).
    rewrite Hp. cbn [Py.get_default working tick_io]. rewrite Hnone. reflexivity. }
  rewrite <- Hv in L.
  assert (D : exists r,
             dispatch_action fn user (validated_params fn p)
               {| ctx_book := None; ctx_cart_id := None; ctx_cart_items := None;
                  ctx_order := None |} (tick_io s) = (Ok r, tick_io s) /\
             build_transactional_response fn r = order_not_found_reply fn /\
             success r = Some false).
  { destruct Hfn as [-> | [-> | ->]]; eexists; (split; [reflexivity | split; reflexivity]). }
  destruct D as (r & D & Hreply & Hsucc).
  destruct (run_flow_commits fn user q p s _ _ r _ Hm Htx L D (Hplan _))
    as (st & Hrun & _ & Hres & Hresp & _).
  exists st. eexists. split; [exact Hrun | ].
  rewrite Hresp, Hres, Hreply. repeat split. exact Hsucc.
Qed.


(** *** What the chat can write *)

(** The rules of [steps] for a relation whose frame is [F]. *)
Ltac steps_with F :=
  repeat match goal with
    | |- steps _ (ret _) => apply (steps_ret _ F)
    | |- steps _ (raise _) => apply (steps_raise _ F)
    | |- steps _ io => apply (steps_io _ F)
    | |- steps _ flush => apply (steps_io _ F)
    | |- steps _ (execute_select _ _) => apply (steps_execute_select _ F)
    | |- steps _ (scalar_one_or_none _) => apply (steps_scalar_one_or_none _ F)
    | |- steps _ (scalar_one _) => apply (steps_scalar_one _ F)
    | |- steps _ (params_book_id _) => apply (steps_params_book_id _ F)
    | |- steps _ (select_function _) => apply (steps_select_function _ F)
    | |- steps _ (_resolve_book_smart _) => apply (steps_resolve_book_smart _ F)
    | |- steps _ (_extract_params _ _) => apply (steps_extract_params _ F)
    | |- steps _ (load_context _) => apply (steps_load_context _ F)
    | |- steps _ (build_response _) => apply (steps_build_response _ F)
    | |- steps _ (_build_response_safe _ _ _) => apply (steps_build_response_safe _ F)
    | |- steps _ (bind _ _) => apply (steps_bind _ F); [ | intros ? ]
    | |- steps _ (try_except _ _) => apply (steps_try_except _ F); [ | intros ? ]
    | |- steps _ (if ?b then _ else _) => destruct b
    | |- steps _ (match ?x with _ => _ end) => destruct x
    end.

(** A write to the open transaction that leaves a table as it is. *)
Lemma keeps_write {T A : Type} (table : DB -> T) (m : M A) :
  (forall s, table (working (snd (m s))) = table (working s) /\
             committed (snd (m s)) = committed s) ->
  steps (keeps table) m.
Proof.
  intros H s Heq. destruct (H s) as [Hw Hc]. rewrite Hw, Hc. split; reflexivity.
Qed.

Lemma keeps_commit {T : Type} (table : DB -> T) : steps (keeps table) commit.
Proof.
  unfold commit. steps_with (keeps_frame table).
  intros s. apply (tx_commit _ (keeps_transactional table)).
Qed.

Lemma keeps_rollback {T : Type} (table : DB -> T) : steps (keeps table) rollback.
Proof.
  unfold rollback. steps_with (keeps_frame table).
  intros s. apply (tx_rollback _ (keeps_transactional table)).
Qed.

(** The audit record leaves every other table as it is. *)
Lemma keeps_log_execution {T : Type} (table : DB -> T) (user : Z) (session_id : option Z)
  (query fn_name : string) (similarity : Q) (method : string) (trace : option (list string))
  (result : string) (candidates : option (list (string * Q))) :
  (forall l d, table (with_execution_logs l d) = table d) ->
  steps (keeps table)
    (_log_execution user session_id query fn_name similarity method trace result candidates).
Proof.
  intros U. unfold _log_execution. steps_with (keeps_frame table).
  - apply keeps_write. intros s. cbn. rewrite U. split; reflexivity.
  - apply keeps_commit.
  - apply keeps_rollback.
Qed.

(** The actions that the orchestrator dispatches to the flow engine leave
    the payments as they are: only [confirm_payment] records one. *)
Lemma keeps_payments_dispatch (fn : string) (user : Z) (p : Params) (ctx : Context) :
  fn <> "confirm_payment" -> steps (keeps payments) (dispatch_action fn user p ctx).
Proof.
  intros Hfn. unfold dispatch_action.
  destruct (fn =s "add_book_to_cart").
  { unfold _action_add_to_cart. steps_with (keeps_frame payments).
    all: apply keeps_write; intros s; cbn; split; reflexivity. }
  destruct (fn =s "remove_book_from_cart").
  { unfold _action_remove_from_cart, delete_cart_item. steps_with (keeps_frame payments).
    apply keeps_write. intros s. cbn. split; reflexivity. }
  destruct (fn =s "checkout_order").
  { unfold _action_checkout. steps_with (keeps_frame payments).
    all: try (apply keeps_write; intros s; cbn; split; reflexivity).
    match goal with |- steps _ (add_order_items ?o ?l) => induction l as [ | item rest IH] end;
      cbn [add_order_items]; steps_with (keeps_frame payments).
    - apply keeps_write. intros s. cbn. split; reflexivity.
    - exact IH. }
  destruct (fn =s "process_payment"); [apply (steps_ret _ (keeps_frame payments)) | ].
  destruct (String.eqb_spec fn "confirm_payment") as [E | _]; [contradiction | ].
  destruct (fn =s "cancel_order").
  { unfold _action_cancel_order. steps_with (keeps_frame payments).
    apply keeps_write. intros s. cbn. split; reflexivity. }
  destruct (fn =s "get_order_status"); apply (steps_ret _ (keeps_frame payments)).
Qed.

Lemma keeps_payments_run_flow (fn : string) (user : Z) (q : string) (p : Params) :
  fn <> "confirm_payment" -> steps (keeps payments) (run_flow fn user q p).
Proof.
  intros Hfn.
  assert (Hrest : forall st1, function_name st1 = fn ->
            steps (keeps payments)
              (st2 <- apply_action st1 ;;
               st3 <- (if negb (Py.truthy_str (error st2)) then persist_state st2 else ret st2) ;;
               build_response st3)).
  { intros st1 F1. steps_with (keeps_frame payments).
    - unfold apply_action. steps_with (keeps_frame payments).
      apply keeps_payments_dispatch. rewrite F1. exact Hfn.
    - apply (steps_persist_state _ (keeps_frame payments)). apply keeps_transactional. }
  pose proof (validate_input_spec fn user q p) as V. cbv zeta in V.
  destruct V as (_ & _ & _ & Vf & _).
  intros s. unfold run_flow.
  destruct (needs_input (validate_input (initial_state fn user q p)));
    [apply (frame_refl _ (keeps_frame payments)) | ].
  unfold bind at 1.
  pose proof (steps_load_context _ (keeps_frame payments)
                (validate_input (initial_state fn user q p)) s) as L1.
  destruct (load_context (validate_input (initial_state fn user q p)) s)
    as [[st1 | m1] s1] eqn:L; cbn [snd] in L1; [ | exact L1].
  apply load_context_shape in L. destruct L as (ctx & _ & Hst1).
  apply (frame_trans _ (keeps_frame payments) _ s1); [exact L1 | ].
  apply Hrest. subst st1. exact Vf.
Qed.

(** One query, and a conversation: as the chat endpoint does, each query is
    handled in a session of its own, opened on the committed database. *)
Definition serve_query (user : Z) (session_id : option Z) (query : string) (s : Session)
  : Session :=
  snd (handle_query query user session_id (open_session s)).

Fixpoint run_queries (user : Z) (session_id : option Z) (queries : list string) (s : Session)
  : Session :=
  match queries with
  | [] => s
  | query :: rest => run_queries user session_id rest (serve_query user session_id query s)
  end.

Lemma not_confirm_payment (fn : string) :
  Py.str_in fn LANGGRAPH_FUNCTIONS = true -> fn <> "confirm_payment".
Proof. intros H ->. discriminate H. Qed.

(** No query records a payment. The orchestrator sends five actions to the
    flow engine, none of which is [confirm_payment], the only action that
    writes a payment row; so, when the direct executors do not write
    payments either, a query leaves the payments of the open transaction and
    of the committed database as they are, and so does every conversation. *)
Theorem chat_never_records_payment (user : Z) (session_id : option Z) :
  (forall fn q u, steps (keeps payments) (_execute_direct fn q u)) ->
  (forall query, steps (keeps payments) (handle_query query user session_id)) /\
  (forall queries s,
     payments (committed (run_queries user session_id queries s)) = payments (committed s)).
Proof.
  intros Hdirect.
  assert (Hlog : forall a b c d e f g h i,
            steps (keeps payments) (_log_execution a b c d e f g h i)).
  { intros. apply keeps_log_execution. reflexivity. }
  assert (Hrun : forall query m extracted,
            Py.str_in (sm_function_name m) LANGGRAPH_FUNCTIONS = true ->
            steps (keeps payments) (run_and_log query user session_id m extracted)).
  { intros query m extracted Hin. unfold run_and_log. steps_with (keeps_frame payments).
    - apply keeps_payments_run_flow. apply not_confirm_payment. exact Hin.
    - apply Hlog. }
  assert (H1 : forall query, steps (keeps payments) (handle_query query user session_id)).
  { intros query. unfold handle_query.
    destruct (_check_help_query query).
    { steps_with (keeps_frame payments). apply Hlog. }
    apply (steps_bind _ (keeps_frame payments)); [steps_with (keeps_frame payments) | ].
    intros m.
    destruct (sm_method m =s "clarification");
      [steps_with (keeps_frame payments); apply Hlog | ].
    destruct (Py.str_in (sm_function_name m) LANGGRAPH_FUNCTIONS) eqn:Hin.
    { apply (steps_bind _ (keeps_frame payments)); [steps_with (keeps_frame payments) | ].
      intros extracted.
      match goal with |- steps _ (if ?b then _ else _) => destruct b end;
        [ | apply Hrun; exact Hin].
      apply (steps_bind _ (keeps_frame payments)); [steps_with (keeps_frame payments) | ].
      intros [b | books | ].
      - apply Hrun. exact Hin.
      - steps_with (keeps_frame payments). apply Hlog.
      - steps_with (keeps_frame payments). apply Hlog. }
    destruct (Py.str_in (sm_function_name m) DIRECT_FUNCTIONS);
      [ | apply (steps_ret _ (keeps_frame payments))].
    steps_with (keeps_frame payments); [apply Hdirect | apply Hlog]. }
  split; [exact H1 | ].
  intros queries. induction queries as [ | query rest IH]; intros s; cbn [run_queries];
    [reflexivity | ].
  rewrite IH. unfold serve_query.
  destruct (H1 query (open_session s)) as [_ H]; [reflexivity | exact H].
Qed.


(** *** The cart actions *)

Lemma next_id_above (ids : list Z) (i : Z) : In i ids -> i < next_id ids.
Proof.
  unfold next_id. induction ids as [ | x l IH]; [contradiction | ].
  cbn [fold_right]. intros [-> | H]; [lia | ]. specialize (IH H). lia.
Qed.

Lemma next_id_positive (ids : list Z) : 0 < next_id ids.
Proof.
  unfold next_id. induction ids as [ | x l IH]; cbn [fold_right]; lia.
Qed.

Lemma filter_nil {T : Type} (f : T -> bool) (l : list T) :
  (forall x, In x l -> f x = false) -> filter f l = [].
Proof.
  intros H. induction l as [ | x l IH]; [reflexivity | ]. cbn [filter].
  rewrite (H x (or_introl eq_refl)). apply IH. intros y Hy. apply H. right. exact Hy.
Qed.

Lemma filter_all {T : Type} (f : T -> bool) (l : list T) :
  (forall x, In x l -> f x = true) -> filter f l = l.
Proof.
  intros H. induction l as [ | x l IH]; [reflexivity | ]. cbn [filter].
  rewrite (H x (or_introl eq_refl)). f_equal. apply IH. intros y Hy. apply H. right. exact Hy.
Qed.

(** The context of a cart action, once its two reads have succeeded. *)
Lemma load_context_cart (fn : string) (p : Params) (user : Z) (b : Z) (s : Session)
  (book : option Book) (cart : option Cart) :
  fn = "add_book_to_cart" \/ fn = "remove_book_from_cart" ->
  p_book_id p = Some b -> b <> 0 ->
  fault_plan s (io_count s) = None ->
  fault_plan s (S (io_count s)) = None ->
  filter (fun x => book_id x =? b) (books (working s)) =
    match book with Some x => [x] | None => [] end ->
  filter (fun c => (cart_user_id c =? user) && (cart_status c =s "active")) (carts (working s)) =
    match cart with Some c => [c] | None => [] end ->
  load_context_ctx fn p user s =
    (Ok {| ctx_book := option_map book_ctx book; ctx_cart_id := option_map cart_id cart;
           ctx_cart_items := None; ctx_order := None |}, tick_io (tick_io s)).
Proof.
  intros Hfn Hp Hb F0 F1 Hbook Hcart.
  assert (Ht : Py.truthy_int (p_book_id p) = true).
  { rewrite Hp. cbn. destruct (Z.eqb_spec b 0); [contradiction | reflexivity]. }
  assert (E : load_context_ctx fn p user s =
    bind (bind (execute_select books (fun x => book_id x =? Py.get_default (p_book_id p) 0))
               (fun rows => scalar_one_or_none rows))
      (fun book =>
         bind (execute_select carts
                 (fun c => (cart_user_id c =? user) && (cart_status c =s "active")))
           (fun rows =>
              bind (scalar_one_or_none rows)
                (fun cart => ret {| ctx_book := option_map book_ctx book;
                                    ctx_cart_id := option_map cart_id cart;
                                    ctx_cart_items := None; ctx_order := None |}))) s).
  { destruct Hfn as [-> | ->]; unfold load_context_ctx;
      cbn [String.eqb Ascii.eqb Bool.eqb orb]; rewrite Ht; reflexivity. }
  rewrite E. unfold execute_select, bind, io. rewrite F0. rewrite Hp.
  cbn [Py.get_default working tick_io fault_plan io_count]. rewrite Hbook.
  destruct book as [bk | ]; cbn [scalar_one_or_none]; unfold ret;
    cbn [working tick_io fault_plan io_count]; rewrite F1;
    cbn [working tick_io]; rewrite Hcart;
    destruct cart as [ct | ]; reflexivity.
Qed.

(** The result of a successful add_book_to_cart. *)
Definition added_result (title : string) (quantity cart : Z) : Result :=
  {| success := Some true; message := None; r_book := Some title;
     r_quantity := Some quantity; r_cart_id := Some cart; r_order_id := None;
     r_total := None; r_items_count := None; needs_confirmation := None;
     r_amount := None; r_payment_status := None; r_order := None |}.

(** The book is in the cart already: the quantity asked for is added to
    the quantity of its row. *)
Lemma add_to_cart_existing_row (user : Z) (p : Params) (ctx : Context) (book : BookCtx)
  (c b : Z) (existing : CartItem) (s : Session) :
  ctx_book ctx = Some book ->
  Py.get_default (p_quantity p) 1 <= bctx_stock book ->
  ctx_cart_id ctx = Some c -> c <> 0 ->
  p_book_id p = Some b ->
  fault_plan s (io_count s) = None ->
  filter (fun it => (item_cart_id it =? c) && (item_book_id it =? b)) (cart_items (working s))
    = [existing] ->
  _action_add_to_cart user p ctx s =
    (Ok (added_result (bctx_title book) (Py.get_default (p_quantity p) 1) c),
     with_working
       (set_item_quantity (item_id existing)
          (item_quantity existing + Py.get_default (p_quantity p) 1) (working s))
       (tick_io s)).
Proof.
  intros Hbook Hstock Hc Hc0 Hp F0 Hrow.
  unfold _action_add_to_cart. rewrite Hbook.
  destruct (Z.ltb_spec (bctx_stock book) (Py.get_default (p_quantity p) 1)) as [Hlt | _];
    [lia | ].
  rewrite Hc. cbn [Py.truthy_int Py.get_default].
  destruct (Z.eqb_spec c 0) as [E | _]; [contradiction | ]. cbn [negb].
  unfold bind at 1. unfold ret at 1. unfold bind at 1. unfold params_book_id. rewrite Hp.
  unfold ret at 1. unfold bind at 1. unfold execute_select, bind at 1, io. rewrite F0.
  cbn [working tick_io]. rewrite Hrow. unfold bind at 1. cbn [scalar_one_or_none].
  unfold ret at 1. unfold bind, modify_working, ret. reflexivity.
Qed.

(** The book is not in the cart yet: a row is inserted. *)
Lemma add_to_cart_new_row (user : Z) (p : Params) (ctx : Context) (book : BookCtx)
  (c b : Z) (s : Session) :
  ctx_book ctx = Some book ->
  Py.get_default (p_quantity p) 1 <= bctx_stock book ->
  ctx_cart_id ctx = Some c -> c <> 0 ->
  p_book_id p = Some b ->
  fault_plan s (io_count s) = None ->
  filter (fun it => (item_cart_id it =? c) && (item_book_id it =? b)) (cart_items (working s))
    = [] ->
  _action_add_to_cart user p ctx s =
    (Ok (added_result (bctx_title book) (Py.get_default (p_quantity p) 1) c),
     with_working
       (with_cart_items
          (cart_items (working s) ++
           [{| item_id := next_id (map item_id (cart_items (working s)));
               item_cart_id := c; item_book_id := b;
               item_quantity := Py.get_default (p_quantity p) 1 |}])%list
          (working s))
       (tick_io s)).
Proof.
  intros Hbook Hstock Hc Hc0 Hp F0 Hrow.
  unfold _action_add_to_cart. rewrite Hbook.
  destruct (Z.ltb_spec (bctx_stock book) (Py.get_default (p_quantity p) 1)) as [Hlt | _];
    [lia | ].
  rewrite Hc. cbn [Py.truthy_int Py.get_default].
  destruct (Z.eqb_spec c 0) as [E | _]; [contradiction | ]. cbn [negb].
  unfold bind at 1. unfold ret at 1. unfold bind at 1. unfold params_book_id. rewrite Hp.
  unfold ret at 1. unfold bind at 1. unfold execute_select, bind at 1, io. rewrite F0.
  cbn [working tick_io]. rewrite Hrow. unfold bind at 1. cbn [scalar_one_or_none].
  unfold ret at 1. unfold bind, add_cart_item, modify_working, ret. reflexivity.
Qed.

(** The result of a successful remove_book_from_cart. *)
Definition removed_result : Result :=
  {| success := Some true; message := Some "Libro eliminado del carrito";
     r_book := None; r_quantity := None; r_cart_id := None; r_order_id := None;
     r_total := None; r_items_count := None; needs_confirmation := None;
     r_amount := None; r_payment_status := None; r_order := None |}.

Lemma remove_from_cart_row (p : Params) (ctx : Context) (c b : Z) (item : CartItem)
  (s : Session) :
  ctx_cart_id ctx = Some c -> c <> 0 ->
  p_book_id p = Some b ->
  fault_plan s (io_count s) = None ->
  fault_plan s (S (io_count s)) = None ->
  filter (fun it => (item_cart_id it =? c) && (item_book_id it =? b)) (cart_items (working s))
    = [item] ->
  _action_remove_from_cart p ctx s =
    (Ok removed_result,
     with_working
       (with_cart_items
          (filter (fun it => negb (item_id it =? item_id item)) (cart_items (working s)))
          (working s))
       (tick_io (tick_io s))).
Proof.
  intros Hc Hc0 Hp F0 F1 Hrow.
  unfold _action_remove_from_cart. rewrite Hc. cbn [Py.truthy_int Py.get_default].
  destruct (Z.eqb_spec c 0) as [E | _]; [contradiction | ]. cbn [negb].
  unfold bind at 1. unfold params_book_id. rewrite Hp.
  unfold ret at 1. unfold bind at 1. unfold execute_select, bind at 1, io. rewrite F0.
  cbn [working tick_io]. rewrite Hrow. unfold bind at 1. cbn [scalar_one_or_none].
  unfold ret at 1. unfold bind, delete_cart_item, bind, io.
  cbn [fault_plan io_count tick_io]. rewrite F1. reflexivity.
Qed.


(** *** Requests on a cart *)

(** A customer with one active cart, a book of the catalogue, and a storage
    that does not fail. *)
Record CartScene (user : Z) (cart : Cart) (book : Book) (s : Session) : Prop := {
  scene_plan : forall n, fault_plan s n = None;
  scene_book : filter (fun x => book_id x =? book_id book) (books (committed s)) = [book];
  scene_book_id : book_id book <> 0;
  scene_cart :
    filter (fun c => (cart_user_id c =? user) && (cart_status c =s "active"))
      (carts (committed s)) = [cart];
  scene_cart_id : cart_id cart <> 0 }.

Definition cart_request (fn : string) (user : Z) (book : Book) (quantity : option Z) : Request :=
  {| req_function := fn; req_user := user; req_query := "";
     req_params := {| p_book_id := Some (book_id book); p_quantity := quantity;
                      p_order_id := None |} |}.

Definition in_cart (cart : Cart) (book : Book) (it : CartItem) : bool :=
  (item_cart_id it =? cart_id cart) && (item_book_id it =? book_id book).

(** The session after a request that reached PERSIST and committed [d]. *)
Lemma scene_after (user : Z) (cart : Cart) (book : Book) (s s' : Session) (d : DB) :
  CartScene user cart book s ->
  (forall n, fault_plan s' n = fault_plan s n) ->
  committed s' = d ->
  books d = books (committed s) -> carts d = carts (committed s) ->
  CartScene user cart book s'.
Proof.
  intros [P B B0 C C0] Hplan Hd Hb Hc. constructor; try assumption.
  - intros n. rewrite Hplan. apply P.
  - rewrite Hd, Hb. exact B.
  - rewrite Hd, Hc. exact C.
Qed.

Lemma serve_add_new (user : Z) (cart : Cart) (book : Book) (q : Z) (s : Session) :
  CartScene user cart book s ->
  q <> 0 -> q <= book_stock book ->
  filter (in_cart cart book) (cart_items (committed s)) = [] ->
  let s' := serve (cart_request "add_book_to_cart" user book (Some q)) s in
  committed s' =
    with_cart_items
      (cart_items (committed s) ++
       [{| item_id := next_id (map item_id (cart_items (committed s)));
           item_cart_id := cart_id cart; item_book_id := book_id book;
           item_quantity := q |}])%list (committed s) /\
  (forall n, fault_plan s' n = fault_plan s n).
Proof.
  intros [P B B0 C C0] Hq Hstock Hrow. cbv zeta. unfold serve, cart_request.
  cbn [req_function req_user req_query req_params].
  set (p := {| p_book_id := Some (book_id book); p_quantity := Some q; p_order_id := None |}).
  assert (Hv : validated_params "add_book_to_cart" p = p).
  { unfold validated_params, p. cbn. destruct (Z.eqb_spec q 0); [contradiction | reflexivity]. }
  pose proof (load_context_cart "add_book_to_cart" p user (book_id book) (open_session s)
                (Some book) (Some cart) (or_introl eq_refl) eq_refl B0 (P _) (P _) B C) as L.
  cbn [option_map] in L.
  pose proof (add_to_cart_new_row user p
                {| ctx_book := Some (book_ctx book); ctx_cart_id := Some (cart_id cart);
                   ctx_cart_items := None; ctx_order := None |}
                (book_ctx book) (cart_id cart) (book_id book)
                (tick_io (tick_io (open_session s))) eq_refl Hstock eq_refl C0 eq_refl
                (P _) Hrow) as D.
  rewrite <- Hv in L at 1.
  assert (D' : dispatch_action "add_book_to_cart" user
                 (validated_params "add_book_to_cart" p)
                 {| ctx_book := Some (book_ctx book); ctx_cart_id := Some (cart_id cart);
                    ctx_cart_items := None; ctx_order := None |}
                 (tick_io (tick_io (open_session s))) = _) by (rewrite Hv; exact D).
  assert (Hm : missing_required "add_book_to_cart" p = []).
  { unfold missing_required, p. cbn.
    destruct (Z.eqb_spec (book_id book) 0); [contradiction | reflexivity]. }
  destruct (run_flow_commits "add_book_to_cart" user "" p (open_session s) _ _ _ _
              Hm eq_refl L D' (P _)) as (st & Hrun & _).
  rewrite Hrun. cbn [snd]. split; [reflexivity | intros n; reflexivity].
Qed.

Lemma serve_add_existing (user : Z) (cart : Cart) (book : Book) (q : Z) (existing : CartItem)
  (s : Session) :
  CartScene user cart book s ->
  q <> 0 -> q <= book_stock book ->
  filter (in_cart cart book) (cart_items (committed s)) = [existing] ->
  let s' := serve (cart_request "add_book_to_cart" user book (Some q)) s in
  committed s' =
    set_item_quantity (item_id existing) (item_quantity existing + q) (committed s) /\
  (forall n, fault_plan s' n = fault_plan s n).
Proof.
  intros [P B B0 C C0] Hq Hstock Hrow. cbv zeta. unfold serve, cart_request.
  cbn [req_function req_user req_query req_params].
  set (p := {| p_book_id := Some (book_id book); p_quantity := Some q; p_order_id := None |}).
  assert (Hv : validated_params "add_book_to_cart" p = p).
  { unfold validated_params, p. cbn. destruct (Z.eqb_spec q 0); [contradiction | reflexivity]. }
  pose proof (load_context_cart "add_book_to_cart" p user (book_id book) (open_session s)
                (Some book) (Some cart) (or_introl eq_refl) eq_refl B0 (P _) (P _) B C) as L.
  cbn [option_map] in L.
  pose proof (add_to_cart_existing_row user p
                {| ctx_book := Some (book_ctx book); ctx_cart_id := Some (cart_id cart);
                   ctx_cart_items := None; ctx_order := None |}
                (book_ctx book) (cart_id cart) (book_id book)
                existing (tick_io (tick_io (open_session s))) eq_refl Hstock eq_refl C0 eq_refl
                (P _) Hrow) as D.
  rewrite <- Hv in L at 1.
  assert (D' : dispatch_action "add_book_to_cart" user
                 (validated_params "add_book_to_cart" p)
                 {| ctx_book := Some (book_ctx book); ctx_cart_id := Some (cart_id cart);
                    ctx_cart_items := None; ctx_order := None |}
                 (tick_io (tick_io (open_session s))) = _) by (rewrite Hv; exact D).
  assert (Hm : missing_required "add_book_to_cart" p = []).
  { unfold missing_required, p. cbn.
    destruct (Z.eqb_spec (book_id book) 0); [contradiction | reflexivity]. }
  destruct (run_flow_commits "add_book_to_cart" user "" p (open_session s) _ _ _ _
              Hm eq_refl L D' (P _)) as (st & Hrun & _).
  rewrite Hrun. cbn [snd]. split; [reflexivity | intros n; reflexivity].
Qed.

Lemma serve_remove (user : Z) (cart : Cart) (book : Book) (item : CartItem) (s : Session) :
  CartScene user cart book s ->
  filter (in_cart cart book) (cart_items (committed s)) = [item] ->
  let s' := serve (cart_request "remove_book_from_cart" user book None) s in
  committed s' =
    with_cart_items
      (filter (fun it => negb (item_id it =? item_id item)) (cart_items (committed s)))
      (committed s) /\
  (forall n, fault_plan s' n = fault_plan s n).
Proof.
  intros [P B B0 C C0] Hrow. cbv zeta. unfold serve, cart_request.
  cbn [req_function req_user req_query req_params].
  set (p := {| p_book_id := Some (book_id book); p_quantity := None; p_order_id := None |}).
  pose proof (load_context_cart "remove_book_from_cart" p user (book_id book) (open_session s)
                (Some book) (Some cart) (or_intror eq_refl) eq_refl B0 (P _) (P _) B C) as L.
  cbn [option_map] in L.
  pose proof (remove_from_cart_row p
                {| ctx_book := Some (book_ctx book); ctx_cart_id := Some (cart_id cart);
                   ctx_cart_items := None; ctx_order := None |}
                (cart_id cart) (book_id book) item
                (tick_io (tick_io (open_session s))) eq_refl C0 eq_refl (P _) (P _) Hrow) as D.
  assert (Hm : missing_required "remove_book_from_cart" p = []).
  { unfold missing_required, p. cbn.
    destruct (Z.eqb_spec (book_id book) 0); [contradiction | reflexivity]. }
  destruct (run_flow_commits "remove_book_from_cart" user "" p (open_session s) _ _ _ _
              Hm eq_refl L D (P _)) as (st & Hrun & _).
  rewrite Hrun. cbn [snd]. split; [reflexivity | intros n; reflexivity].
Qed.


Lemma with_cart_items_same (d : DB) : with_cart_items (cart_items d) d = d.
Proof. destruct d. reflexivity. Qed.

Lemma keep_older_rows (items : list CartItem) :
  filter (fun it => negb (item_id it =? next_id (map item_id items))) items = items.
Proof.
  apply filter_all. intros it Hin.
  pose proof (next_id_above (map item_id items) (item_id it) (in_map item_id _ _ Hin)).
  destruct (Z.eqb_spec (item_id it) (next_id (map item_id items))); [lia | reflexivity].
Qed.

Lemma update_newest_row (items : list CartItem) (f : CartItem -> CartItem) :
  map (fun it => if item_id it =? next_id (map item_id items) then f it else it) items = items.
Proof.
  transitivity (map (fun it : CartItem => it) items); [ | apply map_id].
  apply map_ext_in. intros it Hin.
  pose proof (next_id_above (map item_id items) (item_id it) (in_map item_id _ _ Hin)).
  destruct (Z.eqb_spec (item_id it) (next_id (map item_id items))); [lia | reflexivity].
Qed.

Definition new_row (items : list CartItem) (cart : Cart) (book : Book) (q : Z) : CartItem :=
  {| item_id := next_id (map item_id items); item_cart_id := cart_id cart;
     item_book_id := book_id book; item_quantity := q |}.

Lemma in_cart_after_add (cart : Cart) (book : Book) (q : Z) (items : list CartItem) :
  filter (in_cart cart book) items = [] ->
  filter (in_cart cart book) (items ++ [new_row items cart book q]) =
    [new_row items cart book q].
Proof.
  intros H. rewrite filter_app, H. cbn [filter app]. unfold in_cart at 1.
  cbn [new_row item_cart_id item_book_id]. rewrite !Z.eqb_refl. reflexivity.
Qed.

(** Adding a book that is not in the cart and removing it again, in two
    requests, leaves the committed database exactly as it was. *)
Theorem add_then_remove_restores_cart (user : Z) (cart : Cart) (book : Book) (q : Z)
  (s : Session) :
  CartScene user cart book s ->
  q <> 0 -> q <= book_stock book ->
  filter (in_cart cart book) (cart_items (committed s)) = [] ->
  committed (run_requests [cart_request "add_book_to_cart" user book (Some q);
                           cart_request "remove_book_from_cart" user book None] s)
    = committed s.
Proof.
  intros Hscene Hq Hstock Hrow. cbn [run_requests].
  destruct (serve_add_new user cart book q s Hscene Hq Hstock Hrow) as [Hc1 Hp1].
  set (s1 := serve (cart_request "add_book_to_cart" user book (Some q)) s) in *.
  fold (new_row (cart_items (committed s)) cart book q) in Hc1.
  assert (Hscene1 : CartScene user cart book s1).
  { apply (scene_after user cart book s s1 _ Hscene Hp1 Hc1); reflexivity. }
  assert (Hrow1 : filter (in_cart cart book) (cart_items (committed s1)) =
                  [new_row (cart_items (committed s)) cart book q]).
  { rewrite Hc1. cbn [cart_items with_cart_items]. apply in_cart_after_add. exact Hrow. }
  destruct (serve_remove user cart book _ s1 Hscene1 Hrow1) as [Hc2 _].
  rewrite Hc2, Hc1. cbn [cart_items with_cart_items new_row item_id].
  rewrite filter_app, keep_older_rows. cbn [filter]. rewrite Z.eqb_refl. cbn [negb].
  rewrite app_nil_r.
  transitivity (with_cart_items (cart_items (committed s)) (committed s));
    [reflexivity | apply with_cart_items_same].
Qed.

(** Adding the same book in two requests gives one row whose quantity is
    the sum of the two quantities. The stock check of each request looks at
    the quantity it asks for, not at what the cart holds: the sum may exceed
    the stock. *)
Theorem add_twice_merges (user : Z) (cart : Cart) (book : Book) (q1 q2 : Z) (s : Session) :
  CartScene user cart book s ->
  q1 <> 0 -> q1 <= book_stock book ->
  q2 <> 0 -> q2 <= book_stock book ->
  filter (in_cart cart book) (cart_items (committed s)) = [] ->
  let after := run_requests [cart_request "add_book_to_cart" user book (Some q1);
                             cart_request "add_book_to_cart" user book (Some q2)] s in
  cart_items (committed after) =
    (cart_items (committed s) ++ [new_row (cart_items (committed s)) cart book (q1 + q2)])%list /\
  books (committed after) = books (committed s) /\
  carts (committed after) = carts (committed s).
Proof.
  intros Hscene Hq1 Hs1 Hq2 Hs2 Hrow. cbv zeta. cbn [run_requests].
  destruct (serve_add_new user cart book q1 s Hscene Hq1 Hs1 Hrow) as [Hc1 Hp1].
  set (s1 := serve (cart_request "add_book_to_cart" user book (Some q1)) s) in *.
  fold (new_row (cart_items (committed s)) cart book q1) in Hc1.
  assert (Hscene1 : CartScene user cart book s1).
  { apply (scene_after user cart book s s1 _ Hscene Hp1 Hc1); reflexivity. }
  assert (Hrow1 : filter (in_cart cart book) (cart_items (committed s1)) =
                  [new_row (cart_items (committed s)) cart book q1]).
  { rewrite Hc1. cbn [cart_items with_cart_items]. apply in_cart_after_add. exact Hrow. }
  destruct (serve_add_existing user cart book q2 _ s1 Hscene1 Hq2 Hs2 Hrow1) as [Hc2 _].
  rewrite Hc2, Hc1. unfold set_item_quantity.
  cbn [cart_items books carts with_cart_items new_row item_id item_quantity].
  repeat split.
  rewrite map_app, update_newest_row. cbn [map item_id]. rewrite Z.eqb_refl. reflexivity.
Qed.


(** *** Checkout *)

(** The session after [n] storage calls that neither failed nor wrote. *)
Fixpoint after_calls (n : nat) (s : Session) : Session :=
  match n with
  | O => s
  | S n' => after_calls n' (tick_io s)
  end.

Lemma after_calls_fields (n : nat) (s : Session) :
  working (after_calls n s) = working s /\ committed (after_calls n s) = committed s /\
  fault_plan (after_calls n s) = fault_plan s /\ now (after_calls n s) = now s /\
  rng (after_calls n s) = rng s /\ rand_count (after_calls n s) = rand_count s /\
  io_count (after_calls n s) = (n + io_count s)%nat.
Proof.
  revert s. induction n as [ | n IH]; intros s; [repeat split | ].
  cbn [after_calls]. destruct (IH (tick_io s)) as (A & B & C & D & E & F & G).
  rewrite A, B, C, D, E, F, G. cbn [working committed fault_plan now rng rand_count io_count tick_io].
  repeat split. lia.
Qed.

Lemma bind_run {A B : Type} (m : M A) (k : A -> M B) (s : Session) (a : A) (s' : Session) :
  m s = (Ok a, s') -> bind m k s = k a s'.
Proof. intros H. unfold bind. rewrite H. reflexivity. Qed.

Lemma execute_select_run {T : Type} (table : DB -> list T) (where_ : T -> bool) (s : Session) :
  fault_plan s (io_count s) = None ->
  execute_select table where_ s = (Ok (filter where_ (table (working s))), tick_io s).
Proof. intros H. unfold execute_select, bind, io. rewrite H. reflexivity. Qed.

(** A line of the cart as LOAD_CONTEXT reads it: the title and the price
    are those of the book, or Unknown and 0 when the book is gone. *)
Definition cart_line (d : DB) (item : CartItem) : CartItemCtx :=
  let book := match filter (fun b => book_id b =? item_book_id item) (books d) with
              | [b] => Some b
              | _ => None
              end in
  {| ci_book_id := item_book_id item;
     ci_quantity := item_quantity item;
     ci_title := match book with Some b => book_title b | None => "Unknown" end;
     ci_price := match book with Some b => book_price b | None => 0%Q end |}.

Definition unique_book (d : DB) (item : CartItem) : Prop :=
  (List.length (filter (fun b => (book_id b =? item_book_id item)%Z) (books d)) <= 1)%nat.

Lemma load_cart_items_ok (items : list CartItem) (s : Session) :
  (forall n, fault_plan s n = None) ->
  Forall (unique_book (working s)) items ->
  load_cart_items items s =
    (Ok (map (cart_line (working s)) items), after_calls (List.length items) s).
Proof.
  revert s. induction items as [ | item rest IH]; intros s P U; [reflexivity | ].
  inversion U as [ | x l U1 U2]; subst.
  cbn [load_cart_items]. unfold bind at 1. unfold execute_select, bind at 1, io.
  rewrite (P (io_count s)). cbn [working tick_io].
  unfold bind at 1. unfold unique_book in U1.
  assert (IH' : load_cart_items rest (tick_io s) =
                (Ok (map (cart_line (working s)) rest), after_calls (List.length rest) (tick_io s))).
  { apply (IH (tick_io s)); [intros n; apply P | exact U2]. }
  unfold cart_line at 1. cbn [map].
  destruct (filter (fun b => book_id b =? item_book_id item) (books (working s)))
    as [ | b [ | b' more]] eqn:Hf; cbn [scalar_one_or_none List.length] in *; try lia;
    unfold ret at 1; unfold bind at 1; rewrite IH'; unfold ret;
    reflexivity.
Qed.

(** The context of a checkout, once the reads have succeeded. *)
Lemma load_context_checkout (p : Params) (user : Z) (cart : Cart) (s : Session) :
  (forall n, fault_plan s n = None) ->
  filter (fun c => (cart_user_id c =? user) && (cart_status c =s "active")) (carts (working s))
    = [cart] ->
  Forall (unique_book (working s))
    (filter (fun it => item_cart_id it =? cart_id cart) (cart_items (working s))) ->
  load_context_ctx "checkout_order" p user s =
    (Ok {| ctx_book := None; ctx_cart_id := Some (cart_id cart);
           ctx_cart_items :=
             Some (map (cart_line (working s))
                     (filter (fun it => item_cart_id it =? cart_id cart)
                             (cart_items (working s))));
           ctx_order := None |},
     after_calls
       (2 + List.length (filter (fun it => item_cart_id it =? cart_id cart)
                                (cart_items (working s)))) s).
Proof.
  intros P C U. unfold load_context_ctx. cbn [String.eqb Ascii.eqb Bool.eqb orb].
  rewrite (bind_run _ _ s _ _ (execute_select_run carts _ s (P _))). rewrite C.
  rewrite (bind_run _ _ (tick_io s) (Some cart) (tick_io s) eq_refl).
  rewrite (bind_run _ _ (tick_io s) _ _ (execute_select_run cart_items _ (tick_io s) (P _))).
  cbn [working tick_io].
  rewrite (bind_run _ _ _ _ _
             (load_cart_items_ok
                (filter (fun it => item_cart_id it =? cart_id cart) (cart_items (working s)))
                (tick_io (tick_io s)) (fun n => P n) U)).
  reflexivity.
Qed.

Lemma load_context_no_cart (p : Params) (user : Z) (s : Session) :
  fault_plan s (io_count s) = None ->
  filter (fun c => (cart_user_id c =? user) && (cart_status c =s "active")) (carts (working s))
    = [] ->
  load_context_ctx "checkout_order" p user s = (Ok empty_context, tick_io s).
Proof.
  intros P C. unfold load_context_ctx. cbn [String.eqb Ascii.eqb Bool.eqb orb].
  unfold bind at 1. unfold execute_select, bind at 1, io. rewrite P.
  cbn [working tick_io]. rewrite C. reflexivity.
Qed.


(** The order items that [add_order_items] appends, one per line of the
    cart, each with the next id. *)
Fixpoint add_rows (rows : list OrderItem) (order : Z) (lines : list CartItemCtx)
  : list OrderItem :=
  match lines with
  | [] => rows
  | line :: rest =>
      add_rows (rows ++ [{| oi_id := next_id (map oi_id rows); oi_order_id := order;
                            oi_book_id := ci_book_id line; oi_quantity := ci_quantity line;
                            oi_unit_price := ci_price line |}])%list order rest
  end.

Definition set_order_items (rows : list OrderItem) (s : Session) : Session :=
  with_working (with_order_items rows (working s)) s.

Lemma add_order_items_run (order : Z) (line : CartItemCtx) (rest : list CartItemCtx)
  (s : Session) :
  add_order_items order (line :: rest) s =
    (Ok tt, set_order_items (add_rows (order_items (working s)) order (line :: rest)) s).
Proof.
  revert line s. induction rest as [ | l2 rest IH]; intros line s.
  - reflexivity.
  - change (add_order_items order (line :: l2 :: rest) s)
      with (bind (add_order_item order (ci_book_id line) (ci_quantity line) (ci_price line))
              (fun _ => add_order_items order (l2 :: rest)) s).
    unfold bind at 1. unfold add_order_item at 1, modify_working at 1.
    rewrite IH. reflexivity.
Qed.

(** What [add_rows] appends: for each line, in order, a row of the order
    with the book, the quantity and the price of the line. *)
Definition row_line (r : OrderItem) : Z * Z * Z * Q :=
  (oi_order_id r, oi_book_id r, oi_quantity r, oi_unit_price r).

Lemma add_rows_lines (rows : list OrderItem) (order : Z) (lines : list CartItemCtx) :
  exists added,
    add_rows rows order lines = (rows ++ added)%list /\
    map row_line added =
      map (fun l => (order, ci_book_id l, ci_quantity l, ci_price l)) lines.
Proof.
  revert rows. induction lines as [ | l rest IH]; intros rows.
  - exists []. rewrite app_nil_r. split; reflexivity.
  - cbn [add_rows]. destruct (IH (rows ++ [{| oi_id := next_id (map oi_id rows);
                                              oi_order_id := order; oi_book_id := ci_book_id l;
                                              oi_quantity := ci_quantity l;
                                              oi_unit_price := ci_price l |}])%list)
      as (added & E & Hm).
    eexists. rewrite E, <- app_assoc. split; [reflexivity | ].
    cbn [app map row_line oi_order_id oi_book_id oi_quantity oi_unit_price]. rewrite Hm.
    reflexivity.
Qed.

(** [sum(item["price"] * item["quantity"] for item in cart_items)]. *)
Definition cart_total (lines : list CartItemCtx) : Q :=
  fold_left Qplus (map (fun item => (ci_price item * inject_Z (ci_quantity item))%Q) lines) 0%Q.

Definition new_order (d : DB) (user : Z) (total : Q) (created_at : Z) : Order :=
  {| order_id := next_id (map order_id (orders d)); order_user_id := user;
     order_status := "created"; order_total := total; order_created_at := created_at |}.

Definition checkout_result (order : Z) (lines : list CartItemCtx) : Result :=
  {| success := Some true; message := None; r_book := None; r_quantity := None;
     r_cart_id := None; r_order_id := Some order; r_total := Some (cart_total lines);
     r_items_count := Some (Z.of_nat (List.length lines));
     needs_confirmation := None; r_amount := None; r_payment_status := None;
     r_order := None |}.

(** The database after a checkout of the cart [c] with these lines. *)
Definition checked_out (d : DB) (user c : Z) (lines : list CartItemCtx) (created_at : Z) : DB :=
  set_cart_status c "checked_out"
    (with_order_items
       (add_rows (order_items d) (next_id (map order_id (orders d))) lines)
       (with_orders (orders d ++ [new_order d user (cart_total lines) created_at])%list d)).

Lemma checkout_run (user : Z) (ctx : Context) (c : Z) (line : CartItemCtx)
  (rest : list CartItemCtx) (found : Cart) (s : Session) :
  ctx_cart_id ctx = Some c -> c <> 0 ->
  ctx_cart_items ctx = Some (line :: rest) ->
  fault_plan s (io_count s) = None ->
  fault_plan s (S (io_count s)) = None ->
  filter (fun x => cart_id x =? c) (carts (working s)) = [found] ->
  _action_checkout user ctx s =
    (Ok (checkout_result (next_id (map order_id (orders (working s)))) (line :: rest)),
     with_working (checked_out (working s) user c (line :: rest) (now s))
       (tick_io (tick_io s))).
Proof.
  intros Hc Hc0 Hl F0 F1 Hcart.
  assert (Hid : cart_id found = c).
  { assert (Hin : In found (filter (fun x => cart_id x =? c) (carts (working s))))
      by (rewrite Hcart; left; reflexivity).
    apply filter_In in Hin. apply Z.eqb_eq. exact (proj2 Hin). }
  unfold _action_checkout. rewrite Hc, Hl. cbn [Py.get_default Py.truthy_int].
  destruct (Z.eqb_spec c 0) as [E | _]; [contradiction | ]. cbn [negb orb]. cbv zeta.
  fold (cart_total (line :: rest)).
  set (oid := next_id (map order_id (orders (working s)))).
  set (sA := with_working
               (with_orders (orders (working s) ++
                             [new_order (working s) user (cart_total (line :: rest)) (now s)])%list
                            (working s)) s).
  rewrite (bind_run (add_order user "created" (cart_total (line :: rest))) _ s oid sA eq_refl).
  assert (FA : io sA = (Ok tt, tick_io sA)).
  { unfold io. change (fault_plan sA (io_count sA)) with (fault_plan s (io_count s)).
    rewrite F0. reflexivity. }
  unfold flush. rewrite (bind_run _ _ sA tt (tick_io sA) FA).
  rewrite (bind_run _ _ _ _ _ (add_order_items_run oid line rest (tick_io sA))).
  set (sB := set_order_items
               (add_rows (order_items (working (tick_io sA))) oid (line :: rest)) (tick_io sA)).
  assert (FB : execute_select carts (fun x => cart_id x =? c) sB = (Ok [found], tick_io sB)).
  { rewrite execute_select_run by exact F1.
    change (carts (working sB)) with (carts (working s)). rewrite Hcart. reflexivity. }
  rewrite (bind_run _ _ _ _ _ FB).
  rewrite (bind_run (scalar_one [found]) _ (tick_io sB) found (tick_io sB) eq_refl).
  rewrite Hid. reflexivity.
Qed.

Lemma checkout_empty (user : Z) (ctx : Context) (s : Session) :
  Py.truthy_int (ctx_cart_id ctx) = false \/
  Py.get_default (ctx_cart_items ctx) [] = [] ->
  _action_checkout user ctx s = (Ok (failure "Tu carrito está vacío"), s).
Proof.
  intros H. unfold _action_checkout.
  destruct H as [H | H]; rewrite H; cbn [negb orb]; [reflexivity | ].
  rewrite orb_true_r. reflexivity.
Qed.


(** The rows of a cart. *)
Definition cart_rows (cart : Cart) (d : DB) : list CartItem :=
  filter (fun it => item_cart_id it =? cart_id cart) (cart_items d).

Definition is_active_cart_of (user : Z) (c : Cart) : bool :=
  (cart_user_id c =? user) && (cart_status c =s "active").

(** A customer whose one active cart is not empty, a catalogue in which no
    two books share an id, and a storage that does not fail. *)
Record CheckoutScene (user : Z) (cart : Cart) (s : Session) : Prop := {
  co_plan : forall n, fault_plan s n = None;
  co_active : filter (is_active_cart_of user) (carts (committed s)) = [cart];
  co_cart_id : cart_id cart <> 0;
  co_cart_unique : filter (fun x => cart_id x =? cart_id cart) (carts (committed s)) = [cart];
  co_books : Forall (unique_book (committed s)) (cart_rows cart (committed s));
  co_rows : cart_rows cart (committed s) <> [] }.

Definition checkout_request (user : Z) : Request :=
  {| req_function := "checkout_order"; req_user := user; req_query := "hacer checkout";
     req_params := {| p_book_id := None; p_quantity := None; p_order_id := None |} |}.

Lemma serve_checkout (user : Z) (cart : Cart) (s : Session) :
  CheckoutScene user cart s ->
  let lines := map (cart_line (committed s)) (cart_rows cart (committed s)) in
  let s' := serve (checkout_request user) s in
  committed s' = checked_out (committed s) user (cart_id cart) lines (now s) /\
  (forall n, fault_plan s' n = None).
Proof.
  intros [P A C0 CU B R]. cbv zeta. unfold serve, checkout_request.
  cbn [req_function req_user req_query req_params].
  set (p := {| p_book_id := None; p_quantity := None; p_order_id := None |}).
  set (rows := cart_rows cart (committed s)) in *.
  pose proof (load_context_checkout p user cart (open_session s) (fun n => P n) A B) as L.
  cbn [working open_session with_working] in L. fold (cart_rows cart (committed s)) in L.
  fold rows in L.
  set (sL := after_calls (2 + List.length rows) (open_session s)) in *.
  destruct (after_calls_fields (2 + List.length rows) (open_session s))
    as (Hw & Hc & Hf & Hn & _).
  fold sL in Hw, Hc, Hf, Hn. cbn [working committed fault_plan now open_session with_working] in *.
  destruct (map (cart_line (committed s)) rows) as [ | line rest] eqn:Hlines.
  { destruct rows; [contradiction | discriminate]. }
  assert (PL : forall n, fault_plan sL n = None) by (intros n; rewrite Hf; apply P).
  assert (CL : filter (fun x => cart_id x =? cart_id cart) (carts (working sL)) = [cart])
    by (rewrite Hw; exact CU).
  pose proof (checkout_run user
                {| ctx_book := None; ctx_cart_id := Some (cart_id cart);
                   ctx_cart_items := Some (line :: rest); ctx_order := None |}
                (cart_id cart) line rest cart sL eq_refl C0 eq_refl (PL _) (PL _) CL) as D.
  destruct (run_flow_commits "checkout_order" user "hacer checkout" p (open_session s) _ _ _ _
              eq_refl eq_refl L D (PL _)) as (st & Hrun & _).
  rewrite Hrun. cbn [snd committed with_committed working with_working tick_io fault_plan].
  rewrite Hw, Hn. split; [reflexivity | exact PL].
Qed.

Lemma no_active_cart_after (user : Z) (cart : Cart) (l : list Cart) :
  filter (is_active_cart_of user) l = [cart] ->
  filter (is_active_cart_of user)
    (map (fun c => if cart_id c =? cart_id cart
                   then {| cart_id := cart_id c; cart_user_id := cart_user_id c;
                           cart_status := "checked_out" |}
                   else c) l) = [].
Proof.
  intros H. apply filter_nil. intros x Hx. apply in_map_iff in Hx.
  destruct Hx as (c & <- & Hin).
  destruct (Z.eqb_spec (cart_id c) (cart_id cart)) as [E | E].
  - unfold is_active_cart_of. cbn [cart_status cart_user_id]. apply andb_false_r.
  - destruct (is_active_cart_of user c) eqn:Ha; [ | reflexivity].
    assert (Hc : In c [cart]) by (rewrite <- H; apply filter_In; split; assumption).
    destruct Hc as [<- | []]. contradiction.
Qed.

(** A checkout creates one order in state created for the customer, whose
    total is the sum of price times quantity over the rows of the cart at
    the prices of the catalogue, and one order item per row, with its book,
    its quantity and that price; the cart becomes checked_out, its rows
    stay, and neither the books nor the payments change. A second checkout
    right after it finds no active cart: it answers that the cart is empty
    and changes nothing. *)
Theorem checkout_once (user : Z) (cart : Cart) (s : Session) :
  CheckoutScene user cart s ->
  let lines := map (cart_line (committed s)) (cart_rows cart (committed s)) in
  let s1 := serve (checkout_request user) s in
  orders (committed s1) =
    (orders (committed s) ++ [new_order (committed s) user (cart_total lines) (now s)])%list /\
  (exists added,
     order_items (committed s1) = (order_items (committed s) ++ added)%list /\
     map row_line added =
       map (fun l => (next_id (map order_id (orders (committed s))),
                      ci_book_id l, ci_quantity l, ci_price l)) lines) /\
  carts (committed s1) = carts (set_cart_status (cart_id cart) "checked_out" (committed s)) /\
  cart_items (committed s1) = cart_items (committed s) /\
  books (committed s1) = books (committed s) /\
  payments (committed s1) = payments (committed s) /\
  exists st s2,
    run_flow "checkout_order" user "hacer checkout" (req_params (checkout_request user))
      (open_session s1) = (Ok st, s2) /\
    response st = "Tu carrito está vacío" /\
    committed s2 = committed s1.
Proof.
  intros Hscene. cbv zeta.
  destruct (serve_checkout user cart s Hscene) as [Hc Hp].
  destruct Hscene as [P A C0 CU B R].
  set (s1 := serve (checkout_request user) s) in *.
  set (lines := map (cart_line (committed s)) (cart_rows cart (committed s))) in *.
  rewrite Hc. unfold checked_out, set_cart_status.
  cbn [orders order_items carts cart_items books payments with_carts with_order_items
       with_orders].
  split; [reflexivity | ]. split; [apply add_rows_lines | ].
  repeat (split; [reflexivity | ]).
  assert (Hnone : filter (is_active_cart_of user) (carts (working (open_session s1))) = []).
  { cbn [working open_session with_working]. rewrite Hc. unfold checked_out, set_cart_status.
    cbn [carts with_carts with_order_items with_orders].
    apply no_active_cart_after. exact A. }
  pose proof (load_context_no_cart (req_params (checkout_request user)) user
                (open_session s1) (Hp _) Hnone) as L.
  pose proof (checkout_empty user empty_context (tick_io (open_session s1))
                (or_introl eq_refl)) as D.
  destruct (run_flow_commits "checkout_order" user "hacer checkout"
              (req_params (checkout_request user)) (open_session s1) _ _ _ _
              eq_refl eq_refl L D (Hp _)) as (st & Hrun & _ & _ & Hresp & _).
  exists st. eexists. split; [exact Hrun | ]. split; [exact Hresp | ].
  cbn [committed with_committed working tick_io open_session with_working]. exact Hc.
Qed.


(** ** Further properties of the intent resolver *)

(** *** The rule tier *)

Lemma first_rule_in (q : string) (rules : list (string * list string)) (fn : string) :
  first_rule q rules = Some fn -> In fn (map fst rules).
Proof.
  induction rules as [ | [name patterns] rest IH]; [discriminate | ]. cbn [first_rule map fst].
  destruct (existsb (fun pattern => re_search pattern q) patterns).
  - intros H. inversion H. left. reflexivity.
  - intros H. right. apply IH. exact H.
Qed.

Lemma first_rule_first (q : string) (before : list (string * list string)) (fn : string)
  (patterns : list string) (rest : list (string * list string)) :
  (forall r pattern, In r before -> In pattern (snd r) -> re_search pattern q = false) ->
  (exists pattern, In pattern patterns /\ re_search pattern q = true) ->
  first_rule q (before ++ (fn, patterns) :: rest) = Some fn.
Proof.
  intros Hbefore Hhit. induction before as [ | [name pats] before IH]; cbn [app first_rule].
  - replace (existsb (fun pattern => re_search pattern q) patterns) with true; [reflexivity | ].
    symmetry. apply existsb_exists. exact Hhit.
  - replace (existsb (fun pattern => re_search pattern q) pats) with false.
    + apply IH. intros r pattern Hr. apply Hbefore. right. exact Hr.
    + symmetry. apply not_true_is_false. intros H. apply existsb_exists in H.
      destruct H as (pattern & Hin & Hp).
      rewrite (Hbefore (name, pats) pattern (or_introl eq_refl) Hin) in Hp. discriminate.
Qed.

Lemma first_rule_none (q : string) (rules : list (string * list string)) :
  (forall r pattern, In r rules -> In pattern (snd r) -> re_search pattern q = false) ->
  first_rule q rules = None.
Proof.
  intros H. induction rules as [ | [name pats] rest IH]; [reflexivity | ]. cbn [first_rule].
  replace (existsb (fun pattern => re_search pattern q) pats) with false.
  - apply IH. intros r pattern Hr. apply H. right. exact Hr.
  - symmetry. apply not_true_is_false. intros E. apply existsb_exists in E.
    destruct E as (pattern & Hin & Hp).
    rewrite (H (name, pats) pattern (or_introl eq_refl) Hin) in Hp. discriminate.
Qed.

(** The rule tier. (1) It answers with one of the ten actions of
    [INTENT_RULES], each of which the orchestrator routes, to the flow engine
    or to a direct executor; [confirm_payment] and [view_cart] are never
    its answer. (2) The actions are tried in the order of the list: an
    action is the answer as soon as one of its patterns is found in the
    query (lowered and stripped) and none of the patterns of the actions
    before it is; (3) the answer is None when no pattern is found. (4) On a
    rule match [select_function] returns at once, with similarity 1 and
    method rule: no storage call, no provider call, no embedding. *)
Theorem rule_tier_first_match (query : string) :
  (forall fn, _rule_based_match query = Some fn ->
     In fn (map fst INTENT_RULES) /\
     Py.str_in fn LANGGRAPH_FUNCTIONS || Py.str_in fn DIRECT_FUNCTIONS = true /\
     fn <> "confirm_payment" /\ fn <> "view_cart") /\
  (forall before fn patterns rest,
     INTENT_RULES = (before ++ (fn, patterns) :: rest)%list ->
     (forall r pattern, In r before -> In pattern (snd r) ->
        re_search pattern (Py.strip (Py.lower query)) = false) ->
     (exists pattern, In pattern patterns /\
        re_search pattern (Py.strip (Py.lower query)) = true) ->
     _rule_based_match query = Some fn) /\
  ((forall r pattern, In r INTENT_RULES -> In pattern (snd r) ->
      re_search pattern (Py.strip (Py.lower query)) = false) ->
   _rule_based_match query = None) /\
  (forall fn s, _rule_based_match query = Some fn ->
     select_function query s =
       (Ok {| sm_function_name := fn; sm_similarity := 1; sm_method := "rule";
              sm_top_candidates := [(fn, 1%Q)] |}, s)).
Proof.
  split; [ | split; [ | split]].
  - intros fn H. apply first_rule_in in H. split; [exact H | ].
    cbn in H.
    repeat (destruct H as [<- | H]; [repeat split; discriminate | ]).
    contradiction.
  - intros before fn patterns rest E Hb Hh. unfold _rule_based_match. rewrite E.
    apply first_rule_first; assumption.
  - intros H. apply first_rule_none. exact H.
  - intros fn s H. unfold select_function. rewrite H. reflexivity.
Qed.

(** *** The names that the resolver returns *)

Lemma dict_set_keys (k v : string) (d : list (string * string)) (x : string) :
  In x (map fst (dict_set k v d)) -> x = k \/ In x (map fst d).
Proof.
  induction d as [ | [k' v'] rest IH]; cbn [dict_set map fst].
  - intros [H | []]. left. symmetry. exact H.
  - destruct (k' =s k).
    + cbn [map fst]. intros [H | H]; [left; symmetry; exact H | right; right; exact H].
    + cbn [map fst]. intros [H | H]; [right; left; exact H | ].
      destruct (IH H) as [E | E]; [left; exact E | right; right; exact E].
Qed.

Lemma dict_of_pairs_keys (l : list (string * string)) (x : string) :
  In x (map fst (dict_of_pairs l)) -> In x (map fst l).
Proof.
  unfold dict_of_pairs.
  assert (G : forall d, In x (map fst (fold_left (fun d kv => dict_set (fst kv) (snd kv) d) l d)) ->
                        In x (map fst d) \/ In x (map fst l)).
  { induction l as [ | [k v] rest IH]; intros d; cbn [fold_left map fst].
    - intros H. left. exact H.
    - intros H. destruct (IH _ H) as [H1 | H1].
      + apply dict_set_keys in H1. cbn [fst snd] in H1.
        destruct H1 as [-> | H1]; [right; left; reflexivity | left; exact H1].
      + right. right. exact H1. }
  intros H. destruct (G [] H) as [[] | H1]. exact H1.
Qed.

Lemma str_in_In (x : string) (l : list string) : Py.str_in x l = true -> In x l.
Proof.
  induction l as [ | y l IH]; [discriminate | ]. cbn [Py.str_in].
  destruct (String.eqb_spec x y) as [-> | _]; [left; reflexivity | ].
  cbn [orb]. intros H. right. apply IH. exact H.
Qed.

Lemma ranked_scores_names (query : string) (functions : list SemanticFunction)
  (all_individual : list SemanticFunctionEmbedding) (fn : SemanticFunction) (score : Q)
  (others : list (SemanticFunction * Q)) :
  ranked_scores query functions all_individual = (fn, score) :: others ->
  In fn functions.
Proof.
  intros H. unfold ranked_scores in H.
  assert (Hin : In (fn, score)
                  (Py.sort_desc snd Qlt_bool
                     (map (fun f => (f, function_score (encode query) all_individual f))
                          functions))) by (rewrite H; left; reflexivity).
  apply sort_desc_In in Hin. apply in_map_iff in Hin.
  destruct Hin as (f & E & Hf). inversion E; subst. exact Hf.
Qed.

(** What [select_function] returns, by method: a rule answers with one of
    the actions of [INTENT_RULES] and similarity 1; the embedding tier
    (method semantic) answers with the name of a row of the semantic
    functions table; the generative fallback (method llm_fallback) answers
    with such a name too, never with the empty name nor with NONE; and a
    clarification carries the empty name. No other method is returned. *)
Theorem resolver_returns_known_names (query : string) (s : Session) (m : SemanticMatch)
  (s' : Session) :
  select_function query s = (Ok m, s') ->
  (sm_method m = "rule" /\ In (sm_function_name m) (map fst INTENT_RULES) /\
   sm_similarity m = 1%Q) \/
  (sm_method m = "semantic" /\
   In (sm_function_name m) (map fn_name (semantic_functions (working s)))) \/
  (sm_method m = "llm_fallback" /\
   In (sm_function_name m) (map fn_name (semantic_functions (working s))) /\
   sm_function_name m <> "" /\ sm_function_name m <> "NONE") \/
  (sm_method m = "clarification" /\ sm_function_name m = "").
Proof.
  unfold select_function.
  destruct (_rule_based_match query) as [fn | ] eqn:Hrule.
  { intros H. inversion H; subst. left. cbn. repeat split.
    unfold _rule_based_match in Hrule. exact (first_rule_in _ _ _ Hrule). }
  intros H. apply bind_ok in H. destruct H as (functions & s1 & Hsel & H).
  apply execute_select_ok in Hsel. destruct Hsel as [Hf _].
  assert (Hall : forall f, In f functions -> In f (semantic_functions (working s))).
  { intros f Hin. rewrite Hf in Hin. apply filter_In in Hin. exact (proj1 Hin). }
  destruct functions as [ | f0 fs] eqn:Efs.
  { inversion H; subst. right. right. right. split; reflexivity. }
  rewrite <- Efs in *. clear Hf.
  apply bind_ok in H. destruct H as (all_individual & s2 & _ & H).
  unfold embedding_tier in H.
  destruct (ranked_scores query functions all_individual) as [ | [best_fn best_score] others]
    eqn:Hr; [discriminate | ].
  pose proof (ranked_scores_names _ _ _ _ _ _ Hr) as Hbest.
  assert (Hname : In (fn_name best_fn) (map fn_name (semantic_functions (working s))))
    by (apply in_map; apply Hall; exact Hbest).
  destruct (Qle_bool (high_confidence_threshold settings) best_score).
  { inversion H; subst. right. left. split; [reflexivity | exact Hname]. }
  destruct (Qle_bool (base_threshold all_individual) best_score).
  { destruct (Qle_bool (confidence_gap_threshold settings) _);
      inversion H; subst; right; left; (split; [reflexivity | exact Hname]). }
  destruct (Qle_bool (25 # 100) best_score).
  2: { inversion H; subst. right. right. right. split; reflexivity. }
  unfold try_except, bind in H.
  set (offered := dict_of_pairs (map (fun fn => (fn_name fn, fn_description fn)) functions)) in *.
  unfold classify_intent, try_except, bind in H.
  destruct (_chat_completion [("user", classify_prompt query offered)] 0%Q 50 s2)
    as [[name | msg] s3].
  2: { inversion H; subst. right. right. right. split; reflexivity. }
  destruct (String.eqb_spec name "NONE") as [En | En]; cbn [orb] in H.
  { inversion H; subst. right. right. right. split; reflexivity. }
  destruct (Py.str_in name (map fst offered)) eqn:Hin; cbn [negb] in H.
  2: { inversion H; subst. right. right. right. split; reflexivity. }
  unfold ret in H. cbn [Py.truthy_str] in H.
  destruct name as [ | c rest].
  { inversion H; subst. right. right. right. split; reflexivity. }
  inversion H; subst. right. right. left. cbn [sm_method sm_function_name Py.get_default].
  split; [reflexivity | ]. split; [ | split; [discriminate | exact En]].
  apply str_in_In in Hin. apply dict_of_pairs_keys in Hin.
  rewrite map_map in Hin. cbn [fst] in Hin.
  apply in_map_iff in Hin. destruct Hin as (f & E & Hfin).
  rewrite <- E. apply in_map. apply Hall. exact Hfin.
Qed.


(** *** Storage failures while resolving *)

Lemma filter_true {T : Type} (l : list T) : filter (fun _ => true) l = l.
Proof. apply filter_all. reflexivity. Qed.

(** When no rule matches, the resolver reads the semantic functions and
    then their individual embeddings. It raises exactly when the first read
    raises; an empty table gives a clarification with similarity 0 and no
    candidate; and a failure of the second read is tolerated: the embedding
    tier then runs without individual embeddings, that is with the combined
    vectors and the combined threshold. *)
Theorem resolver_tolerates_embedding_read_failure (query : string) (s : Session) :
  _rule_based_match query = None ->
  (forall msg, fault_plan s (io_count s) = Some msg ->
     select_function query s = (Raise msg, tick_io s)) /\
  (fault_plan s (io_count s) = None -> semantic_functions (working s) = [] ->
     select_function query s =
       (Ok {| sm_function_name := ""; sm_similarity := 0; sm_method := "clarification";
              sm_top_candidates := [] |}, tick_io s)) /\
  (fault_plan s (io_count s) = None -> semantic_functions (working s) <> [] ->
     (forall msg, fault_plan s (S (io_count s)) = Some msg ->
        select_function query s =
          embedding_tier query (semantic_functions (working s)) [] (tick_io (tick_io s)) /\
        base_threshold [] = combined_similarity_threshold settings) /\
     (fault_plan s (S (io_count s)) = None ->
        select_function query s =
          embedding_tier query (semantic_functions (working s))
            (semantic_function_embeddings (working s)) (tick_io (tick_io s)))).
Proof.
  intros Hrule. unfold select_function. rewrite Hrule.
  split; [ | split].
  - intros msg F0. unfold bind, execute_select, bind, io. rewrite F0. reflexivity.
  - intros F0 He. rewrite (bind_run _ _ s _ _ (execute_select_run semantic_functions _ s F0)).
    rewrite filter_true, He. reflexivity.
  - intros F0 Hne.
    rewrite (bind_run _ _ s _ _ (execute_select_run semantic_functions _ s F0)).
    rewrite filter_true.
    destruct (semantic_functions (working s)) as [ | f fs] eqn:Hfs; [contradiction | ].
    split.
    + intros msg F1. split; [ | reflexivity].
      unfold bind, try_except, execute_select, bind, io.
      cbn [fault_plan io_count tick_io]. rewrite F1. reflexivity.
    + intros F1. unfold bind, try_except, execute_select, bind, io.
      cbn [fault_plan io_count tick_io]. rewrite F1. cbn [working tick_io].
      rewrite filter_true. reflexivity.
Qed.

(** ** Further properties of the orchestrator *)

(** *** The parameters extracted from a query *)

Lemma bounded_number_range (captured : option string) (n : Z) :
  bounded_number captured = Some n -> 1 <= n <= 99.
Proof.
  unfold bounded_number. destruct (option_map Py.int_of_digits captured) as [k | ];
    [ | discriminate].
  destruct (Z.leb_spec 1 k) as [H1 | H1]; cbn [andb]; [ | discriminate].
  destruct (Z.leb_spec k 99) as [H2 | H2]; [ | discriminate].
  intros E. inversion E; subst. lia.
Qed.

Lemma or_else_some {A : Type} (a b : option A) (x : A) :
  or_else a b = Some x -> a = Some x \/ b = Some x.
Proof. destruct a; cbn; auto. Qed.

Lemma keep_truthy_some (v : option Z) (n : Z) : keep_truthy v = Some n -> v = Some n /\ n <> 0.
Proof.
  unfold keep_truthy. destruct v as [k | ]; cbn; [ | discriminate].
  destruct (Z.eqb_spec k 0); cbn; [discriminate | ].
  intros H. inversion H; subst. split; [reflexivity | assumption].
Qed.

Lemma resolve_among_found (query : string) (all_books : list Book) (b : Book) :
  resolve_among query all_books = found b -> In b all_books.
Proof.
  unfold resolve_among. destruct all_books as [ | x xs] eqn:Hbooks; [discriminate | ].
  rewrite <- Hbooks. clear Hbooks x xs.
  destruct (filter (exact_hit query) (Py.sort_desc title_len Nat.ltb all_books))
    as [ | first [ | second rest]] eqn:Hf.
  - unfold keyword_tiers.
    destruct (_extract_keywords query) as [ | k ks]; [discriminate | ].
    set (keywords := k :: ks).
    fold (scored_books keywords all_books). cbv zeta.
    destruct (Py.sort_desc snd Nat.ltb (scored_books keywords all_books))
      as [ | [best_book best_count] others] eqn:Hs; [discriminate | ].
    assert (Hin : In best_book all_books).
    { assert (H : In (best_book, best_count)
                    (Py.sort_desc snd Nat.ltb (scored_books keywords all_books)))
        by (rewrite Hs; left; reflexivity).
      apply sort_desc_In in H. apply scored_books_In in H. exact (proj1 H). }
    destruct (best_count =? List.length keywords)%nat.
    { intros H. inversion H; subst. exact Hin. }
    destruct others as [ | [second_book second_count] others'].
    { intros H. inversion H; subst. exact Hin. }
    destruct (second_count <? best_count)%nat; [ | discriminate].
    intros H. inversion H; subst. exact Hin.
  - intros H. inversion H; subst.
    assert (Hin : In b (filter (exact_hit query) (Py.sort_desc title_len Nat.ltb all_books)))
      by (rewrite Hf; left; reflexivity).
    apply filter_In in Hin. destruct Hin as [Hin _]. apply sort_desc_In in Hin. exact Hin.
  - intros H. inversion H; subst.
    destruct (max_by_spec title_len Nat.ltb ltb_irrefl ltb_asym ltb_negtrans
                (second :: rest) first) as [Hin _].
    assert (Hin' : In (Py.max_by title_len Nat.ltb first (second :: rest))
                      (filter (exact_hit query) (Py.sort_desc title_len Nat.ltb all_books)))
      by (rewrite Hf; exact Hin).
    apply filter_In in Hin'. destruct Hin' as [Hin' _]. apply sort_desc_In in Hin'. exact Hin'.
Qed.

(** The parameters that the orchestrator extracts. A quantity is extracted
    for add_book_to_cart only and lies between 1 and 99; an order id is
    extracted for process_payment, cancel_order and get_order_status only
    and is never 0; a book id is extracted for the four actions on a book
    only and is the id of a book of the catalogue; and the extraction reads
    the books at most once and writes nothing. *)
Theorem extracted_params_are_bounded (query fn_name : string) (s : Session) (p : Params)
  (s' : Session) :
  _extract_params query fn_name s = (Ok p, s') ->
  (forall n, p_quantity p = Some n -> fn_name = "add_book_to_cart" /\ 1 <= n <= 99) /\
  (forall i, p_order_id p = Some i ->
     In fn_name ["process_payment"; "cancel_order"; "get_order_status"] /\ i <> 0) /\
  (forall b, p_book_id p = Some b ->
     In fn_name ["add_book_to_cart"; "remove_book_from_cart"; "get_book_product_details";
                 "check_book_stock"] /\
     exists book, In book (books (working s)) /\ book_id book = b) /\
  working s' = working s /\ committed s' = committed s /\
  (io_count s' <= S (io_count s))%nat.
Proof.
  intros H. unfold _extract_params in H.
  apply bind_ok in H. destruct H as (book & s1 & Hbook & H).
  inversion H; subst p s'. clear H. cbn [p_quantity p_order_id p_book_id].
  split; [ | split; [ | split]].
  - intros n Hn. destruct (String.eqb_spec fn_name "add_book_to_cart") as [E | E];
      [ | discriminate].
    split; [exact E | ].
    apply keep_truthy_some in Hn. destruct Hn as [Hn _].
    unfold _extract_number in Hn. cbn [String.eqb Ascii.eqb Bool.eqb] in Hn.
    apply or_else_some in Hn. destruct Hn as [Hn | Hn];
      [exact (bounded_number_range _ _ Hn) | ].
    apply or_else_some in Hn. destruct Hn as [Hn | Hn]; exact (bounded_number_range _ _ Hn).
  - intros i.
    change ((if Py.str_in fn_name ["process_payment"; "cancel_order"; "get_order_status"]
             then keep_truthy (_extract_number query "order_id") else None) = Some i ->
            In fn_name ["process_payment"; "cancel_order"; "get_order_status"] /\ i <> 0).
    destruct (Py.str_in fn_name ["process_payment"; "cancel_order"; "get_order_status"]) eqn:E;
      intros Hi; [ | discriminate].
    split; [exact (str_in_In _ _ E) | ]. apply keep_truthy_some in Hi. exact (proj2 Hi).
  - intros b Hb. subst book.
    destruct (Py.str_in fn_name ["add_book_to_cart"; "remove_book_from_cart";
                                 "get_book_product_details"; "check_book_stock"]) eqn:E.
    2: { inversion Hbook. }
    split; [exact (str_in_In _ _ E) | ].
    apply bind_ok in Hbook. destruct Hbook as (resolution & s2 & Hres & Hret).
    unfold _resolve_book_smart in Hres.
    apply bind_ok in Hres. destruct Hres as (all_books & s3 & Hsel & Hr).
    apply execute_select_ok in Hsel. destruct Hsel as [Hall _].
    inversion Hr; subst resolution s2. clear Hr.
    destruct (resolve_among query all_books) as [bk | | ] eqn:Hfound; inversion Hret; subst.
    exists bk. split; [ | reflexivity].
    apply resolve_among_found in Hfound. rewrite filter_true in Hfound. exact Hfound.
  - destruct (Py.str_in fn_name ["add_book_to_cart"; "remove_book_from_cart";
                                 "get_book_product_details"; "check_book_stock"]).
    + apply bind_ok in Hbook. destruct Hbook as (resolution & s2 & Hres & Hret).
      unfold _resolve_book_smart in Hres.
      apply bind_ok in Hres. destruct Hres as (all_books & s3 & Hsel & Hr).
      apply execute_select_ok in Hsel. destruct Hsel as [_ ->].
      inversion Hr; subst. destruct (resolve_among query _); inversion Hret; subst;
        cbn; repeat split; lia.
    + inversion Hbook; subst. repeat split; lia.
Qed.


(** *** The audit log of an answered query *)

(** A step that leaves the fault plan as it is and keeps the audit log. *)
Definition quiet (a b : Session) : Prop :=
  fault_plan b = fault_plan a /\ keeps execution_logs a b.

Lemma quiet_frame : Frame quiet.
Proof.
  constructor; unfold quiet.
  - intros s. split; [reflexivity | apply (frame_refl _ (keeps_frame execution_logs))].
  - intros a b c [P1 K1] [P2 K2]. split; [congruence | ].
    exact (frame_trans _ (keeps_frame execution_logs) a b c K1 K2).
  - intros s. split; [reflexivity | apply (frame_io _ (keeps_frame execution_logs))].
  - intros s. split; [reflexivity | apply (frame_rand _ (keeps_frame execution_logs))].
  - intros s. split; [reflexivity | apply (frame_llm _ (keeps_frame execution_logs))].
Qed.

Lemma quiet_transactional : Transactional quiet.
Proof.
  constructor; intros s; (split; [reflexivity | ]).
  - apply (tx_commit _ (keeps_transactional execution_logs)).
  - apply (tx_rollback _ (keeps_transactional execution_logs)).
Qed.

Lemma quiet_writes : CartWrites quiet.
Proof.
  pose proof (keeps_writes execution_logs execution_logs_untouched) as W.
  constructor; intros; try (intros s); (split; [reflexivity | ]).
  - apply (cw_add_cart _ W).
  - apply (cw_add_cart_item _ W).
  - apply (cw_set_item_quantity _ W).
  - apply (cw_delete_item _ W).
  - apply (cw_set_cart_status _ W).
  - apply (cw_add_order _ W).
  - apply (cw_add_order_item _ W).
  - apply (cw_add_payment _ W).
Qed.

Lemma quiet_order_status (i : Z) (st : string) :
  steps quiet (modify_working (set_order_status i st)).
Proof.
  intros s. split; [reflexivity | ].
  apply (keeps_order_status execution_logs i st execution_logs_untouched).
Qed.

(** The storage never fails and the audit log is the one of [s0]. *)
Definition log_is (s0 s : Session) : Prop :=
  (forall n, fault_plan s n = None) /\
  execution_logs (working s) = execution_logs (committed s0) /\
  execution_logs (committed s) = execution_logs (committed s0).

Lemma log_is_after {A : Type} (m : M A) (s0 s1 : Session) (a : A) (s2 : Session) :
  steps quiet m -> log_is s0 s1 -> m s1 = (Ok a, s2) -> log_is s0 s2.
Proof.
  intros Hq (P & W & C) E. specialize (Hq s1). rewrite E in Hq. cbn [snd] in Hq.
  destruct Hq as [Hp Hk]. destruct Hk as [Hw Hc]; [congruence | ].
  repeat split; [intros n; rewrite Hp; apply P | congruence | congruence].
Qed.

(** The row that [_log_execution] commits when the storage does not fail. *)
Lemma log_execution_row (user : Z) (session_id : option Z) (query fn_name : string)
  (similarity : Q) (method : string) (trace : option (list string)) (result : string)
  (candidates : option (list (string * Q))) (s0 s1 : Session) (u : unit) (s2 : Session) :
  log_is s0 s1 ->
  _log_execution user session_id query fn_name similarity method trace result candidates s1
    = (Ok u, s2) ->
  exists row,
    execution_logs (committed s2) = (execution_logs (committed s0) ++ [row])%list /\
    working s2 = committed s2 /\
    log_user_id row = user /\ log_session_id row = session_id /\ log_query row = query /\
    log_matched_function row = fn_name /\ log_method row = method /\
    log_result row = result /\ log_state_trace row = trace /\
    log_top_candidates row = candidates /\ log_similarity_score row = similarity.
Proof.
  intros (P & W & C).
  unfold _log_execution, try_except, bind, add_execution_log, modify_working, commit,
    bind, io, ret.
  simpl. rewrite P. simpl. intros H. inversion H; subst s2. simpl. rewrite W.
  eexists. split; [reflexivity | ]. repeat split.
Qed.

(** Every answer but the internal error is audited: when the storage does
    not fail and [handle_query] returns, with another method than error,
    the committed log holds exactly one more row, nothing is left pending,
    and the row says what the caller was told: the user, the chat session,
    the query, the action, the method, the reply, the trace of the flow and
    the candidates. Its score is the one returned too, except under the
    guardrail, whose row always says 0. *)
Theorem audit_row_matches_reply (query : string) (user : Z) (session_id : option Z)
  (s : Session) (r : OrchestratorResult) (s' : Session) :
  (forall fn q u, steps quiet (_execute_direct fn q u)) ->
  (forall n, fault_plan s n = None) ->
  execution_logs (working s) = execution_logs (committed s) ->
  handle_query query user session_id s = (Ok r, s') ->
  or_method r <> "error" ->
  exists row,
    execution_logs (committed s') = (execution_logs (committed s) ++ [row])%list /\
    working s' = committed s' /\
    log_user_id row = user /\ log_session_id row = session_id /\ log_query row = query /\
    log_matched_function row = or_function_name r /\ log_method row = or_method r /\
    log_result row = or_response r /\ log_state_trace row = or_state_trace r /\
    log_top_candidates row = or_top_candidates r /\
    (or_method r <> "guardrail" -> log_similarity_score row = or_similarity r).
Proof.
  intros Hdirect Hplan Hlogs H Hmeth.
  assert (I0 : log_is s s) by (repeat split; [exact Hplan | exact Hlogs]).
  assert (Hend : forall fn sim meth tr res cand r0 s1,
            log_is s s1 ->
            bind (_log_execution user session_id query fn sim meth tr res cand)
                 (fun _ => ret r0) s1 = (Ok r, s') ->
            exists row,
              r0 = r /\
              execution_logs (committed s') = (execution_logs (committed s) ++ [row])%list /\
              working s' = committed s' /\
              log_user_id row = user /\ log_session_id row = session_id /\
              log_query row = query /\
              log_matched_function row = fn /\ log_method row = meth /\
              log_result row = res /\ log_state_trace row = tr /\
              log_top_candidates row = cand /\ log_similarity_score row = sim).
  { intros fn sim meth tr res cand r0 s1 I1 E.
    apply bind_ok in E. destruct E as (u & s2 & El & Er). inversion Er; subst r0 s2.
    destruct (log_execution_row _ _ _ _ _ _ _ _ _ s s1 u s' I1 El) as (row & Hrow).
    exists row. split; [reflexivity | exact Hrow]. }
  assert (Hrun : forall m extracted s1,
            log_is s s1 ->
            run_and_log query user session_id m extracted s1 = (Ok r, s') ->
            exists row,
              execution_logs (committed s') = (execution_logs (committed s) ++ [row])%list /\
              working s' = committed s' /\
              log_user_id row = user /\ log_session_id row = session_id /\
              log_query row = query /\
              log_matched_function row = or_function_name r /\ log_method row = or_method r /\
              log_result row = or_response r /\ log_state_trace row = or_state_trace r /\
              log_top_candidates row = or_top_candidates r /\
              (or_method r <> "guardrail" -> log_similarity_score row = or_similarity r)).
  { intros m extracted s1 I1 E. unfold run_and_log in E.
    apply bind_ok in E. destruct E as (flow_state & s2 & Ef & E).
    assert (I2 : log_is s s2).
    { refine (log_is_after _ s s1 flow_state s2 _ I1 Ef).
      apply (steps_run_flow quiet quiet_frame quiet_writes quiet_order_status).
      exact quiet_transactional. }
    destruct (Hend _ _ _ _ _ _ _ s2 I2 E) as (row & <- & Hrow).
    exists row. cbn. prop. }
  unfold handle_query in H.
  destruct (_check_help_query query) as [help_response | ].
  { destruct (Hend _ _ _ _ _ _ _ s I0 H) as (row & <- & Hrow). exists row. cbn. prop. }
  apply bind_ok in H. destruct H as (m & s1 & Hsel & H).
  assert (I1 : log_is s s1)
    by exact (log_is_after _ s s m s1 (steps_select_function quiet quiet_frame query) I0 Hsel).
  destruct (sm_method m =s "clarification").
  { destruct (negb (_is_domain_relevant query));
      destruct (Hend _ _ _ _ _ _ _ s1 I1 H) as (row & <- & Hrow); exists row; cbn.
    - destruct Hrow as (? & ? & ? & ? & ? & ? & ? & ? & ? & ? & ?).
      repeat split; try assumption. intros C. contradiction C. reflexivity.
    - prop. }
  destruct (Py.str_in (sm_function_name m) LANGGRAPH_FUNCTIONS).
  { apply bind_ok in H. destruct H as (extracted & s2 & Hext & H).
    assert (I2 : log_is s s2)
      by exact (log_is_after _ s s1 extracted s2
                  (steps_extract_params quiet quiet_frame query _) I1 Hext).
    match type of H with (if ?b then _ else _) _ = _ => destruct b end;
      [ | exact (Hrun _ _ s2 I2 H)].
    apply bind_ok in H. destruct H as (resolution & s3 & Hres & H).
    assert (I3 : log_is s s3)
      by exact (log_is_after _ s s2 resolution s3
                  (steps_resolve_book_smart quiet quiet_frame query) I2 Hres).
    destruct resolution as [b | books_data | ].
    - exact (Hrun _ _ s3 I3 H).
    - destruct (Hend _ _ _ _ _ _ _ s3 I3 H) as (row & <- & Hrow). exists row. cbn. prop.
    - destruct (Hend _ _ _ _ _ _ _ s3 I3 H) as (row & <- & Hrow). exists row. cbn. prop. }
  destruct (Py.str_in (sm_function_name m) DIRECT_FUNCTIONS).
  - apply bind_ok in H. destruct H as (result & s2 & Hex & H).
    assert (I2 : log_is s s2) by exact (log_is_after _ s s1 result s2 (Hdirect _ _ _) I1 Hex).
    apply bind_ok in H. destruct H as (text & s3 & Htext & H).
    assert (I3 : log_is s s3)
      by exact (log_is_after _ s s2 text s3
                  (steps_build_response_safe quiet quiet_frame _ _ _) I2 Htext).
    destruct (Hend _ _ _ _ _ _ _ s3 I3 H) as (row & <- & Hrow). exists row. cbn. prop.
  - inversion H; subst r. contradiction Hmeth. reflexivity.
Qed.

End Bookstore.


(** * The read-only executors ([app/flow/orchestrator.py])

    [_execute_direct] and the five functions it dispatches to, with the two
    helpers that prepare their result for the user interface and for the
    generative provider. *)

(** ** The values of a result *)

(** A result is a [dict] built from literals: its values are [None],
    booleans, numbers, strings, lists and dicts.  A dict with string keys
    is the list of its entries in insertion order, one entry per key. *)
#[local] Unset Elimination Schemes.
Inductive Value : Type :=
| VNone
| VBool (b : bool)
| VInt (n : Z)
| VFloat (x : Q)
| VStr (text : string)
| VList (items : list Value)
| VDict (entries : list (string * Value)).
#[local] Set Elimination Schemes.

Definition Dict : Type := list (string * Value).

(** [d[key]], which raises [KeyError] when the key is missing. *)
Fixpoint dict_item (key : string) (d : Dict) : option Value :=
  match d with
  | [] => None
  | (k, v) :: rest => if k =s key then Some v else dict_item key rest
  end.

(** [key in d]. *)
Definition dict_has (key : string) (d : Dict) : bool :=
  match dict_item key d with
  | Some _ => true
  | None => false
  end.

(** [d.get(key, default)]; [d.get(key)] is [d.get(key, None)]. *)
Definition dict_get (key : string) (default : Value) (d : Dict) : Value :=
  Py.get_default (dict_item key d) default.

(** [d.pop(key, None)], for what it leaves in [d]. *)
Definition dict_pop (key : string) (d : Dict) : Dict :=
  filter (fun kv => negb (fst kv =s key)) d.

(** [d[key] = v] for a key that [d] holds. *)
Definition dict_replace (key : string) (v : Value) (d : Dict) : Dict :=
  map (fun kv => if fst kv =s key then (key, v) else kv) d.

(** Truthiness. *)
Definition truthy (v : Value) : bool :=
  match v with
  | VNone => false
  | VBool b => b
  | VInt n => negb (n =? 0)
  | VFloat x => negb (Qeq_bool x 0)
  | VStr text => negb (text =s "")
  | VList items => match items with [] => false | _ => true end
  | VDict entries => match entries with [] => false | _ => true end
  end.

(** A column that may be null. *)
Definition opt_str (v : option string) : Value :=
  match v with
  | Some text => VStr text
  | None => VNone
  end.

(** The items that [for item in v: item.get(...)] and
    [for item in v: item.pop(...)] visit.  Such a loop runs over the items
    of a list and does nothing on an empty string or an empty dict; on any
    other value it raises: numbers, booleans and [None] are not iterable,
    and a string or a dict that is not empty yields strings, which have
    neither [get] nor [pop]. *)
Definition loop_items (v : Value) : option (list Value) :=
  match v with
  | VList items => Some items
  | VStr EmptyString => Some []
  | VDict [] => Some []
  | _ => None
  end.

Section DirectExecution.

#[local] Set Default Proof Using "Type".

(** The regular-expression engine, as in the section above, and the
    database's [ILIKE]: [ilike text pattern]. *)
Variable re_findall : string -> string -> list string.
Variable re_search_group1 : bool -> string -> string -> option string.
Variable ilike : string -> string -> bool.

(** [column.ilike(f"%{kw}%")]; on a null column the condition is not true. *)
Definition ilike_kw (column : option string) (kw : string) : bool :=
  match column with
  | Some text => ilike text ("%" ++ kw ++ "%")
  | None => false
  end.

(** The [where] clause of [_search_books]: any keyword in the title, the
    genre or the author; no clause without keywords. *)
Definition search_condition (keywords : list string) (b : Book) : bool :=
  match keywords with
  | [] => true
  | _ =>
      existsb (fun kw => ilike_kw (Some (book_title b)) kw ||
                         ilike_kw (book_genre b) kw ||
                         ilike_kw (Some (book_author b)) kw) keywords
  end.

Definition search_row (b : Book) : Value :=
  VDict [("id", VInt (book_id b)); ("title", VStr (book_title b));
         ("author", VStr (book_author b)); ("genre", opt_str (book_genre b));
         ("price", VFloat (book_price b)); ("stock", VInt (book_stock b));
         ("image_base64", opt_str (book_image_base64 b))].

(** [stmt.limit(n)] is the first [n] rows of the statement: the statement
    has no [order_by], so which rows these are is the database's choice,
    here the insertion order. *)
Definition _search_books (query : string) : M Dict :=
  let keywords := _extract_keywords re_findall query in
  rows <- execute_select books (search_condition keywords) ;;
  let found_books := firstn 10 rows in
  ret [("books", VList (map search_row found_books));
       ("count", VInt (Z.of_nat (List.length found_books)))].

(** The [where] clause of [_recommend_books]: any keyword in the genre. *)
Definition recommend_condition (keywords : list string) (b : Book) : bool :=
  match keywords with
  | [] => true
  | _ => existsb (fun kw => ilike_kw (book_genre b) kw) keywords
  end.

Definition recommendation_row (b : Book) : Value :=
  VDict [("id", VInt (book_id b)); ("title", VStr (book_title b));
         ("author", VStr (book_author b)); ("genre", opt_str (book_genre b));
         ("price", VFloat (book_price b));
         ("image_base64", opt_str (book_image_base64 b))].

Definition _recommend_books (query : string) : M Dict :=
  let keywords := _extract_keywords re_findall query in
  rows <- execute_select books (recommend_condition keywords) ;;
  ret [("recommendations", VList (map recommendation_row (firstn 5 rows)))].

(** An entry of [resolution["books"]]. *)
Definition card_dict (c : BookCard) : Value :=
  VDict [("id", VInt (card_id c)); ("title", VStr (card_title c));
         ("author", VStr (card_author c)); ("price", VFloat (card_price c));
         ("image_base64", opt_str (card_image_base64 c))].

Definition unidentified : Dict := [("error", VStr "No pude identificar el libro")].

Definition several_found (options : list BookCard) : Dict :=
  [("error", VStr "Encontré varios libros, sé más específico");
   ("options", VList (map card_dict options))].

Definition details_of (b : Book) : Dict :=
  [("id", VInt (book_id b)); ("title", VStr (book_title b));
   ("author", VStr (book_author b)); ("genre", opt_str (book_genre b));
   ("price", VFloat (book_price b)); ("stock", VInt (book_stock b));
   ("description", opt_str (book_description b));
   ("image_base64", opt_str (book_image_base64 b))].

Definition _get_book_details (query : string) : M Dict :=
  resolution <- _resolve_book_smart re_findall query ;;
  match resolution with
  | not_found => ret unidentified
  | ambiguous options => ret (several_found options)
  | found b => ret (details_of b)
  end.

Definition stock_of (b : Book) : Dict :=
  [("id", VInt (book_id b)); ("title", VStr (book_title b));
   ("stock", VInt (book_stock b)); ("available", VBool (0 <? book_stock b));
   ("image_base64", opt_str (book_image_base64 b))].

Definition _check_stock (query : string) : M Dict :=
  resolution <- _resolve_book_smart re_findall query ;;
  match resolution with
  | not_found => ret unidentified
  | ambiguous options => ret (several_found options)
  | found b => ret (stock_of b)
  end.

Definition order_unknown : Dict := [("error", VStr "No se encontró la orden")].

Definition status_of (o : Order) : Dict :=
  [("order_id", VInt (order_id o)); ("status", VStr (order_status o));
   ("total", VFloat (order_total o))].

Definition _get_order_status (user : Z) (query : string) : M Dict :=
  let number := _extract_number re_search_group1 query "order_id" in
  order <- (if Py.truthy_int number
            then rows <- execute_select orders
                           (fun o => (order_id o =? Py.get_default number 0) &&
                                     (order_user_id o =? user)) ;;
                 scalar_one_or_none rows
            else rows <- execute_select orders (fun o => order_user_id o =? user) ;;
                 scalar_one_or_none (firstn 1 (Py.sort_desc order_created_at Z.ltb rows))) ;;
  match order with
  | None => ret order_unknown
  | Some o => ret (status_of o)
  end.

Definition _execute_direct (fn_name query : string) (user : Z) : M Dict :=
  if fn_name =s "search_books_for_sale" then _search_books query
  else if fn_name =s "recommend_books_for_purchase" then _recommend_books query
  else if fn_name =s "get_book_product_details" then _get_book_details query
  else if fn_name =s "check_book_stock" then _check_stock query
  else if fn_name =s "get_order_status" then _get_order_status user query
  else ret [("error", VStr "Función no implementada")].

(** *** The image helpers *)

(** The entry that [_extract_books_from_result] appends for [b]. *)
Definition frontend_card (b : Dict) : option Value :=
  match dict_item "id" b, dict_item "title" b, dict_item "image_base64" b with
  | Some id, Some title, Some image =>
      Some (VDict [("id", id); ("title", title);
                   ("author", dict_get "author" (VStr "") b);
                   ("price", dict_get "price" VNone b);
                   ("image_base64", image)])
  | _, _, _ => None
  end.

(** [for b in items: if b.get("image_base64"): books.append({...})]. *)
Fixpoint cards_with_image (items : list Value) : option (list Value) :=
  match items with
  | [] => Some []
  | VDict b :: rest =>
      if truthy (dict_get "image_base64" VNone b)
      then match frontend_card b, cards_with_image rest with
           | Some card, Some cards => Some (card :: cards)
           | _, _ => None
           end
      else cards_with_image rest
  | _ :: _ => None
  end.

(** [if key in result: for b in result[key]: ...]. *)
Definition cards_under (key : string) (result : Dict) : option (list Value) :=
  match dict_item key result with
  | Some v =>
      match loop_items v with
      | Some items => cards_with_image items
      | None => None
      end
  | None => Some []
  end.

(** [_extract_books_from_result]: [None] when it raises; otherwise the
    entries to display, or Python's [None] when there is none. *)
Definition _extract_books_from_result (result : Dict) : option (option (list Value)) :=
  match cards_under "books" result, cards_under "recommendations" result with
  | Some from_search, Some from_recommendations =>
      let single :=
        if dict_has "id" result && dict_has "title" result &&
           truthy (dict_get "image_base64" VNone result)
        then option_map (fun card => [card]) (frontend_card result)
        else Some [] in
      match single with
      | Some from_single =>
          match (from_search ++ from_recommendations ++ from_single)%list with
          | [] => Some None
          | shown => Some (Some shown)
          end
      | None => None
      end
  | _, _ => None
  end.

(** [for item in items: item.pop("image_base64", None)]. *)
Fixpoint without_images (items : list Value) : option (list Value) :=
  match items with
  | [] => Some []
  | VDict d :: rest =>
      match without_images rest with
      | Some others => Some (VDict (dict_pop "image_base64" d) :: others)
      | None => None
      end
  | _ :: _ => None
  end.

(** [if key in clean: for item in clean[key]: item.pop(...)]. *)
Definition strip_under (key : string) (clean : Dict) : option Dict :=
  match dict_item key clean with
  | Some (VList items) =>
      match without_images items with
      | Some stripped => Some (dict_replace key (VList stripped) clean)
      | None => None
      end
  | Some v =>
      match loop_items v with
      | Some _ => Some clean
      | None => None
      end
  | None => Some clean
  end.

(** [_strip_images_for_llm]: [None] when it raises. *)
Definition _strip_images_for_llm (result : Dict) : option Dict :=
  match strip_under "books" (dict_pop "image_base64" result) with
  | Some clean => strip_under "recommendations" clean
  | None => None
  end.

(** ** Properties of the executors *)

(** *** Dictionaries *)

Lemma dict_item_pop_same (key : string) (d : Dict) : dict_item key (dict_pop key d) = None.
Proof.
  unfold dict_pop. induction d as [ | [k v] rest IH]; cbn; [reflexivity | ].
  destruct (k =s key) eqn:E; cbn; [exact IH | ]. rewrite E. exact IH.
Qed.

Lemma dict_item_pop_other (key other : string) (d : Dict) :
  other <> key -> dict_item other (dict_pop key d) = dict_item other d.
Proof.
  intros Hne. unfold dict_pop. induction d as [ | [k v] rest IH]; cbn; [reflexivity | ].
  destruct (String.eqb_spec k key) as [-> | Hk]; cbn.
  - destruct (String.eqb_spec key other) as [-> | _]; [contradiction Hne; reflexivity | exact IH].
  - rewrite IH. reflexivity.
Qed.

Lemma dict_item_replace_same (key : string) (v : Value) (d : Dict) :
  dict_item key (dict_replace key v d) =
  match dict_item key d with Some _ => Some v | None => None end.
Proof.
  unfold dict_replace. induction d as [ | [k w] rest IH]; cbn; [reflexivity | ].
  destruct (k =s key) eqn:E; cbn.
  - rewrite String.eqb_refl. reflexivity.
  - rewrite E. exact IH.
Qed.

Lemma dict_item_replace_other (key other : string) (v : Value) (d : Dict) :
  other <> key -> dict_item other (dict_replace key v d) = dict_item other d.
Proof.
  intros Hne. unfold dict_replace. induction d as [ | [k w] rest IH]; cbn; [reflexivity | ].
  destruct (String.eqb_spec k key) as [-> | Hk]; cbn.
  - destruct (String.eqb_spec key other) as [-> | _]; [contradiction Hne; reflexivity | exact IH].
  - rewrite IH. reflexivity.
Qed.

Lemma dict_pop_absent (key : string) (d : Dict) :
  dict_item key d = None -> dict_pop key d = d.
Proof.
  unfold dict_pop. induction d as [ | [k v] rest IH]; cbn; [reflexivity | ].
  destruct (k =s key); [discriminate | ]. cbn. intros H. rewrite (IH H). reflexivity.
Qed.

(** Items that went through [pop] have no image to show. *)
Lemma without_images_cards (items stripped : list Value) :
  without_images items = Some stripped -> cards_with_image stripped = Some [].
Proof.
  revert stripped. induction items as [ | item rest IH]; intros stripped; cbn.
  - intros H. inversion H. reflexivity.
  - destruct item as [ | | | | | | d]; try discriminate.
    destruct (without_images rest) as [others | ]; [ | discriminate].
    intros H. inversion H; subst stripped. cbn.
    unfold dict_get. rewrite dict_item_pop_same. cbn. apply IH. reflexivity.
Qed.

Lemma strip_under_cards (key : string) (clean stripped : Dict) :
  strip_under key clean = Some stripped -> cards_under key stripped = Some [].
Proof.
  unfold strip_under, cards_under.
  destruct (dict_item key clean) as [v | ] eqn:E.
  - destruct v as [ | | | | text | items | entries]; cbn; try discriminate.
    + destruct text; [ | discriminate]. intros H. inversion H; subst stripped.
      rewrite E. reflexivity.
    + destruct (without_images items) as [others | ] eqn:W; [ | discriminate].
      intros H. inversion H; subst stripped.
      rewrite dict_item_replace_same, E. cbn. exact (without_images_cards _ _ W).
    + destruct entries; [ | discriminate]. intros H. inversion H; subst stripped.
      rewrite E. reflexivity.
  - intros H. inversion H; subst stripped. rewrite E. reflexivity.
Qed.

Lemma strip_under_other (key other : string) (clean stripped : Dict) :
  other <> key -> strip_under key clean = Some stripped ->
  dict_item other stripped = dict_item other clean.
Proof.
  intros Hne. unfold strip_under.
  destruct (dict_item key clean) as [v | ].
  - destruct v as [ | | | | text | items | entries]; cbn; try discriminate.
    + destruct text; [ | discriminate]. intros H. inversion H. reflexivity.
    + destruct (without_images items) as [others | ]; [ | discriminate].
      intros H. inversion H. apply dict_item_replace_other. exact Hne.
    + destruct entries; [ | discriminate]. intros H. inversion H. reflexivity.
  - intros H. inversion H. reflexivity.
Qed.

Lemma strip_under_absent (key : string) (clean : Dict) :
  dict_item key clean = None -> strip_under key clean = Some clean.
Proof. intros H. unfold strip_under. rewrite H. reflexivity. Qed.

(** The copy of a result that goes to the generative provider shows no
    book: whatever the result holds, when [_strip_images_for_llm] returns,
    [_extract_books_from_result] finds nothing to display in the copy.  The
    helper looks at three keys only: a result without [image_base64],
    [books] and [recommendations] is returned as it is, with whatever
    images its other entries hold (the [options] of an ambiguous title
    keep theirs). *)
Theorem stripped_result_shows_no_book (result : Dict) :
  (forall clean, _strip_images_for_llm result = Some clean ->
                 _extract_books_from_result clean = Some None) /\
  (dict_has "image_base64" result = false -> dict_has "books" result = false ->
   dict_has "recommendations" result = false ->
   _strip_images_for_llm result = Some result) /\
  (forall options, _strip_images_for_llm (several_found options) = Some (several_found options)).
Proof.
  assert (Hnone : forall key d, dict_has key d = false -> dict_item key d = None).
  { intros key d. unfold dict_has. destruct (dict_item key d); [discriminate | reflexivity]. }
  split; [ | split].
  - intros clean. unfold _strip_images_for_llm.
    destruct (strip_under "books" (dict_pop "image_base64" result)) as [c1 | ] eqn:S1;
      [ | discriminate].
    intros S2. unfold _extract_books_from_result.
    assert (Hb : cards_under "books" clean = Some []).
    { pose proof (strip_under_cards _ _ _ S1) as C1. unfold cards_under in *.
      rewrite (strip_under_other "recommendations" "books" c1 clean) by (discriminate || exact S2).
      exact C1. }
    rewrite Hb, (strip_under_cards _ _ _ S2).
    assert (Hi : dict_item "image_base64" clean = None).
    { rewrite (strip_under_other "recommendations" "image_base64" c1 clean)
        by (discriminate || exact S2).
      rewrite (strip_under_other "books" "image_base64" _ c1) by (discriminate || exact S1).
      apply dict_item_pop_same. }
    unfold dict_get. rewrite Hi. cbn. rewrite andb_false_r. reflexivity.
  - intros Hi Hb Hr. unfold _strip_images_for_llm.
    rewrite (dict_pop_absent _ _ (Hnone _ _ Hi)).
    rewrite (strip_under_absent _ _ (Hnone _ _ Hb)).
    apply strip_under_absent. apply Hnone. exact Hr.
  - intros options. reflexivity.
Qed.

(** *** What the executors do to the session *)

(** A step that only reads: both databases and the fault plan are as
    before. *)
Definition reads (a b : Session) : Prop := same_db a b /\ fault_plan b = fault_plan a.

Lemma reads_frame : Frame reads.
Proof.
  constructor; unfold reads.
  - intros s. split; [apply (frame_refl _ same_db_frame) | reflexivity].
  - intros a b c [D1 P1] [D2 P2]. split; [ | congruence].
    exact (frame_trans _ same_db_frame a b c D1 D2).
  - intros s. split; [apply (frame_io _ same_db_frame) | reflexivity].
  - intros s. split; [apply (frame_rand _ same_db_frame) | reflexivity].
  - intros s. split; [apply (frame_llm _ same_db_frame) | reflexivity].
Qed.

Lemma reads_keeps {T : Type} (table : DB -> T) (a b : Session) : reads a b -> keeps table a b.
Proof. intros [[W C] _] _. rewrite W, C. split; reflexivity. Qed.

Lemma reads_quiet (a b : Session) : reads a b -> quiet a b.
Proof. intros R. split; [exact (proj2 R) | exact (reads_keeps execution_logs a b R)]. Qed.

Ltac reads_rules :=
  repeat match goal with
    | |- steps _ (ret _) => apply (steps_ret _ reads_frame)
    | |- steps _ (execute_select _ _) => apply (steps_execute_select _ reads_frame)
    | |- steps _ (scalar_one_or_none _) => apply (steps_scalar_one_or_none _ reads_frame)
    | |- steps _ (_resolve_book_smart _ _) => apply (steps_resolve_book_smart _ _ reads_frame)
    | |- steps _ (bind _ _) => apply (steps_bind _ reads_frame); [ | intros ? ]
    | |- steps _ (if ?b then _ else _) => destruct b
    | |- steps _ (match ?x with _ => _ end) => destruct x
    end.

Lemma execute_direct_reads (fn_name query : string) (user : Z) :
  steps reads (_execute_direct fn_name query user).
Proof.
  unfold _execute_direct, _search_books, _recommend_books, _get_book_details, _check_stock,
    _get_order_status.
  reads_rules.
Qed.

(** The executors only read.  Whatever the name, the query and the state
    of the storage, [_execute_direct] leaves the open transaction, the
    committed database, the fault plan and the counts of random draws and
    provider calls as they are.  Each of the five actions makes exactly one
    storage call, and the failure of that call is raised to the caller;
    any other name makes no call and gets the not-implemented error. *)
Theorem direct_execution_only_reads (fn_name query : string) (user : Z) (s : Session) :
  let run := _execute_direct fn_name query user s in
  working (snd run) = working s /\ committed (snd run) = committed s /\
  fault_plan (snd run) = fault_plan s /\
  rand_count (snd run) = rand_count s /\ llm_calls (snd run) = llm_calls s /\
  (if Py.str_in fn_name DIRECT_FUNCTIONS
   then io_count (snd run) = S (io_count s) /\
        forall msg, fault_plan s (io_count s) = Some msg -> fst run = Raise msg
   else run = (Ok [("error", VStr "Función no implementada")], s)).
Proof.
  assert (Hraise : forall (A : Type) (found : option string) (o : outcome A),
            match found with Some m => o = Raise m | None => True end ->
            forall msg, found = Some msg -> o = Raise msg).
  { intros A found o H msg E. rewrite E in H. exact H. }
  cbv zeta. unfold _execute_direct, DIRECT_FUNCTIONS. cbn [Py.str_in].
  destruct (fn_name =s "search_books_for_sale").
  { unfold _search_books, execute_select, bind, io, ret.
    destruct (fault_plan s (io_count s)); cbn -[firstn]; repeat split;
      apply Hraise; reflexivity || exact I. }
  destruct (fn_name =s "recommend_books_for_purchase").
  { unfold _recommend_books, execute_select, bind, io, ret.
    destruct (fault_plan s (io_count s)); cbn -[firstn]; repeat split;
      apply Hraise; reflexivity || exact I. }
  destruct (fn_name =s "get_book_product_details").
  { unfold _get_book_details, _resolve_book_smart, execute_select, bind, io, ret.
    destruct (fault_plan s (io_count s)); cbn -[resolve_among];
      [repeat split; apply Hraise; reflexivity | ].
    destruct (resolve_among re_findall query _); cbn; repeat split;
      apply Hraise; exact I. }
  destruct (fn_name =s "check_book_stock").
  { unfold _check_stock, _resolve_book_smart, execute_select, bind, io, ret.
    destruct (fault_plan s (io_count s)); cbn -[resolve_among];
      [repeat split; apply Hraise; reflexivity | ].
    destruct (resolve_among re_findall query _); cbn; repeat split;
      apply Hraise; exact I. }
  destruct (fn_name =s "get_order_status").
  { unfold _get_order_status, execute_select, bind, io, ret.
    destruct (Py.truthy_int _); destruct (fault_plan s (io_count s));
      cbn -[firstn Py.sort_desc];
      try (repeat split; apply Hraise; reflexivity).
    - match goal with |- context [scalar_one_or_none ?l] => destruct l as [ | o [ | o' rest]] end;
        cbn; repeat split; apply Hraise; exact I.
    - match goal with |- context [scalar_one_or_none ?l] => destruct l as [ | o [ | o' rest]] end;
        cbn; repeat split; apply Hraise; exact I. }
  cbn. repeat split.
Qed.

(** *** The catalogue queries *)








(** *** The status of an order *)

(** An order of the user in the open transaction. *)
Definition own_order (user : Z) (s : Session) (o : Order) : Prop :=
  In o (orders (working s)) /\ order_user_id o = user.

Lemma filter_empty {T : Type} (cond : T -> bool) (l : list T) (x : T) :
  filter cond l = [] -> In x l -> cond x = false.
Proof.
  intros E Hin. destruct (cond x) eqn:C; [ | reflexivity].
  assert (H : In x (filter cond l)) by (apply filter_In; split; assumption).
  rewrite E in H. destruct H.
Qed.

Lemma firstn_one {T : Type} (l : list T) :
  firstn 1 l = match l with [] => [] | x :: _ => [x] end.
Proof. destruct l; reflexivity. Qed.

(** [_get_order_status] tells a user about their own orders only.  When it
    returns, the answer is the not-found error or the number, status and
    total of an order of this user.  With an order number in the query
    (other than 0) it is that order if it is the user's, and the error
    otherwise, also when the user has other orders; without one it is the
    user's latest order, whatever its status, and the error only when the
    user has no order. *)
Theorem order_status_is_own_order (user : Z) (query : string) (s : Session) (d : Dict)
  (s' : Session) :
  _get_order_status user query s = (Ok d, s') ->
  let number := _extract_number re_search_group1 query "order_id" in
  s' = tick_io s /\
  (d = order_unknown \/ exists o, own_order user s o /\ d = status_of o) /\
  (forall n, number = Some n -> n <> 0 ->
     (d = order_unknown /\ forall o, own_order user s o -> order_id o <> n) \/
     (exists o, own_order user s o /\ order_id o = n /\ d = status_of o)) /\
  (Py.truthy_int number = false ->
     (d = order_unknown /\ forall o, ~ own_order user s o) \/
     (exists o, own_order user s o /\ d = status_of o /\
                forall o', own_order user s o' -> order_created_at o' <= order_created_at o)).
Proof.
  intros H. cbv zeta. unfold _get_order_status in H.
  apply bind_ok in H. destruct H as (order & s1 & Hload & H).
  destruct (Py.truthy_int (_extract_number re_search_group1 query "order_id")) eqn:T.
  - apply bind_ok in Hload. destruct Hload as (rows & s2 & Hsel & Hone).
    apply execute_select_ok in Hsel. destruct Hsel as [Hrows ->].
    apply scalar_one_or_none_ok in Hone. destruct Hone as [-> Hone].
    destruct (_extract_number re_search_group1 query "order_id") as [n | ] eqn:N;
      [ | discriminate T].
    cbn [Py.get_default] in Hrows.
    destruct order as [o | ].
    + inversion H; subst d s'.
      assert (Hin : In o rows) by (rewrite Hone; left; reflexivity).
      rewrite Hrows in Hin. apply filter_In in Hin. destruct Hin as [Hin Hc].
      apply andb_prop in Hc. destruct Hc as [Hid Hu].
      apply Z.eqb_eq in Hid. apply Z.eqb_eq in Hu.
      assert (Hown : own_order user s o) by (split; assumption).
      split; [reflexivity | split; [ | split]].
      * right. exists o. split; [exact Hown | reflexivity].
      * intros n' Hn' _. inversion Hn'; subst n'. right. exists o.
        split; [exact Hown | split; [exact Hid | reflexivity]].
      * discriminate.
    + inversion H; subst d s'.
      split; [reflexivity | split; [ | split]].
      * left. reflexivity.
      * intros n' Hn' _. inversion Hn'; subst n'. left. split; [reflexivity | ].
        intros o [Hin Hu] Hid. rewrite Hone in Hrows. symmetry in Hrows.
        pose proof (filter_empty _ _ o Hrows Hin) as C. cbn beta in C.
        rewrite Hid, Hu, !Z.eqb_refl in C. discriminate C.
      * discriminate.
  - apply bind_ok in Hload. destruct Hload as (rows & s2 & Hsel & Hone).
    apply execute_select_ok in Hsel. destruct Hsel as [Hrows ->].
    apply scalar_one_or_none_ok in Hone. destruct Hone as [-> Hone].
    rewrite firstn_one in Hone.
    assert (Hno : forall n, _extract_number re_search_group1 query "order_id" = Some n ->
                            n <> 0 -> False).
    { intros n Hn Hz. rewrite Hn in T. cbn in T. apply Hz.
      destruct (Z.eqb_spec n 0) as [E | E]; [exact E | discriminate T]. }
    destruct order as [o | ].
    + inversion H; subst d s'.
      destruct (Py.sort_desc order_created_at Z.ltb rows) as [ | top rest] eqn:Hs;
        [discriminate Hone | ].
      inversion Hone; subst top.
      apply (sort_desc_head order_created_at Z.ltb Z.ltb_irrefl) in Hs.
      2: { intros a b Hab. apply Z.ltb_lt in Hab. apply Z.ltb_ge. lia. }
      2: { intros a b c Hab Hbc. apply Z.ltb_ge in Hab. apply Z.ltb_ge in Hbc.
           apply Z.ltb_ge. lia. }
      destruct Hs as [Hin Hmax]. rewrite Hrows in Hin. apply filter_In in Hin.
      destruct Hin as [Hin Hu]. apply Z.eqb_eq in Hu.
      assert (Hown : own_order user s o) by (split; assumption).
      split; [reflexivity | split; [ | split]].
      * right. exists o. split; [exact Hown | reflexivity].
      * intros n Hn Hz. destruct (Hno n Hn Hz).
      * intros _. right. exists o. split; [exact Hown | split; [reflexivity | ]].
        intros o' [Hin' Hu'].
        assert (Hr : In o' rows).
        { rewrite Hrows. apply filter_In. split; [exact Hin' | ]. apply Z.eqb_eq. exact Hu'. }
        specialize (Hmax o' Hr). unfold not_below in Hmax. apply Z.ltb_ge in Hmax. exact Hmax.
    + inversion H; subst d s'.
      assert (Hempty : rows = []).
      { destruct rows as [ | r rest]; [reflexivity | ].
        assert (Hl : List.length (Py.sort_desc order_created_at Z.ltb (r :: rest)) =
                     List.length (r :: rest)) by apply sort_desc_length.
        destruct (Py.sort_desc order_created_at Z.ltb (r :: rest));
          [discriminate Hl | discriminate Hone]. }
      split; [reflexivity | split; [ | split]].
      * left. reflexivity.
      * intros n Hn Hz. destruct (Hno n Hn Hz).
      * intros _. left. split; [reflexivity | ]. intros o [Hin Hu].
        rewrite Hempty in Hrows. symmetry in Hrows.
        pose proof (filter_empty _ _ o Hrows Hin) as C. cbn beta in C.
        rewrite Hu, Z.eqb_refl in C. discriminate C.
Qed.

End DirectExecution.

(** * The code at concrete inputs *)

(** ** An environment

    The generative provider is down.  The regular-expression engine is
    replaced by the answers of Python's [re] on the queries used below
    ("sí, confirmo el pago", "confirmo" and "harry potter"): no greeting,
    help or intent pattern is found in any of them, no text between quotes
    and no capitalised phrase either, and the words of "harry potter" are
    its two words.  Embeddings are unit vectors of the plane, so their
    cosine is their dot product. *)

Definition provider_down : nat -> list (string * string) -> Q -> Z -> outcome string :=
  fun _ _ _ _ => Raise "All connection attempts failed".

Definition json_text (r : Result) : string := "{}".

Definition two_digits (n : Z) : string :=
  if n <? 10 then "0" ++ Py.str_of_int n else Py.str_of_int n.

(** [f"{q:.2f}"] for an amount that is not negative. *)
Definition format_2f (q : Q) : string :=
  let cents := Qfloor (q * 100 + (1 # 2)) in
  Py.str_of_int (cents / 100) ++ "." ++ two_digits (cents mod 100).

Definition no_pattern_found : string -> string -> bool := fun _ _ => false.

Definition no_group_found : bool -> string -> string -> option string := fun _ _ _ => None.

Definition words_found (pattern text : string) : list string :=
  if (pattern =s "\b[a-zA-ZáéíóúñÁÉÍÓÚÑ0-9]{2,}\b") && (text =s "harry potter")
  then ["harry"; "potter"]
  else [].

Fixpoint dot_product (a b : list Q) : Q :=
  match a, b with
  | x :: a', y :: b' => (x * y + dot_product a' b')%Q
  | _, _ => 0%Q
  end.

Definition dot (a b : list Q) : Q := Qred (dot_product a b).

(** Every query of this part is embedded as the first vector of the basis. *)
Definition encode_east (text : string) : list Q := [1%Q; 0%Q].

(** [round(x, 4)]. *)
Definition round_4 (x : Q) : Q := Qmake (Qfloor (x * 10000 + (1 # 2))) 10000.

(** ** A catalogue and its customers *)

Definition dune : Book :=
  {| book_id := 1; book_title := "Dune"; book_author := "Frank Herbert";
     book_genre := Some "Ciencia ficción"; book_price := 1299 # 100; book_stock := 25;
     book_description := None; book_image_base64 := None |}.

Definition sorcerers_stone : Book :=
  {| book_id := 2; book_title := "Harry Potter and the Sorcerer's Stone";
     book_author := "J. K. Rowling"; book_genre := Some "Fantasía";
     book_price := 1500 # 100; book_stock := 3;
     book_description := None; book_image_base64 := None |}.

Definition chamber_of_secrets : Book :=
  {| book_id := 3; book_title := "Harry Potter and the Chamber of Secrets";
     book_author := "J. K. Rowling"; book_genre := Some "Fantasía";
     book_price := 1600 # 100; book_stock := 4;
     book_description := None; book_image_base64 := None |}.

Definition catalog : list Book := [dune; sorcerers_stone; chamber_of_secrets].

(** Two of the seeded actions, with one description vector and one example
    vector each; "sí, confirmo el pago" and "confirmo" are seeded examples of
    [confirm_payment], so that one of its example vectors is the query's. *)
Definition sf_process_payment : SemanticFunction :=
  {| fn_id := 8; fn_name := "process_payment";
     fn_description := "Iniciar el pago de una orden creada";
     fn_embedding := Some [4 # 5; 3 # 5]%Q |}.

Definition sf_confirm_payment : SemanticFunction :=
  {| fn_id := 11; fn_name := "confirm_payment";
     fn_description := "Confirmar y ejecutar el pago de una orden";
     fn_embedding := Some [1; 0]%Q |}.

Definition seeded_embeddings : list SemanticFunctionEmbedding :=
  [ {| emb_id := 1; emb_function_id := 8; emb_type := "description";
       emb_vector := [3 # 5; 4 # 5]%Q |};
    {| emb_id := 2; emb_function_id := 8; emb_type := "example";
       emb_vector := [4 # 5; 3 # 5]%Q |};
    {| emb_id := 3; emb_function_id := 11; emb_type := "description";
       emb_vector := [3 # 5; 4 # 5]%Q |};
    {| emb_id := 4; emb_function_id := 11; emb_type := "example";
       emb_vector := [1; 0]%Q |} ].

Definition order_7 : Order :=
  {| order_id := 7; order_user_id := 1; order_status := "created";
     order_total := 2598 # 100; order_created_at := 900 |}.

(** The store before any cart exists, and the store in which user 1 has
    checked out order 7. *)
Definition store : DB :=
  {| books := catalog; carts := []; cart_items := []; orders := [];
     order_items := []; payments := [];
     semantic_functions := [sf_process_payment; sf_confirm_payment];
     semantic_function_embeddings := seeded_embeddings; execution_logs := [] |}.

Definition store_with_order : DB :=
  {| books := catalog;
     carts := [{| cart_id := 1; cart_user_id := 1; cart_status := "checked_out" |}];
     cart_items := [{| item_id := 1; item_cart_id := 1; item_book_id := 1; item_quantity := 2 |}];
     orders := [order_7];
     order_items := [{| oi_id := 1; oi_order_id := 7; oi_book_id := 1; oi_quantity := 2;
                        oi_unit_price := 1299 # 100 |}];
     payments := [];
     semantic_functions := [sf_process_payment; sf_confirm_payment];
     semantic_function_embeddings := seeded_embeddings; execution_logs := [] |}.

Definition no_fault : nat -> option string := fun _ => None.

(** The storage call number [n] raises an exception whose message is [msg]. *)
Definition fault_at (n : nat) (msg : string) : nat -> option string :=
  fun i => if Nat.eqb i n then Some msg else None.

(** A fresh session on a database: nothing pending. *)
Definition session_on (d : DB) (plan : nat -> option string) (draw : Q) : Session :=
  {| committed := d; working := d; now := 1000; fault_plan := plan; rng := fun _ => draw;
     io_count := 0; rand_count := 0; llm_calls := 0 |}.

Definition flow := run_flow default_settings provider_down provider_down json_text format_2f.

Definition orchestrator :=
  handle_query default_settings provider_down provider_down json_text format_2f
    no_pattern_found encode_east dot round_4 words_found no_group_found
    unit (fun _ _ _ => ret tt) (fun _ => None) (fun r => r) (fun _ => "{}") (fun _ _ => "").

Definition resolver :=
  select_function default_settings provider_down provider_down no_pattern_found
    encode_east dot round_4.

(** What a run of the flow engine answers and where it went. *)
Definition answer_of (r : outcome FlowState * Session) : option (string * list string) :=
  match fst r with
  | Ok st => Some (response st, state_trace st)
  | Raise _ => None
  end.

Definition two_dune : Params :=
  {| p_book_id := Some 1; p_quantity := Some 2; p_order_id := None |}.

Definition thirty_dune : Params :=
  {| p_book_id := Some 1; p_quantity := Some 30; p_order_id := None |}.

Definition no_params : Params :=
  {| p_book_id := None; p_quantity := None; p_order_id := None |}.

Definition order_7_params : Params :=
  {| p_book_id := None; p_quantity := None; p_order_id := Some 7 |}.

Definition full_trace : list string :=
  ["VALIDATE_INPUT"; "LOAD_CONTEXT"; "APPLY_ACTION"; "PERSIST"; "BUILD_RESPONSE"].

(** ** Runs of the flow engine *)

Example add_two_copies :
  let run := flow "add_book_to_cart" 1 "compra 2 Dune" two_dune (session_on store no_fault (1 # 2)) in
  answer_of run =
    Some ("**Dune** (x2) agregado al carrito." ++ Py.nl ++ Py.nl ++
          "¿Qué deseas hacer ahora?" ++ Py.nl ++
          "- Escribe **" ++ Py.dq ++ "ver mi carrito" ++ Py.dq ++ "** para ver el contenido" ++ Py.nl ++
          "- Escribe **" ++ Py.dq ++ "hacer checkout" ++ Py.dq ++ "** para crear tu orden",
          full_trace) /\
  carts (committed (snd run)) = [{| cart_id := 1; cart_user_id := 1; cart_status := "active" |}] /\
  cart_items (committed (snd run)) =
    [{| item_id := 1; item_cart_id := 1; item_book_id := 1; item_quantity := 2 |}] /\
  books (committed (snd run)) = catalog.
Proof. vm_compute. repeat split. Qed.

Example payment_prompt :
  let run := flow "process_payment" 1 "pagar orden #7" order_7_params
               (session_on store_with_order no_fault (1 # 2)) in
  answer_of run =
    Some ("Estás a punto de pagar **$25.98** para la orden **#7**." ++ Py.nl ++ Py.nl ++
          "Responde **" ++ Py.dq ++ "sí, confirmo el pago" ++ Py.dq ++ "** para procesar el pago.",
          full_trace) /\
  orders (committed (snd run)) = [order_7] /\
  payments (committed (snd run)) = [].
Proof. vm_compute. repeat split. Qed.

Example payment_approved :
  let run := flow "confirm_payment" 1 "sí, confirmo el pago" no_params
               (session_on store_with_order no_fault (1 # 2)) in
  answer_of run =
    Some ("Pago **aprobado** para la orden **#7**." ++ Py.nl ++
          "Monto: **$25.98**." ++ Py.nl ++ Py.nl ++ "¡Gracias por tu compra!", full_trace) /\
  map order_status (orders (committed (snd run))) = ["paid"] /\
  map payment_status (payments (committed (snd run))) = ["approved"].
Proof. vm_compute. repeat split. Qed.

Example payment_rejected :
  let run := flow "confirm_payment" 1 "sí, confirmo el pago" no_params
               (session_on store_with_order no_fault (9 # 10)) in
  answer_of run =
    Some ("El pago para la orden **#7** fue rechazado. Intenta de nuevo.", full_trace) /\
  map order_status (orders (committed (snd run))) = ["created"] /\
  map payment_status (payments (committed (snd run))) = ["rejected"].
Proof. vm_compute. repeat split. Qed.

Example cancel_without_order_id :
  let s := session_on store_with_order no_fault (1 # 2) in
  flow "cancel_order" 1 "cancela mi pedido" no_params s =
    (Ok (with_response
           (validate_input (initial_state "cancel_order" 1 "cancela mi pedido" no_params))
           ["VALIDATE_INPUT"; "ASK_INPUT"]
           "Para continuar, necesito que me indiques el número de orden."), s).
Proof. vm_compute. reflexivity. Qed.

(** A whole purchase, each request in a session of its own: the stock of
    Dune is 25 before and after. *)
Example purchase_keeps_stock :
  let after :=
    run_requests default_settings provider_down provider_down json_text format_2f
      [ {| req_function := "add_book_to_cart"; req_user := 1; req_query := "compra 2 Dune";
           req_params := two_dune |};
        {| req_function := "checkout_order"; req_user := 1; req_query := "hacer checkout";
           req_params := no_params |};
        {| req_function := "confirm_payment"; req_user := 1; req_query := "sí, confirmo el pago";
           req_params := no_params |} ]
      (session_on store no_fault (1 # 2)) in
  map order_status (orders (committed after)) = ["paid"] /\
  map oi_quantity (order_items (committed after)) = [2] /\
  map payment_status (payments (committed after)) = ["approved"] /\
  map book_stock (books (committed after)) = [25; 3; 4].
Proof. vm_compute. repeat split. Qed.

(** ** Insufficient stock *)

Definition dune_ctx : BookCtx :=
  {| bctx_id := 1; bctx_title := "Dune"; bctx_price := 1299 # 100; bctx_stock := 25 |}.

Definition dune_loaded : Context :=
  {| ctx_book := Some dune_ctx; ctx_cart_id := None; ctx_cart_items := None;
     ctx_order := None |}.

Example dune_is_loaded :
  let s := session_on store no_fault (1 # 2) in
  load_context_ctx "add_book_to_cart" thirty_dune 1 s = (Ok dune_loaded, tick_io (tick_io s)).
Proof. vm_compute. reflexivity. Qed.

(** Thirty copies of a book that has 25 in stock. *)
Lemma thirty_copies_refused :
  let s := tick_io (tick_io (session_on store no_fault (1 # 2))) in
  ctx_book dune_loaded = Some dune_ctx /\
  bctx_stock dune_ctx < Py.get_default (p_quantity thirty_dune) 1 /\
  _action_add_to_cart 1 thirty_dune dune_loaded s = (Ok (failure "Stock insuficiente"), s).
Proof.
  cbv zeta. split; [reflexivity | ]. split; [reflexivity | ].
  exact (proj1 (add_to_cart_insufficient_stock 1 thirty_dune dune_loaded dune_ctx _
                  eq_refl eq_refl)).
Defined.

(** ** The embedding tier *)

(** Two actions known by their combined vector only (there is no
    per-example embedding); the query scores 39/89 (0.438) with the first
    and 36/85 (0.424) with the second. The top score reaches the combined
    threshold 0.30; it is below the multi-vector threshold 0.45 and below
    the high-confidence threshold 0.65; and the gap 0.015 is below 0.05. *)
Definition sf_search : SemanticFunction :=
  {| fn_id := 1; fn_name := "search_books_for_sale";
     fn_description := "Buscar libros en el catálogo";
     fn_embedding := Some [39 # 89; 80 # 89]%Q |}.

Definition sf_recommend : SemanticFunction :=
  {| fn_id := 2; fn_name := "recommend_books_for_purchase";
     fn_description := "Recomendar libros";
     fn_embedding := Some [36 # 85; 77 # 85]%Q |}.

Definition tier :=
  embedding_tier default_settings provider_down provider_down encode_east dot round_4.

Lemma low_gap_still_accepted :
  let s := session_on store no_fault (1 # 2) in
  [sf_search; sf_recommend] <> [] /\
  (combined_similarity_threshold default_settings <= 39 # 89)%Q /\
  (39 # 89 < similarity_threshold default_settings)%Q /\
  (39 # 89 < high_confidence_threshold default_settings)%Q /\
  ((39 # 89) - (36 # 85) < confidence_gap_threshold default_settings)%Q /\
  tier "algo de misterio" [sf_search; sf_recommend] [] s =
    (Ok {| sm_function_name := "search_books_for_sale"; sm_similarity := 39 # 89;
           sm_method := "semantic";
           sm_top_candidates := [("search_books_for_sale", 4382 # 10000);
                                 ("recommend_books_for_purchase", 4235 # 10000)] |}, s).
Proof.
  cbv zeta.
  assert (Hne : [sf_search; sf_recommend] <> []) by discriminate.
  assert (Hreach : (combined_similarity_threshold default_settings <= 39 # 89)%Q)
    by (vm_compute; discriminate).
  split; [exact Hne | ]. split; [exact Hreach | ].
  split; [reflexivity | ]. split; [reflexivity | ]. split; [reflexivity | ].
  destruct (embedding_tier_accepts_top default_settings provider_down provider_down
              encode_east dot round_4 "algo de misterio" [sf_search; sf_recommend] []
              (session_on store no_fault (1 # 2)) Hne)
    as (best_fn & best_score & others & E & _ & _ & _ & Hacc).
  vm_compute in E. injection E as <- <- <-.
  apply Hacc. right. left. split; [reflexivity | exact Hreach].
Defined.

(** One action whose score, 7/25 (0.28), lies between the floor 0.25 and the
    base threshold 0.30: the provider is asked, and it is down. *)
Definition sf_order_status : SemanticFunction :=
  {| fn_id := 10; fn_name := "get_order_status";
     fn_description := "Consultar el estado de una orden";
     fn_embedding := Some [7 # 25; 24 # 25]%Q |}.

Lemma provider_down_is_clarification :
  let s := session_on store no_fault (1 # 2) in
  [sf_order_status] <> [] /\
  tier "y lo mío qué" [sf_order_status] [] s =
    (Ok {| sm_function_name := ""; sm_similarity := 7 # 25; sm_method := "clarification";
           sm_top_candidates := [("get_order_status", 2800 # 10000)] |}, tick_llm s).
Proof.
  cbv zeta.
  assert (Hne : [sf_order_status] <> []) by discriminate.
  split; [exact Hne | ].
  destruct (generative_fallback_guarded default_settings provider_down provider_down
              encode_east dot round_4 "y lo mío qué" [sf_order_status] []
              (session_on store no_fault (1 # 2)) Hne)
    as (best_fn & best_score & others & E & _ & _ & Hclar).
  vm_compute in E. injection E as <- <- <-.
  apply Hclar.
  - vm_compute. discriminate.
  - reflexivity.
  - reflexivity.
  - intros name H. vm_compute in H. discriminate H.
Defined.

(** ** A confirmation that is resolved and never dispatched *)

(** The scores of the two seeded actions for a query that is one of the
    examples of [confirm_payment]: 0.84 and 0.72. *)
Definition confirm_score : Q := (6 # 10) * 1 + (4 # 10) * (3 # 5).
Definition pay_score : Q := (6 # 10) * (4 # 5) + (4 # 10) * (3 # 5).

Definition confirmation : SemanticMatch :=
  {| sm_function_name := "confirm_payment"; sm_similarity := confirm_score;
     sm_method := "semantic";
     sm_top_candidates := [("confirm_payment", round_4 confirm_score);
                           ("process_payment", round_4 pay_score)] |}.

Definition waiting_for_payment : Session := session_on store_with_order no_fault (1 # 2).

Example confirmation_is_resolved :
  resolver "sí, confirmo el pago" waiting_for_payment =
    (Ok confirmation, tick_io (tick_io waiting_for_payment)) /\
  (high_confidence_threshold default_settings <= sm_similarity confirmation)%Q.
Proof. split; [vm_compute; reflexivity | vm_compute; discriminate]. Qed.

(** User 1 has order 7 in state created and answers the payment prompt:
    the answer is resolved to [confirm_payment], the reply is the internal
    error, no payment row is written and order 7 stays as it was. *)
Lemma confirmation_gets_internal_error :
  _check_help_query no_pattern_found "sí, confirmo el pago" = None /\
  resolver "sí, confirmo el pago" waiting_for_payment =
    (Ok confirmation, tick_io (tick_io waiting_for_payment)) /\
  sm_function_name confirmation = "confirm_payment" /\
  exists s',
    orchestrator "sí, confirmo el pago" 1 None waiting_for_payment =
      (Ok (plain_result "Error interno del orquestador." "confirm_payment" "error"
             (sm_similarity confirmation) None), s') /\
    payments (working s') = [] /\
    orders (working s') = [order_7] /\
    committed s' = store_with_order.
Proof.
  assert (H1 : _check_help_query no_pattern_found "sí, confirmo el pago" = None)
    by reflexivity.
  assert (H2 : resolver "sí, confirmo el pago" waiting_for_payment =
               (Ok confirmation, tick_io (tick_io waiting_for_payment)))
    by (vm_compute; reflexivity).
  assert (H3 : sm_function_name confirmation = "confirm_payment") by reflexivity.
  split; [exact H1 | ]. split; [exact H2 | ]. split; [exact H3 | ].
  exact (confirm_payment_not_dispatched default_settings provider_down provider_down
           json_text format_2f no_pattern_found encode_east dot round_4 words_found
           no_group_found unit (fun _ _ _ => ret tt) (fun _ => None) (fun r => r)
           (fun _ => "{}") (fun _ _ => "")
           "sí, confirmo el pago" 1 None waiting_for_payment confirmation _ H1 H2 H3).
Defined.

(** The same answer in its short form, from another chat session: the reply
    is returned and no audit record is written or committed. *)
Lemma confirmation_leaves_no_log :
  _check_help_query no_pattern_found "confirmo" = None /\
  resolver "confirmo" waiting_for_payment =
    (Ok confirmation, tick_io (tick_io waiting_for_payment)) /\
  sm_function_name confirmation <> "" /\
  Py.str_in (sm_function_name confirmation) LANGGRAPH_FUNCTIONS = false /\
  Py.str_in (sm_function_name confirmation) DIRECT_FUNCTIONS = false /\
  exists r s',
    orchestrator "confirmo" 1 (Some 12) waiting_for_payment = (Ok r, s') /\
    or_response r = "Error interno del orquestador." /\
    execution_logs (working s') = [] /\
    execution_logs (committed s') = [] /\
    io_count s' = 2%nat.
Proof.
  assert (H1 : _check_help_query no_pattern_found "confirmo" = None) by reflexivity.
  assert (H2 : resolver "confirmo" waiting_for_payment =
               (Ok confirmation, tick_io (tick_io waiting_for_payment)))
    by (vm_compute; reflexivity).
  assert (H3 : sm_function_name confirmation <> "") by discriminate.
  assert (H4 : Py.str_in (sm_function_name confirmation) LANGGRAPH_FUNCTIONS = false)
    by reflexivity.
  assert (H5 : Py.str_in (sm_function_name confirmation) DIRECT_FUNCTIONS = false)
    by reflexivity.
  split; [exact H1 | ]. split; [exact H2 | ]. split; [exact H3 | ].
  split; [exact H4 | ]. split; [exact H5 | ].
  exact (unrouted_query_writes_no_log default_settings provider_down provider_down
           json_text format_2f no_pattern_found encode_east dot round_4 words_found
           no_group_found unit (fun _ _ _ => ret tt) (fun _ => None) (fun r => r)
           (fun _ => "{}") (fun _ _ => "")
           "confirmo" 1 (Some 12) waiting_for_payment confirmation _ H1 H2 H3 H4 H5).
Defined.

(** The same query, run: nothing but the two reads of the resolver. *)
Example confirmation_run :
  let run := orchestrator "sí, confirmo el pago" 1 None waiting_for_payment in
  option_map or_response (match fst run with Ok r => Some r | Raise _ => None end) =
    Some "Error interno del orquestador." /\
  working (snd run) = store_with_order /\
  committed (snd run) = store_with_order.
Proof. vm_compute. repeat split. Qed.

(** ** An exception inside APPLY_ACTION *)

Definition new_cart : Cart := {| cart_id := 1; cart_user_id := 1; cart_status := "active" |}.

Definition dune_context_loaded : FlowState :=
  {| user_id := 1; function_name := "add_book_to_cart"; query := "compra 2 Dune";
     params := two_dune; context := dune_loaded; action_result := empty_result;
     response := ""; state_trace := ["VALIDATE_INPUT"; "LOAD_CONTEXT"];
     needs_input := false; missing_fields := []; error := None |}.

(** The session in which the fourth storage call (the lookup of the cart
    item, after the two reads of LOAD_CONTEXT and the flush of the new cart)
    raises an exception whose message is [msg], and that session at the
    moment of the exception: the new cart is pending. *)
Definition lookup_fails (msg : string) : Session := session_on store (fault_at 3 msg) (1 # 2).

Definition interrupted (msg : string) : Session :=
  {| committed := store; working := with_carts [new_cart] store; now := 1000;
     fault_plan := fault_at 3 msg; rng := fun _ => 1 # 2;
     io_count := 4; rand_count := 0; llm_calls := 0 |}.

(** The exception has an empty message (as [asyncio.TimeoutError()] has):
    PERSIST runs and commits the cart of the failed action, and the reply is
    the template of the action, not the error. *)
Lemma silent_exception_is_persisted :
  missing_required "add_book_to_cart" two_dune = [] /\
  Py.str_in "add_book_to_cart" TRANSACTIONAL_ACTIONS = true /\
  load_context (validate_input (initial_state "add_book_to_cart" 1 "compra 2 Dune" two_dune))
    (lookup_fails "") = (Ok dune_context_loaded, tick_io (tick_io (lookup_fails ""))) /\
  dispatch_action "add_book_to_cart" 1 two_dune dune_loaded (tick_io (tick_io (lookup_fails "")))
    = (Raise "", interrupted "") /\
  fault_plan (interrupted "") (io_count (interrupted "")) = None /\
  exists st s',
    flow "add_book_to_cart" 1 "compra 2 Dune" two_dune (lookup_fails "") = (Ok st, s') /\
    error st = Some "" /\
    state_trace st = full_trace /\
    response st = "No se pudo agregar al carrito." /\
    committed s' = with_carts [new_cart] store.
Proof.
  assert (H1 : missing_required "add_book_to_cart" two_dune = []) by reflexivity.
  assert (H2 : Py.str_in "add_book_to_cart" TRANSACTIONAL_ACTIONS = true) by reflexivity.
  assert (H3 : load_context
                 (validate_input (initial_state "add_book_to_cart" 1 "compra 2 Dune" two_dune))
                 (lookup_fails "")
               = (Ok dune_context_loaded, tick_io (tick_io (lookup_fails ""))))
    by (vm_compute; reflexivity).
  assert (H4 : dispatch_action (function_name dune_context_loaded) (user_id dune_context_loaded)
                 (params dune_context_loaded) (context dune_context_loaded)
                 (tick_io (tick_io (lookup_fails ""))) = (Raise "", interrupted ""))
    by (vm_compute; reflexivity).
  assert (H5 : fault_plan (interrupted "") (io_count (interrupted "")) = None) by reflexivity.
  split; [exact H1 | ]. split; [exact H2 | ]. split; [exact H3 | ].
  split; [exact H4 | ]. split; [exact H5 | ].
  exact (empty_exception_message_persists default_settings provider_down provider_down
           json_text format_2f "add_book_to_cart" 1 "compra 2 Dune" two_dune
           (lookup_fails "") dune_context_loaded _ (interrupted "") H1 H2 H3 H4 H5).
Defined.

(** The same run, evaluated. *)
Example silent_exception_run :
  let run := flow "add_book_to_cart" 1 "compra 2 Dune" two_dune (lookup_fails "") in
  answer_of run = Some ("No se pudo agregar al carrito.", full_trace) /\
  carts (committed (snd run)) = [new_cart] /\
  cart_items (committed (snd run)) = [].
Proof. vm_compute. repeat split. Qed.

(** With a message the flow skips PERSIST and names the error. *)
Example timeout_run :
  let run := flow "add_book_to_cart" 1 "compra 2 Dune" two_dune (lookup_fails "timeout") in
  answer_of run =
    Some ("Hubo un error al procesar tu solicitud: timeout",
          ["VALIDATE_INPUT"; "LOAD_CONTEXT"; "APPLY_ACTION"; "BUILD_RESPONSE"]) /\
  carts (committed (snd run)) = [] /\
  carts (working (snd run)) = [new_cart].
Proof. vm_compute. repeat split. Qed.

(** ** Two titles that contain every keyword *)

Definition potter_books : list Book := [sorcerers_stone; chamber_of_secrets].

(** Neither title occurs in "harry potter"; both contain its two keywords,
    so the top score 2 is tied: the resolver answers found with the first
    book, not ambiguous. *)
Lemma tied_full_match_is_found :
  (forall b, In b potter_books -> exact_hit "harry potter" b = false) /\
  _extract_keywords words_found "harry potter" = ["harry"; "potter"] /\
  keyword_matches ["harry"; "potter"] sorcerers_stone = 2%nat /\
  keyword_matches ["harry"; "potter"] chamber_of_secrets = 2%nat /\
  resolve_among words_found "harry potter" potter_books = found sorcerers_stone /\
  ~ (exists candidates,
       resolve_among words_found "harry potter" potter_books = ambiguous candidates).
Proof.
  assert (R : resolve_among words_found "harry potter" potter_books = found sorcerers_stone)
    by (vm_compute; reflexivity).
  split.
  { intros b [<- | [<- | []]]; vm_compute; reflexivity. }
  split; [vm_compute; reflexivity | ].
  split; [vm_compute; reflexivity | ].
  split; [vm_compute; reflexivity | ].
  split; [exact R | ].
  intros [candidates H]. rewrite R in H. discriminate H.
Qed.

(** ** The flow engine, further runs *)

(** The run of [add_two_copies] visits the nodes that the graph prescribes. *)
Lemma add_two_copies_walks_the_graph :
  exists st s',
    flow "add_book_to_cart" 1 "compra 2 Dune" two_dune (session_on store no_fault (1 # 2))
      = (Ok st, s') /\
    graph_walk build_flow_graph 6 "VALIDATE_INPUT" st = Some full_trace.
Proof.
  unfold flow.
  match goal with
  | |- exists st s', ?run = _ /\ _ => destruct run as [[st | msg] s'] eqn:E
  end; [ | vm_compute in E; discriminate E].
  exists st, s'. split; [reflexivity | ].
  destruct (run_flow_follows_graph default_settings provider_down provider_down json_text
              format_2f "add_book_to_cart" 1 "compra 2 Dune" two_dune _ st s' E) as [W _].
  vm_compute in E. injection E as <- <-. exact W.
Defined.

(** The commit of PERSIST, the fifth storage call of this run (after the
    two reads of LOAD_CONTEXT, the flush of the new cart and the lookup of
    the cart item), fails and the rollback succeeds: the reply announces
    the two copies, and the store has no cart. *)
Definition commit_fails : Session := session_on store (fault_at 4 "connection lost") (1 # 2).

Lemma lost_commit_is_announced :
  exists st s',
    flow "add_book_to_cart" 1 "compra 2 Dune" two_dune commit_fails = (Ok st, s') /\
    error st = None /\
    state_trace st = full_trace /\
    response st =
      "**Dune** (x2) agregado al carrito." ++ Py.nl ++ Py.nl ++
      "¿Qué deseas hacer ahora?" ++ Py.nl ++
      "- Escribe **" ++ Py.dq ++ "ver mi carrito" ++ Py.dq ++ "** para ver el contenido" ++ Py.nl ++
      "- Escribe **" ++ Py.dq ++ "hacer checkout" ++ Py.dq ++ "** para crear tu orden" /\
    working s' = store /\ committed s' = store.
Proof.
  assert (H1 : missing_required "add_book_to_cart" two_dune = []) by reflexivity.
  assert (H2 : Py.str_in "add_book_to_cart" TRANSACTIONAL_ACTIONS = true) by reflexivity.
  assert (H3 : load_context
                 (validate_input (initial_state "add_book_to_cart" 1 "compra 2 Dune" two_dune))
                 commit_fails
               = (Ok dune_context_loaded, tick_io (tick_io commit_fails)))
    by (vm_compute; reflexivity).
  destruct (dispatch_action (function_name dune_context_loaded) (user_id dune_context_loaded)
              (params dune_context_loaded) (context dune_context_loaded)
              (tick_io (tick_io commit_fails))) as [[r | msg] s2] eqn:H4;
    [ | vm_compute in H4; discriminate H4].
  pose proof H4 as H4'. vm_compute in H4'. injection H4' as Hr Hs. 
  assert (H5 : fault_plan s2 (io_count s2) = Some "connection lost")
    by (rewrite <- Hs; reflexivity).
  assert (H6 : fault_plan s2 (S (io_count s2)) = None) by (rewrite <- Hs; reflexivity).
  destruct (proj1 (commit_failure_is_silent default_settings provider_down provider_down
                     json_text format_2f "add_book_to_cart" 1 "compra 2 Dune" two_dune
                     commit_fails dune_context_loaded _ r s2 "connection lost"
                     H1 H2 H3 H4 H5) H6)
    as (st & s' & E & He & Ht & Hresp & Hw & Hc).
  exists st, s'. split; [exact E | ]. split; [exact He | ]. split; [exact Ht | ].
  split; [ | split; [exact Hw | exact Hc]].
  rewrite Hresp, <- Hr. vm_compute. reflexivity.
Defined.

(** User 2 asks to cancel order 7, which belongs to user 1. *)
Lemma order_of_another_user_is_not_found :
  exists st s',
    flow "cancel_order" 2 "cancela la orden 7" order_7_params
      (session_on store_with_order no_fault (1 # 2)) = (Ok st, s') /\
    response st = "Orden no encontrada" /\
    success (action_result st) = Some false /\
    orders (committed s') = [order_7].
Proof.
  assert (H1 : "cancel_order" = "process_payment" \/ "cancel_order" = "confirm_payment" \/
               "cancel_order" = "cancel_order") by (right; right; reflexivity).
  assert (H2 : p_order_id order_7_params = Some 7) by reflexivity.
  assert (H3 : 7 <> 0) by discriminate.
  assert (H4 : forall o, In o (orders (working (session_on store_with_order no_fault (1 # 2)))) ->
                         order_id o = 7 -> order_user_id o <> 2).
  { intros o [<- | []] _. discriminate. }
  assert (H5 : forall n, fault_plan (session_on store_with_order no_fault (1 # 2)) n = None)
    by reflexivity.
  destruct (foreign_order_is_not_found default_settings provider_down provider_down json_text
              format_2f "cancel_order" 2 "cancela la orden 7" order_7_params 7 _
              H1 H2 H3 H4 H5) as (st & s' & E & Hresp & Hsucc & _ & Hc & _).
  exists st, s'. split; [exact E | ]. split; [exact Hresp | ]. split; [exact Hsucc | ].
  rewrite Hc. reflexivity.
Defined.

(** ** The chat with the executors of the file *)

(** [text ILIKE pattern] for the patterns ["%kw%"] whose [kw] holds no
    wildcard: [kw] occurs in [text], whatever the case of the letters. *)
Definition ilike_plain (text pattern : string) : bool :=
  Py.contains (Py.lower (String.substring 1 (String.length pattern - 2) pattern))
    (Py.lower text).

Definition read_catalogue : string -> string -> Z -> M Dict :=
  _execute_direct words_found no_group_found ilike_plain.

(** The orchestrator with these executors; what it derives from their
    results plays no part in the runs below, which go to the flow engine. *)
Definition chat :=
  handle_query default_settings provider_down provider_down json_text format_2f
    no_pattern_found encode_east dot round_4 words_found no_group_found
    Dict read_catalogue (fun _ => None) (fun r => r) (fun _ => "{}") (fun _ _ => "").

Definition conversation :=
  run_queries default_settings provider_down provider_down json_text format_2f
    no_pattern_found encode_east dot round_4 words_found no_group_found
    Dict read_catalogue (fun _ => None) (fun r => r) (fun _ => "{}") (fun _ _ => "").

(** A store whose only action is [add_book_to_cart], known by a combined
    vector that is the vector of every query. *)
Definition sf_add_to_cart : SemanticFunction :=
  {| fn_id := 4; fn_name := "add_book_to_cart";
     fn_description := "Agregar un libro al carrito";
     fn_embedding := Some [1; 0]%Q |}.

Definition library : DB :=
  {| books := catalog; carts := []; cart_items := []; orders := [];
     order_items := []; payments := [];
     semantic_functions := [sf_add_to_cart];
     semantic_function_embeddings := []; execution_logs := [] |}.

(** The executors only read, so they keep the payments; and a
    conversation that adds a book and then confirms a payment records no
    payment. *)
Lemma conversation_records_no_payment :
  (forall fn q u, steps (keeps payments) (read_catalogue fn q u)) /\
  payments (committed (conversation 1 (Some 12) ["harry potter"; "sí, confirmo el pago"]
                         (session_on library no_fault (1 # 2)))) = [].
Proof.
  assert (H : forall fn q u, steps (keeps payments) (read_catalogue fn q u)).
  { intros fn q u s. apply reads_keeps.
    exact (execute_direct_reads words_found no_group_found ilike_plain fn q u s). }
  split; [exact H | ].
  exact (proj2 (chat_never_records_payment default_settings provider_down provider_down
                  json_text format_2f no_pattern_found encode_east dot round_4 words_found
                  no_group_found Dict read_catalogue (fun _ => None) (fun r => r)
                  (fun _ => "{}") (fun _ _ => "") 1 (Some 12) H)
               ["harry potter"; "sí, confirmo el pago"] (session_on library no_fault (1 # 2))).
Defined.

(** The query "harry potter" adds the first of the two books to a new
    cart, and the audit row says what the reply says. *)
Lemma added_book_is_audited :
  exists r s' row,
    chat "harry potter" 1 (Some 12) (session_on library no_fault (1 # 2)) = (Ok r, s') /\
    or_function_name r = "add_book_to_cart" /\
    or_method r = "semantic" /\
    or_state_trace r = Some full_trace /\
    execution_logs (committed s') = [row] /\
    log_user_id row = 1 /\ log_session_id row = Some 12 /\
    log_query row = "harry potter" /\
    log_matched_function row = "add_book_to_cart" /\
    log_method row = "semantic" /\
    log_state_trace row = Some full_trace /\
    log_result row = or_response r.
Proof.
  unfold chat.
  assert (H1 : forall fn q u, steps quiet (read_catalogue fn q u)).
  { intros fn q u s. apply reads_quiet.
    exact (execute_direct_reads words_found no_group_found ilike_plain fn q u s). }
  assert (H2 : forall n, fault_plan (session_on library no_fault (1 # 2)) n = None)
    by reflexivity.
  assert (H3 : execution_logs (working (session_on library no_fault (1 # 2))) =
               execution_logs (committed (session_on library no_fault (1 # 2))))
    by reflexivity.
  match goal with
  | |- exists r s' row, ?run = _ /\ _ => destruct run as [[r | msg] s'] eqn:E
  end; [ | vm_compute in E; discriminate E].
  pose proof E as E'. vm_compute in E'. injection E' as Hr Hs.
  assert (H5 : or_method r <> "error") by (rewrite <- Hr; discriminate).
  destruct (audit_row_matches_reply default_settings provider_down provider_down
              json_text format_2f no_pattern_found encode_east dot round_4 words_found
              no_group_found Dict read_catalogue (fun _ => None) (fun r => r)
              (fun _ => "{}") (fun _ _ => "") "harry potter" 1 (Some 12)
              (session_on library no_fault (1 # 2)) r s' H1 H2 H3 E H5)
    as (row & Hlog & _ & Hu & Hsid & Hq & Hf & Hm & Hres & Htr & _).
  assert (Hname : or_function_name r = "add_book_to_cart") by (rewrite <- Hr; reflexivity).
  assert (Hmeth : or_method r = "semantic") by (rewrite <- Hr; reflexivity).
  assert (Htrace : or_state_trace r = Some full_trace) by (rewrite <- Hr; reflexivity).
  assert (Hrows : execution_logs (committed s') = [row]) by exact Hlog.
  clear Hr Hs Hlog.
  exists r, s', row. split; [reflexivity | ].
  split; [exact Hname | ]. split; [exact Hmeth | ]. split; [exact Htrace | ].
  split; [exact Hrows | ]. split; [exact Hu | ]. split; [exact Hsid | ].
  split; [exact Hq | ]. split; [rewrite Hf; exact Hname | ].
  split; [rewrite Hm; exact Hmeth | ]. split; [rewrite Htr; exact Htrace | exact Hres].
Defined.

(** ** Carts and checkout *)

Definition requests :=
  run_requests default_settings provider_down provider_down json_text format_2f.

(** User 1 has an empty active cart. *)
Definition store_with_cart : DB := with_carts [new_cart] store.

Lemma cart_scene_of_user_1 :
  CartScene 1 new_cart dune (session_on store_with_cart no_fault (1 # 2)).
Proof.
  constructor; try reflexivity; discriminate.
Qed.

(** Two copies of Dune added and removed: the store is as before. *)
Lemma two_copies_added_and_removed :
  2 <= book_stock dune /\
  committed (requests [cart_request "add_book_to_cart" 1 dune (Some 2);
                       cart_request "remove_book_from_cart" 1 dune None]
               (session_on store_with_cart no_fault (1 # 2))) = store_with_cart.
Proof.
  assert (H1 : 2 <> 0) by discriminate.
  assert (H2 : 2 <= book_stock dune) by discriminate.
  assert (H3 : filter (in_cart new_cart dune)
                 (cart_items (committed (session_on store_with_cart no_fault (1 # 2)))) = [])
    by reflexivity.
  split; [exact H2 | ].
  exact (add_then_remove_restores_cart default_settings provider_down provider_down json_text
           format_2f 1 new_cart dune 2 (session_on store_with_cart no_fault (1 # 2))
           cart_scene_of_user_1 H1 H2 H3).
Defined.

(** Twenty copies of Dune, twice: each request passes the stock check (25
    in stock), and the cart ends with one row of 40 copies. *)
Lemma forty_copies_in_the_cart :
  book_stock dune = 25 /\
  cart_items
    (committed (requests [cart_request "add_book_to_cart" 1 dune (Some 20);
                          cart_request "add_book_to_cart" 1 dune (Some 20)]
                  (session_on store_with_cart no_fault (1 # 2)))) =
    [{| item_id := 1; item_cart_id := 1; item_book_id := 1; item_quantity := 40 |}].
Proof.
  assert (H1 : 20 <> 0) by discriminate.
  assert (H2 : 20 <= book_stock dune) by discriminate.
  assert (H3 : filter (in_cart new_cart dune)
                 (cart_items (committed (session_on store_with_cart no_fault (1 # 2)))) = [])
    by reflexivity.
  split; [reflexivity | ].
  exact (proj1 (add_twice_merges default_settings provider_down provider_down json_text
                  format_2f 1 new_cart dune 20 20 (session_on store_with_cart no_fault (1 # 2))
                  cart_scene_of_user_1 H1 H2 H1 H2 H3)).
Defined.

(** The cart of user 1 holds two copies of Dune and one of the first Harry
    Potter: 2 x 12.99 + 15.00 = 40.98. *)
Definition store_with_items : DB :=
  with_cart_items
    [ {| item_id := 1; item_cart_id := 1; item_book_id := 1; item_quantity := 2 |};
      {| item_id := 2; item_cart_id := 1; item_book_id := 2; item_quantity := 1 |} ]
    store_with_cart.

Lemma checkout_scene_of_user_1 :
  CheckoutScene 1 new_cart (session_on store_with_items no_fault (1 # 2)).
Proof.
  constructor; try reflexivity; try discriminate.
  repeat constructor.
Qed.

Lemma checkout_of_two_lines :
  let s1 := serve default_settings provider_down provider_down json_text format_2f
              (checkout_request 1) (session_on store_with_items no_fault (1 # 2)) in
  (exists total,
     orders (committed s1) =
       [{| order_id := 1; order_user_id := 1; order_status := "created";
           order_total := total; order_created_at := 1000 |}] /\
     (total == 4098 # 100)%Q) /\
  map cart_status (carts (committed s1)) = ["checked_out"] /\
  exists st s2,
    flow "checkout_order" 1 "hacer checkout" no_params (open_session s1) = (Ok st, s2) /\
    response st = "Tu carrito está vacío" /\ committed s2 = committed s1.
Proof.
  cbv zeta. unfold flow.
  destruct (checkout_once default_settings provider_down provider_down json_text format_2f
              1 new_cart (session_on store_with_items no_fault (1 # 2))
              checkout_scene_of_user_1)
    as (Ho & _ & Hc & _ & _ & _ & Hsecond).
  split; [ | split; [ | exact Hsecond]].
  - eexists. split; [exact Ho | ]. vm_compute. reflexivity.
  - rewrite Hc. reflexivity.
Defined.

(** ** The resolver, further runs *)

(** "confirmo" is resolved by the embedding tier to one of the two seeded
    actions. *)
Lemma confirmation_names_a_seeded_action :
  exists m s',
    resolver "confirmo" waiting_for_payment = (Ok m, s') /\
    sm_method m = "semantic" /\
    In (sm_function_name m) ["process_payment"; "confirm_payment"].
Proof.
  unfold resolver.
  match goal with
  | |- exists m s', ?run = _ /\ _ => destruct run as [[m | msg] s'] eqn:E
  end; [ | vm_compute in E; discriminate E].
  pose proof (resolver_returns_known_names default_settings provider_down provider_down
                no_pattern_found encode_east dot round_4 "confirmo" waiting_for_payment
                m s' E) as D.
  vm_compute in E. injection E as <- <-.
  exists confirmation, (tick_io (tick_io waiting_for_payment)).
  split; [reflexivity | ].
  destruct D as [[H _] | [[H Hin] | [[H _] | [H _]]]]; try discriminate H.
  split; [exact H | exact Hin].
Defined.

(** The read of the individual embeddings, the second storage call, fails:
    the query is resolved on the combined vectors. *)
Lemma unreadable_embeddings_are_tolerated :
  let s := session_on store_with_order (fault_at 1 "timeout") (1 # 2) in
  _rule_based_match no_pattern_found "confirmo" = None /\
  resolver "confirmo" s =
    (Ok {| sm_function_name := "confirm_payment"; sm_similarity := 1;
           sm_method := "semantic";
           sm_top_candidates := [("confirm_payment", 10000 # 10000);
                                 ("process_payment", 8000 # 10000)] |},
     tick_io (tick_io s)).
Proof.
  cbv zeta. unfold resolver.
  assert (H1 : _rule_based_match no_pattern_found "confirmo" = None) by reflexivity.
  split; [exact H1 | ].
  destruct (resolver_tolerates_embedding_read_failure default_settings provider_down
              provider_down no_pattern_found encode_east dot round_4 "confirmo"
              (session_on store_with_order (fault_at 1 "timeout") (1 # 2)) H1)
    as (_ & _ & H).
  destruct (H eq_refl) as [Hfail _]; [discriminate | ].
  destruct (Hfail "timeout" eq_refl) as [-> _].
  vm_compute. reflexivity.
Defined.

(** ** The parameters of a query *)

(** The answers of Python's [re] on the numbers of the two queries used
    below: the quantity of "compra 2 Dune", which the second and the third
    pattern of quantities find, and the order number of "estado de la
    orden 7". *)
Definition digits_found (ignore_case : bool) (pattern text : string) : option string :=
  if (pattern =s "(?:compra|dame|ponme|tráeme|traeme|agrega|añade|buy|add|get)\s+(\d+)\s+") &&
     (text =s "compra 2 Dune")
  then Some "2"
  else if (pattern =s "\b(\d{1,2})\b") && (text =s "compra 2 Dune") then Some "2"
  else if (pattern =s "(?:orden|pedido|order)\s*#?\s*(\d+)") && (text =s "estado de la orden 7")
  then Some "7"
  else None.

Lemma two_dune_is_extracted :
  exists p s',
    _extract_params words_found digits_found "compra 2 Dune" "add_book_to_cart"
      (session_on store no_fault (1 # 2)) = (Ok p, s') /\
    p = two_dune /\
    1 <= 2 <= 99 /\
    (exists book, In book catalog /\ book_id book = 1) /\
    working s' = store.
Proof.
  match goal with
  | |- exists p s', ?run = _ /\ _ => destruct run as [[p | msg] s'] eqn:E
  end; [ | vm_compute in E; discriminate E].
  destruct (extracted_params_are_bounded words_found digits_found "compra 2 Dune"
              "add_book_to_cart" (session_on store no_fault (1 # 2)) p s' E)
    as (Hq & _ & Hb & Hw & _).
  vm_compute in E. injection E as Hp Hs.
  exists p, s'. split; [reflexivity | ].
  assert (Hp' : p = two_dune) by (symmetry; exact Hp).
  split; [exact Hp' | ].
  split; [apply (Hq 2); rewrite Hp'; reflexivity | ].
  split; [apply (Hb 1); rewrite Hp'; reflexivity | exact Hw].
Defined.

(** ** The executors *)


(** User 2 asks for the status of order 7, which belongs to user 1. *)
Lemma order_7_is_hidden_from_user_2 :
  exists d s',
    _get_order_status digits_found 2 "estado de la orden 7"
      (session_on store_with_order no_fault (1 # 2)) = (Ok d, s') /\
    d = order_unknown.
Proof.
  match goal with
  | |- exists d s', ?run = _ /\ _ => destruct run as [[d | msg] s'] eqn:E
  end; [ | vm_compute in E; discriminate E].
  destruct (order_status_is_own_order digits_found 2 "estado de la orden 7"
              (session_on store_with_order no_fault (1 # 2)) d s' E)
    as (_ & _ & Hn & _).
  exists d, s'. split; [reflexivity | ].
  destruct (Hn 7) as [[Hd _] | (o & [Hin Hu] & _)]; [reflexivity | discriminate | exact Hd | ].
  destruct Hin as [<- | []]. discriminate Hu.
Defined.
